(** * Skill installer / uninstaller: a shallow embedding

    The development follows the three source files of the package:
    [utils.js] (target resolution, scope stripping, location detection),
    [uninstall-skill.js] and [install-skill.js].  JavaScript values and
    JSON documents are modelled by an untyped [value] tree, the file
    system by a finite map from path strings to nodes, and every function
    that touches the file system or the console is written in a small
    state-and-exception monad. *)

From Stdlib Require Import String Ascii ZArith DecimalString.
From stdpp Require Import base option list gmap strings fin_maps.

Local Open Scope string_scope.

#[local] Set Warnings "-register-all".

(** ** JavaScript string primitives used by the sources *)

Module Str.

Definition slash : ascii := "/"%char.

Definition is_slash (c : option ascii) : bool :=
  match c with
  | Some c => Ascii.eqb c slash
  | None => false
  end.

(** [s.startsWith(c)] for a one-character [c]. *)
Definition startsWith (s : string) (c : ascii) : bool :=
  match s with
  | String c' _ => Ascii.eqb c' c
  | EmptyString => false
  end.

(** [s.includes(sub)]. *)
Fixpoint includes (s sub : string) : bool :=
  String.prefix sub s ||
  match s with
  | EmptyString => false
  | String _ s' => includes s' sub
  end.

(** [s.split(c)]: the segments between occurrences of [c]; never empty. *)
Fixpoint split (c : ascii) (s : string) : list string :=
  match s with
  | EmptyString => [EmptyString]
  | String a s' =>
      if Ascii.eqb a c then EmptyString :: split c s'
      else match split c s' with
           | seg :: rest => String a seg :: rest
           | [] => [String a EmptyString]
           end
  end.

(** [s.slice(from, to)] for [0 <= from], [0 <= to]. *)
Definition slice (s : string) (from to : nat) : string :=
  String.substring from (to - from) s.

End Str.

(** ** Node's [path] module, POSIX flavour *)

Module Path.

(** The loop of [path.dirname]: [i] runs from [path.length - 1] down to 1;
    the result is the index [end], if one is found. *)
Fixpoint dirname_scan (path : string) (i : nat) (matchedSlash : bool)
  : option nat :=
  match i with
  | O => None
  | S i' =>
      if Str.is_slash (String.get i path) then
        if matchedSlash then dirname_scan path i' matchedSlash
        else Some i
      else dirname_scan path i' false
  end.

Definition dirname (path : string) : string :=
  if Nat.eqb (String.length path) 0 then "."
  else
    let hasRoot := Str.is_slash (String.get 0 path) in
    match dirname_scan path (String.length path - 1) true with
    | None => if hasRoot then "/" else "."
    | Some e =>
        if hasRoot && Nat.eqb e 1 then "//"
        else Str.slice path 0 e
    end.

(** The loop of [path.basename] (no suffix argument): [n] is [i + 1] and
    runs from [path.length] down to 1; returns [(start, end)]. *)
Fixpoint basename_scan (path : string) (n : nat) (end_ : option nat)
    (matchedSlash : bool) : nat * option nat :=
  match n with
  | O => (0, end_)
  | S i =>
      if Str.is_slash (String.get i path) then
        if matchedSlash then basename_scan path i end_ matchedSlash
        else (i + 1, end_)
      else
        match end_ with
        | None => basename_scan path i (Some (i + 1)) false
        | Some _ => basename_scan path i end_ matchedSlash
        end
  end.

Definition basename (path : string) : string :=
  match basename_scan path (String.length path) None true with
  | (_, None) => ""
  | (start, Some e) => Str.slice path start e
  end.

(** [normalizeString]: resolve ["."], [".."] and empty segments.  The
    accumulator holds the segments kept so far, last one first. *)
Fixpoint normalize_segments (allowAboveRoot : bool) (acc segs : list string)
  : list string :=
  match segs with
  | [] => rev acc
  | seg :: rest =>
      if String.eqb seg "" || String.eqb seg "." then
        normalize_segments allowAboveRoot acc rest
      else if String.eqb seg ".." then
        match acc with
        | top :: acc' =>
            if String.eqb top ".." then
              normalize_segments allowAboveRoot
                (if allowAboveRoot then ".." :: acc else acc) rest
            else normalize_segments allowAboveRoot acc' rest
        | [] =>
            normalize_segments allowAboveRoot
              (if allowAboveRoot then [".."] else []) rest
        end
      else normalize_segments allowAboveRoot (seg :: acc) rest
  end.

Definition normalizeString (path : string) (allowAboveRoot : bool) : string :=
  String.concat "/" (normalize_segments allowAboveRoot [] (Str.split Str.slash path)).

Definition normalize (path : string) : string :=
  if Nat.eqb (String.length path) 0 then "."
  else
    let isAbsolute := Str.is_slash (String.get 0 path) in
    let trailingSeparator :=
      Str.is_slash (String.get (String.length path - 1) path) in
    let p := normalizeString path (negb isAbsolute) in
    if Nat.eqb (String.length p) 0 then
      if isAbsolute then "/"
      else if trailingSeparator then "./" else "."
    else
      let p := if trailingSeparator then p ++ "/" else p in
      if isAbsolute then "/" ++ p else p.

(** [path.join(a, b)]: empty arguments are dropped, the rest is joined with
    a slash and normalized. *)
Definition join (a b : string) : string :=
  match Nat.eqb (String.length a) 0, Nat.eqb (String.length b) 0 with
  | true, true => "."
  | true, false => normalize b
  | false, true => normalize a
  | false, false => normalize (a ++ "/" ++ b)
  end.

End Path.

(** ** JavaScript values

    A [value] is what the program computes with: the results of
    [JSON.parse], [undefined] (the result of reading a property that is
    not there), the two infinities that a number literal out of the range
    of a double parses to, and the built-in functions and objects that a
    property read can reach through a prototype.  The same trees serve as
    the documents stored in JSON files, where a number leaf stands for a
    literal of that (integer) value and an object lists its members in the
    order of the text; [parse] maps a document to the value that
    [JSON.parse] returns for it and [jsonify] maps a value to the document
    that [JSON.stringify] writes.  Numbers with a fraction are outside the
    model. *)

Module Js.

Inductive value : Type :=
| VUndef
| VNull
| VBool (b : bool)
| VNum (n : Z)
| VStr (s : string)
| VArr (items : list value)
| VObj (fields : list (string * value))
| VInfinity (negative : bool)
| VBuiltin (name : string).

Inductive error : Type :=
| TypeError (msg : string)
| RangeError (msg : string)
| SyntaxError (msg : string)
| Error (msg : string)
| SystemError (code path : string).

Inductive result (A : Type) : Type :=
| Ret (a : A)
| Raise (e : error).
Arguments Ret {A} a.
Arguments Raise {A} e.

(** ToBoolean. *)
Definition truthy (v : value) : bool :=
  match v with
  | VUndef | VNull => false
  | VBool b => b
  | VNum n => negb (Z.eqb n 0)
  | VStr s => negb (String.eqb s "")
  | VArr _ | VObj _ | VInfinity _ | VBuiltin _ => true
  end.

(** [a || b] on values. *)
Definition or_else (a b : value) : value := if truthy a then a else b.

(** *** Numbers

    A number is an IEEE 754 double.  [round_to_double a] is the double
    nearest to the integer [a >= 0]: beyond 53 significant bits the low
    bits are rounded away, ties going to the even significand.  A literal
    whose rounded value exceeds the largest double parses to an
    infinity.  Only integer-valued numbers are represented: a number with
    a fractional part and the negative zero have no counterpart here. *)

Definition max_double : Z := (2 ^ 53 - 1) * 2 ^ 971.

Definition round_to_double (a : Z) : Z :=
  let k := (Z.log2 a - 52)%Z in
  if (k <=? 0)%Z then a
  else
    let p := (2 ^ k)%Z in
    let q := (a / p)%Z in
    let r := (a mod p)%Z in
    if (p <? 2 * r)%Z || ((2 * r =? p)%Z && Z.odd q)
    then ((q + 1) * p)%Z else (q * p)%Z.

Definition to_double (n : Z) : value :=
  let a := round_to_double (Z.abs n) in
  if (max_double <? a)%Z then VInfinity (n <? 0)%Z
  else VNum (Z.sgn n * a).

(** *** Own properties *)

Fixpoint assoc (k : string) (fields : list (string * value)) : option value :=
  match fields with
  | [] => None
  | (k', v) :: rest => if String.eqb k' k then Some v else assoc k rest
  end.

Definition digit_of (c : ascii) : option N :=
  let n := N_of_ascii c in
  if (48 <=? n)%N && negb (57 <? n)%N then Some (n - 48)%N else None.

Fixpoint digits (s : string) (acc : N) : option N :=
  match s with
  | EmptyString => Some acc
  | String c s' =>
      match digit_of c with
      | Some d => digits s' (10 * acc + d)%N
      | None => None
      end
  end.

(** A property key that is an array index: a canonical numeric string
    (["0"], ["17"], not ["01"]) below [2^32 - 1]. *)
Definition array_index (k : string) : option N :=
  match k with
  | EmptyString => None
  | String c rest =>
      if Ascii.eqb c "0"%char
      then (if String.eqb rest "" then Some 0%N else None)
      else match digits k 0 with
           | Some i => if (4294967295 <=? i)%N then None else Some i
           | None => None
           end
  end.

(** The order in which the own keys of an object are enumerated does not
    depend on the order of insertion alone: array indices come first, in
    ascending numeric order, then the other keys in insertion order.
    [precedes k k'] holds when [k] is enumerated before [k'] whichever was
    inserted first. *)
Definition precedes (k k' : string) : bool :=
  match array_index k, array_index k' with
  | Some i, Some j => (i <? j)%N
  | Some _, None => true
  | None, _ => false
  end.

(** Define the own property [k]: replace its value in place, or insert
    it where the enumeration order puts a new key. *)
Fixpoint assoc_set (k : string) (x : value) (fields : list (string * value))
  : list (string * value) :=
  match fields with
  | [] => [(k, x)]
  | (k', v) :: rest =>
      if String.eqb k' k then (k', x) :: rest
      else if precedes k k' then (k, x) :: (k', v) :: rest
      else (k', v) :: assoc_set k x rest
  end.

Fixpoint assoc_del (k : string) (fields : list (string * value))
  : list (string * value) :=
  match fields with
  | [] => []
  | (k', v) :: rest =>
      if String.eqb k' k then rest else (k', v) :: assoc_del k rest
  end.

(** The members of a list in enumeration order: a stable sort that moves
    array indices to the front. *)
Fixpoint enum_insert (p : string * value) (l : list (string * value))
  : list (string * value) :=
  match l with
  | [] => [p]
  | q :: rest =>
      if precedes (fst q) (fst p) then q :: enum_insert p rest
      else p :: q :: rest
  end.

Definition enum_order (fields : list (string * value)) : list (string * value) :=
  List.fold_right enum_insert [] fields.

Fixpoint set_nth (items : list value) (i : nat) (x : value) : list value :=
  match i, items with
  | O, [] => [x]
  | O, _ :: rest => x :: rest
  | S i', [] => VUndef :: set_nth [] i' x
  | S i', y :: rest => y :: set_nth rest i' x
  end.

(** The property key denoted by a value.  The sources only index with
    [config.name] after [startsWith] has been called on it, that is, with
    a string. *)
Definition key_of (v : value) : string :=
  match v with
  | VStr s => s
  | _ => ""
  end.

(** *** Inherited properties

    The names that a property read finds on the prototypes of the
    built-in kinds of value (ECMAScript 2023).  All of them are functions,
    but for [__proto__], which is the prototype object itself. *)

Definition object_prototype : list string :=
  ["constructor"; "__defineGetter__"; "__defineSetter__"; "hasOwnProperty";
   "__lookupGetter__"; "__lookupSetter__"; "isPrototypeOf";
   "propertyIsEnumerable"; "toString"; "valueOf"; "__proto__";
   "toLocaleString"].

Definition array_prototype : list string :=
  ["at"; "concat"; "copyWithin"; "entries"; "every"; "fill"; "filter"; "find";
   "findIndex"; "findLast"; "findLastIndex"; "flat"; "flatMap"; "forEach";
   "includes"; "indexOf"; "join"; "keys"; "lastIndexOf"; "map"; "pop"; "push";
   "reduce"; "reduceRight"; "reverse"; "shift"; "slice"; "some"; "sort";
   "splice"; "toReversed"; "toSorted"; "toSpliced"; "unshift"; "values";
   "with"].

Definition string_prototype : list string :=
  ["anchor"; "at"; "big"; "blink"; "bold"; "charAt"; "charCodeAt";
   "codePointAt"; "concat"; "endsWith"; "fixed"; "fontcolor"; "fontsize";
   "includes"; "indexOf"; "isWellFormed"; "italics"; "lastIndexOf"; "link";
   "localeCompare"; "match"; "matchAll"; "normalize"; "padEnd"; "padStart";
   "repeat"; "replace"; "replaceAll"; "search"; "slice"; "small"; "split";
   "startsWith"; "strike"; "sub"; "substr"; "substring"; "sup";
   "toLocaleLowerCase"; "toLocaleUpperCase"; "toLowerCase"; "toUpperCase";
   "toWellFormed"; "trim"; "trimEnd"; "trimLeft"; "trimRight"; "trimStart"].

Definition number_prototype : list string :=
  ["toExponential"; "toFixed"; "toPrecision"].

(** What a read of [k] finds on a prototype chain that holds [names]. *)
Definition inherited (names : list string) (k : string) : value :=
  if existsb (String.eqb k) names then VBuiltin k else VUndef.

(** [o.k] / [o[k]]: own properties first, then the prototype chain.  The
    properties of the built-ins themselves are not modelled: the sources
    never read one. *)
Definition get (o : value) (k : string) : result value :=
  match o with
  | VUndef => Raise (TypeError "Cannot read properties of undefined")
  | VNull => Raise (TypeError "Cannot read properties of null")
  | VBool _ => Ret (inherited object_prototype k)
  | VNum _ | VInfinity _ =>
      Ret (inherited (number_prototype ++ object_prototype) k)
  | VStr s =>
      if String.eqb k "length" then Ret (VNum (Z.of_nat (String.length s)))
      else match array_index k with
           | Some i =>
               if (i <? N.of_nat (String.length s))%N
               then match String.get (N.to_nat i) s with
                    | Some c => Ret (VStr (String c EmptyString))
                    | None => Ret VUndef
                    end
               else Ret VUndef
           | None => Ret (inherited (string_prototype ++ object_prototype) k)
           end
  | VArr items =>
      if String.eqb k "length" then Ret (VNum (Z.of_nat (length items)))
      else match array_index k with
           | Some i =>
               if (i <? N.of_nat (length items))%N
               then Ret (nth (N.to_nat i) items VUndef)
               else Ret VUndef
           | None => Ret (inherited (array_prototype ++ object_prototype) k)
           end
  | VObj fields =>
      match assoc k fields with
      | Some v => Ret v
      | None => Ret (inherited object_prototype k)
      end
  | VBuiltin _ => Ret VUndef
  end.

(** [o[k] = { ... }] in non-strict code, for a right-hand side that is an
    object literal (the only assignment to a computed key in the sources).
    Returns the updated [o].  Writing to a primitive is silently dropped;
    a named property put on an array is not seen by [JSON.stringify] and is
    dropped as well.  On an object without an own [__proto__] the key
    [__proto__] reaches the setter inherited from [Object.prototype]: the
    prototype of [o] changes and its own properties stay as they are. *)
Definition assign_object (o : value) (k : string) (x : list (string * value))
  : result value :=
  match o with
  | VUndef => Raise (TypeError "Cannot set properties of undefined")
  | VNull => Raise (TypeError "Cannot set properties of null")
  | VBool _ | VNum _ | VStr _ | VInfinity _ | VBuiltin _ => Ret o
  | VArr items =>
      if String.eqb k "length" then Raise (RangeError "Invalid array length")
      else match array_index k with
           | Some i => Ret (VArr (set_nth items (N.to_nat i) (VObj x)))
           | None => Ret o
           end
  | VObj fields =>
      if String.eqb k "__proto__" &&
         match assoc k fields with Some _ => false | None => true end
      then Ret o
      else Ret (VObj (assoc_set k (VObj x) fields))
  end.

(** [delete o[k]] in non-strict code; returns the updated [o]. *)
Definition delete (o : value) (k : string) : result value :=
  match o with
  | VUndef => Raise (TypeError "Cannot convert undefined or null to object")
  | VNull => Raise (TypeError "Cannot convert undefined or null to object")
  | VBool _ | VNum _ | VStr _ | VInfinity _ | VBuiltin _ => Ret o
  | VArr items =>
      match array_index k with
      | Some i => if (i <? N.of_nat (length items))%N
                  then Ret (VArr (set_nth items (N.to_nat i) VUndef)) else Ret o
      | None => Ret o
      end
  | VObj fields => Ret (VObj (assoc_del k fields))
  end.

(** [Object.entries(o)] for a value that passed a truthiness test: the
    own enumerable properties in enumeration order. *)
Definition entries (o : value) : list (string * value) :=
  match o with
  | VObj fields => enum_order fields
  | VArr items =>
      imap (fun i v => (NilEmpty.string_of_uint (Nat.to_uint i), v)) items
  | VStr s =>
      imap (fun i c => (NilEmpty.string_of_uint (Nat.to_uint i),
                        VStr (String c EmptyString)))
           (list_ascii_of_string s)
  | _ => []
  end.

(** *** JSON *)

(** Values that [JSON.stringify] leaves out of an object: [undefined] and
    functions. *)
Definition is_omitted (v : value) : bool :=
  match v with
  | VUndef | VBuiltin _ => true
  | _ => false
  end.

(** The document that [JSON.stringify] writes for a value: omitted
    properties are dropped, omitted array slots and infinities become
    [null], members come in enumeration order.  A finite number is written
    as a literal that parses back to it. *)
Fixpoint jsonify (v : value) : value :=
  match v with
  | VArr items =>
      VArr (List.map (fun x => if is_omitted x then VNull else jsonify x)
                     items)
  | VObj fields =>
      VObj (enum_order
              (List.flat_map
                 (fun p : string * value =>
                    let (k, x) := p in
                    if is_omitted x then [] else [(k, jsonify x)])
                 fields))
  | VInfinity _ => VNull
  | _ => v
  end.

(** The value that [JSON.parse] returns for a document: number literals
    are rounded to doubles, the members of an object are defined one
    after the other, a repeated name overwriting the earlier value. *)
Fixpoint parse (d : value) : value :=
  match d with
  | VNum n => to_double n
  | VArr items => VArr (List.map parse items)
  | VObj fields =>
      VObj (List.fold_left
              (fun acc (p : string * value) => assoc_set (fst p) (snd p) acc)
              (List.map (fun p : string * value =>
                           let (k, x) := p in (k, parse x))
                        fields)
              [])
  | _ => d
  end.



End Js.

(** ** The process environment, the file system and the effect monad *)

Module Sys.
Import Js.

(** A regular file holds either a JSON document, kept as its syntax tree,
    or any other text. *)
Inductive content : Type :=
| Text (s : string)
| Json (v : value).

Inductive node : Type :=
| Dir
| File (c : content).

(** What a run does to the outside: console lines (a template literal is
    kept as the list of its pieces; the blanks, line breaks and pictographs
    that open a message are left out) and file-system mutations. *)
Inductive event : Type :=
| ConsoleLog (parts : list value)
| ConsoleWarn (parts : list value)
| ConsoleError (parts : list value)
| RmSync (p : string)
| MkdirSync (p : string)
| CopyFileSync (src dst : string)
| WriteFileSync (p : string) (c : content)
| ExecSync (cmd cwd : string).

(** Everything a run reads but never changes.  [execSync cmd cwd fs] is the
    external command of a postinstall hook: it returns whether the command
    exited with status zero, and the file system it leaves behind. *)
Record env : Type := {
  INIT_CWD : option string;            (* process.env.INIT_CWD *)
  process_cwd : string;                (* process.cwd() *)
  homedir : string;                    (* os.homedir() *)
  npm_config_global : option string;   (* process.env.npm_config_global *)
  dirname__ : string;                  (* __dirname *)
  toISOString : nat -> string;         (* new Date().toISOString(), by reading *)
  execSync : string -> string -> gmap string node -> bool * gmap string node
}.

Record world : Type := {
  fs : gmap string node;
  trace : list event;
  ticks : nat
}.

Inductive outcome (A : Type) : Type :=
| Done (a : A)
| Thrown (e : error)
| OutOfFuel.
Arguments Done {A} a.
Arguments Thrown {A} e.
Arguments OutOfFuel {A}.

Definition M (A : Type) : Type := world -> outcome A * world.

Definition ret {A} (a : A) : M A := fun w => (Done a, w).
Definition throw {A} (e : error) : M A := fun w => (Thrown e, w).
Definition out_of_fuel {A} : M A := fun w => (OutOfFuel, w).

Definition bind {A B} (m : M A) (k : A -> M B) : M B :=
  fun w =>
    match m w with
    | (Done a, w') => k a w'
    | (Thrown e, w') => (Thrown e, w')
    | (OutOfFuel, w') => (OutOfFuel, w')
    end.

(** [try { m } catch (error) { h error }] *)
Definition try_catch {A} (m : M A) (h : error -> M A) : M A :=
  fun w =>
    match m w with
    | (Thrown e, w') => h e w'
    | r => r
    end.

Definition lift {A} (r : result A) : M A :=
  match r with
  | Ret a => ret a
  | Raise e => throw e
  end.

Declare Scope sys_scope.
Delimit Scope sys_scope with sys.
Notation "'let*' x ':=' m 'in' k" := (bind m (fun x => k))
  (at level 10, x pattern, m at level 100, k at level 200) : sys_scope.
Notation "m ';;' k" := (bind m (fun _ => k))
  (at level 100, k at level 200, right associativity) : sys_scope.
Local Open Scope sys_scope.

Fixpoint forEach {A} (l : list A) (f : A -> M unit) : M unit :=
  match l with
  | [] => ret tt
  | x :: rest => f x ;; forEach rest f
  end.

Definition emit (e : event) : M unit :=
  fun w => (Done tt, {| fs := fs w; trace := trace w ++ [e]; ticks := ticks w |}).

Definition console_log (parts : list value) : M unit := emit (ConsoleLog parts).
Definition console_warn (parts : list value) : M unit := emit (ConsoleWarn parts).
Definition console_error (parts : list value) : M unit := emit (ConsoleError parts).

Definition get_fs : M (gmap string node) := fun w => (Done (fs w), w).
Definition put_fs (m : gmap string node) : M unit :=
  fun w => (Done tt, {| fs := m; trace := trace w; ticks := ticks w |}).

(** [new Date().toISOString()] *)
Definition date_now (e : env) : M string :=
  fun w => (Done (toISOString e (ticks w)),
            {| fs := fs w; trace := trace w; ticks := S (ticks w) |}).

(** *** [path.join] on values: every argument must be a string *)

Definition path_join (a : string) (b : value) : result string :=
  match b with
  | VStr s => Ret (Path.join a s)
  | _ => Raise (TypeError "The path argument must be of type string")
  end.

(** *** [fs]

    The file system maps the path of every entry to its node.  Keys carry
    no trailing slash (the root is ["/"]); a path handed to [fs] is looked
    up after its trailing slashes have been removed, and a path that ends
    in a slash only names a directory.  The sources build every path
    with [path.join], which resolves [.], [..] and repeated slashes but
    keeps a trailing one. *)

Fixpoint strip_slashes (p : string) : string :=
  match p with
  | EmptyString => EmptyString
  | String c rest =>
      match strip_slashes rest with
      | EmptyString =>
          if Ascii.eqb c Str.slash then EmptyString else String c EmptyString
      | r => String c r
      end
  end.

Definition canonical (p : string) : string :=
  match strip_slashes p with
  | EmptyString => if String.eqb p "" then "" else "/"
  | r => r
  end.

(** The node that [p] resolves to, if any. *)
Definition node_at (m : gmap string node) (p : string) : option node :=
  match m !! canonical p with
  | Some (File c) => if String.eqb (canonical p) p then Some (File c) else None
  | r => r
  end.

(** [q] is the entry that [p] names or lies below it. *)
Definition inside (p q : string) : bool :=
  let d := canonical p in
  String.eqb q d ||
  (negb (String.eqb d "") &&
   String.prefix (if String.eqb d "/" then d else d ++ "/") q).

Fixpoint ancestors_from (fuel : nat) (p : string) : list string :=
  match fuel with
  | O => [p]
  | S f =>
      if String.eqb (Path.dirname p) p then [p]
      else p :: ancestors_from f (Path.dirname p)
  end.

(** The entry that [p] names and the directories above it, nearest
    first. *)
Definition ancestors (p : string) : list string :=
  ancestors_from (S (String.length p)) (canonical p).

Definition is_file (m : gmap string node) (p : string) : bool :=
  match node_at m p with
  | Some (File _) => true
  | _ => false
  end.

Definition is_dir (m : gmap string node) (p : string) : bool :=
  match node_at m p with
  | Some Dir => true
  | _ => false
  end.

Definition existsSync (p : string) : M bool :=
  let* m := get_fs in
  ret (match node_at m p with Some _ => true | None => false end).

(** [fs.rmSync(p, { recursive: true, force: true })]: a path that does
    not exist is not an error, a regular file named with a trailing slash
    is one. *)
Definition rmSync (p : string) : M unit :=
  let* m := get_fs in
  match node_at m p, m !! canonical p with
  | None, Some _ => throw (SystemError "ENOTDIR" p)
  | _, _ =>
      put_fs (filter (fun kv : string * node => inside p (fst kv) = false) m) ;;
      emit (RmSync p)
  end.

(** Why [fs.mkdirSync(p, { recursive: true })] fails, if it does. *)
Definition mkdir_error (m : gmap string node) (p : string) : option string :=
  if String.eqb p "" then Some "ENOENT"
  else if is_file m (canonical p) then Some "EEXIST"
  else if existsb (is_file m) (ancestors p) then Some "ENOTDIR"
  else None.

(** [fs.mkdirSync(p, { recursive: true })] *)
Definition mkdirSync (p : string) : M unit :=
  let* m := get_fs in
  match mkdir_error m p with
  | Some code => throw (SystemError code p)
  | None =>
      put_fs (foldr (fun q acc => <[q := Dir]> acc) m (ancestors p)) ;;
      emit (MkdirSync p)
  end.

(** Why a regular file cannot be created or overwritten at [p], if it
    cannot. *)
Definition create_error (m : gmap string node) (p : string) : option string :=
  if negb (String.eqb (canonical p) p) || is_dir m p then Some "EISDIR"
  else match node_at m (Path.dirname p) with
       | None => Some "ENOENT"
       | Some (File _) => Some "ENOTDIR"
       | Some Dir => None
       end.

Definition copyFileSync (src dst : string) : M unit :=
  let* m := get_fs in
  match node_at m src with
  | None => throw (SystemError "ENOENT" src)
  | Some Dir => throw (SystemError "EISDIR" src)
  | Some (File c) =>
      match create_error m dst with
      | Some code => throw (SystemError code dst)
      | None => put_fs (<[dst := File c]> m) ;; emit (CopyFileSync src dst)
      end
  end.

(** [fs.readFileSync(p, 'utf8')] *)
Definition readFileSync (p : string) : M content :=
  let* m := get_fs in
  match node_at m p with
  | None => throw (SystemError "ENOENT" p)
  | Some Dir => throw (SystemError "EISDIR" p)
  | Some (File c) => ret c
  end.

Definition writeFileSync (p : string) (c : content) : M unit :=
  let* m := get_fs in
  match create_error m p with
  | Some code => throw (SystemError code p)
  | None => put_fs (<[p := File c]> m) ;; emit (WriteFileSync p c)
  end.

(** [fs.statSync(p).isDirectory()] *)
Definition statSync_isDirectory (p : string) : M bool :=
  let* m := get_fs in
  match node_at m p with
  | None => throw (SystemError "ENOENT" p)
  | Some Dir => ret true
  | Some (File _) => ret false
  end.

(** The name of [q] relative to the directory [p], when [q] is a direct
    child of [p]. *)
Definition child_name (p q : string) : option string :=
  let d := canonical p in
  let p' := if String.eqb d "/" then d else d ++ "/" in
  if String.prefix p' q then
    let name := Str.slice q (String.length p') (String.length q) in
    if String.eqb name "" || Str.includes name "/" then None else Some name
  else None.

(** [fs.readdirSync(p, { withFileTypes: true })]: name and [isDirectory()]
    of every entry. *)
Definition readdirSync (p : string) : M (list (string * bool)) :=
  let* m := get_fs in
  match node_at m p with
  | None => throw (SystemError "ENOENT" p)
  | Some (File _) => throw (SystemError "ENOTDIR" p)
  | Some Dir =>
      ret (omap (fun kv : string * node =>
                   match child_name p (fst kv) with
                   | Some name =>
                       Some (name, match snd kv with Dir => true | _ => false end)
                   | None => None
                   end)
                (map_to_list m))
  end.

(** [JSON.parse(text)] *)
Definition JSON_parse (c : content) : M value :=
  match c with
  | Json d => ret (parse d)
  | Text _ => throw (SyntaxError "Unexpected token in JSON")
  end.

(** [JSON.stringify(v, null, 2)] for a [v] that is not [undefined]. *)
Definition JSON_stringify (v : value) : content := Json (jsonify v).

End Sys.

(** ** utils.js *)

Module Utils.
Import Js Sys.
Local Open Scope sys_scope.

(** [const CWD = process.env.INIT_CWD || process.cwd();] *)
Definition CWD (e : env) : string :=
  match INIT_CWD e with
  | Some s => if String.eqb s "" then process_cwd e else s
  | None => process_cwd e
  end.

(** A resolved target: [{ name, paths }]. *)
Record target : Type := {
  name : string;
  paths : value
}.

Definition default_target : target :=
  {| name := "claude-code";
     paths := VObj [("global", VStr ".claude/skills");
                    ("project", VStr ".claude/skills")] |}.

Fixpoint filterR {A} (f : A -> result bool) (l : list A) : result (list A) :=
  match l with
  | [] => Ret []
  | x :: rest =>
      match f x with
      | Raise e => Raise e
      | Ret b =>
          match filterR f rest with
          | Raise e => Raise e
          | Ret rest' => Ret (if b then x :: rest' else rest')
          end
      end
  end.

Fixpoint mapR {A B} (f : A -> result B) (l : list A) : result (list B) :=
  match l with
  | [] => Ret []
  | x :: rest =>
      match f x with
      | Raise e => Raise e
      | Ret y =>
          match mapR f rest with
          | Raise e => Raise e
          | Ret rest' => Ret (y :: rest')
          end
      end
  end.

Definition getEnabledTargets (config : value) : result (list target) :=
  match get config "targets" with
  | Raise e => Raise e
  | Ret targets =>
      if negb (truthy targets) then Ret [default_target]
      else
        match filterR (fun nt : string * value =>
                         match get (snd nt) "enabled" with
                         | Raise e => Raise e
                         | Ret enabled => Ret (truthy enabled)
                         end)
                      (entries targets) with
        | Raise e => Raise e
        | Ret kept =>
            mapR (fun nt : string * value =>
                    match get (snd nt) "paths" with
                    | Raise e => Raise e
                    | Ret p => Ret {| name := fst nt; paths := p |}
                    end)
                 kept
        end
  end.

(** [packageName.split('/')[1] || packageName], after the [startsWith]
    test; anything but a string has no [startsWith] method. *)
Definition extractSkillName (packageName : value) : result string :=
  match packageName with
  | VStr s =>
      Ret (if Str.startsWith s "@"%char then
             match nth_error (Str.split Str.slash s) 1 with
             | Some seg => if String.eqb seg "" then s else seg
             | None => s
             end
           else s)
  | VUndef | VNull =>
      Raise (TypeError "Cannot read properties of undefined (reading 'startsWith')")
  | _ => Raise (TypeError "packageName.startsWith is not a function")
  end.

Record location : Type := {
  type : string;
  base : string
}.

(** [projectRoot.includes('/node_modules/') ||
     path.basename(projectRoot) === 'node_modules'] *)
Definition isInNodeModules (projectRoot : string) : bool :=
  Str.includes projectRoot "/node_modules/" ||
  String.eqb (Path.basename projectRoot) "node_modules".

(** What [fs.existsSync(p)] returns. *)
Definition has_entry (m : gmap string node) (p : string) : bool :=
  match node_at m p with
  | Some _ => true
  | None => false
  end.

(** The [while] loop of [detectInstallLocation]; [None] when the fuel runs
    out before the loop ends. *)
Fixpoint walk (m : gmap string node) (fuel : nat) (projectRoot : string)
  : option string :=
  match fuel with
  | O => None
  | S fuel' =>
      if String.eqb projectRoot (Path.dirname projectRoot) then Some projectRoot
      else
        let hasPackageJson := has_entry m (Path.join projectRoot "package.json") in
        let hasGit := has_entry m (Path.join projectRoot ".git") in
        if (hasPackageJson || hasGit) && negb (isInNodeModules projectRoot)
        then Some projectRoot
        else walk m fuel' (Path.dirname projectRoot)
  end.

Definition detectInstallLocation (e : env) (targetPaths isGlobal : value)
  : M location :=
  if truthy isGlobal then
    let* g := lift (get targetPaths "global") in
    let* b := lift (path_join (homedir e) g) in
    ret {| type := "personal"; base := b |}
  else
    let* m := get_fs in
    match walk m (String.length (CWD e) + 2) (CWD e) with
    | None => out_of_fuel
    | Some projectRoot =>
        let finalIsInNodeModules := isInNodeModules projectRoot in
        let* projectRoot :=
          (if finalIsInNodeModules then
             console_warn
               [VStr "Warning: Could not find project root directory, using current directory"] ;;
             ret (CWD e)
           else ret projectRoot) in
        let* p := lift (get targetPaths "project") in
        let* b := lift (path_join projectRoot p) in
        ret {| type := "project"; base := b |}
    end.

End Utils.

(** [error.message] *)
Definition message (e : Js.error) : string :=
  match e with
  | Js.TypeError m | Js.RangeError m | Js.SyntaxError m | Js.Error m => m
  | Js.SystemError code p => code ++ ": " ++ p
  end.

(** Replace the object stored under [k]: the effect, seen from [o], of
    mutating in place the object that [o.k] refers to. *)
Definition with_field (o : Js.value) (k : string) (x : Js.value) : Js.value :=
  match o with
  | Js.VObj fields => Js.VObj (Js.assoc_set k x fields)
  | _ => o
  end.

Definition manifest_name : string := ".skills-manifest.json".

(** ** uninstall-skill.js *)

Module Uninstall.
Import Js Sys Utils.
Local Open Scope sys_scope.

Definition uninstallFromTarget (e : env) (t : target) (config : value)
  : M bool :=
  console_log [VStr "Uninstalling from "; VStr (name t); VStr "..."] ;;
  let isGlobal :=
    match npm_config_global e with
    | Some s => String.eqb s "true"
    | None => false
    end in
  let* location := detectInstallLocation e (paths t) (VBool isGlobal) in
  let* config_name := lift (get config "name") in
  let* skillName := lift (extractSkillName config_name) in
  let skillNameTargetDir := Path.join (base location) skillName in
  let* fullPackageNameTargetDir := lift (path_join (base location) config_name) in
  let* ex1 := existsSync skillNameTargetDir in
  let* removed1 :=
    (if ex1 then
       rmSync skillNameTargetDir ;;
       console_log [VStr "Removed skill directory: "; VStr skillName] ;;
       ret true
     else ret false) in
  let* ex2 := existsSync fullPackageNameTargetDir in
  let* removed :=
    (if ex2 && negb (String.eqb fullPackageNameTargetDir skillNameTargetDir) then
       rmSync fullPackageNameTargetDir ;;
       console_log [VStr "Removed skill directory: "; config_name] ;;
       ret true
     else ret removed1) in
  let manifestPath := Path.join (base location) manifest_name in
  let* exm := existsSync manifestPath in
  (if exm then
     try_catch
       (let* text := readFileSync manifestPath in
        let* manifest := JSON_parse text in
        let* skills := lift (get manifest "skills") in
        let* entry := (if truthy skills then lift (get skills (key_of config_name))
                       else ret skills) in
        if truthy skills && truthy entry then
          let* skills' := lift (delete skills (key_of config_name)) in
          writeFileSync manifestPath
            (JSON_stringify (with_field manifest "skills" skills')) ;;
          console_log [VStr "Updated manifest"]
        else ret tt)
       (fun error =>
          console_warn [VStr "Warning: Could not update manifest:";
                        VStr (message error)])
   else ret tt) ;;
  if removed then
    console_log [VStr "Uninstalled from "; VStr (name t)] ;;
    ret true
  else
    console_log [VStr "Skill was not installed in "; VStr (name t)] ;;
    ret false.

Definition rule : string :=
  "============================================================".

Fixpoint uninstall_loop (e : env) (config : value) (targets : list target)
    (uninstalledFrom : list string) : M (list string) :=
  match targets with
  | [] => ret uninstalledFrom
  | t :: rest =>
      let* uninstalledFrom :=
        try_catch
          (let* success := uninstallFromTarget e t config in
           ret (if success then (uninstalledFrom ++ [name t])%list else uninstalledFrom))
          (fun error =>
             console_error [VStr "Failed to uninstall from "; VStr (name t);
                            VStr ":"; VStr (message error)] ;;
             ret uninstalledFrom) in
      uninstall_loop e config rest uninstalledFrom
  end.

Definition uninstallSkill (e : env) : M unit :=
  console_log [VStr "Uninstalling AI Coding Skill..."] ;;
  let configPath := Path.join (dirname__ e) ".claude-skill.json" in
  let* ex := existsSync configPath in
  if negb ex then
    console_warn [VStr "Warning: .claude-skill.json not found, skipping cleanup"]
  else
    let* text := readFileSync configPath in
    let* config := JSON_parse text in
    let* enabledTargets := lift (getEnabledTargets config) in
    let* config_name := lift (get config "name") in
    console_log [VStr "Uninstalling skill "; config_name; VStr " from ";
                 VNum (Z.of_nat (length enabledTargets)); VStr " target(s):"] ;;
    forEach enabledTargets (fun t => console_log [VStr "  - "; VStr (name t)]) ;;
    let* uninstalledFrom := uninstall_loop e config enabledTargets [] in
    console_log [VStr rule] ;;
    if (0 <? length uninstalledFrom)%nat then
      console_log [VStr "Uninstallation Complete!"] ;;
      console_log [VStr rule] ;;
      console_log [VStr "Uninstalled from:"] ;;
      forEach uninstalledFrom (fun t => console_log [VStr "  - "; VStr t])
    else
      console_log [VStr "Skill was not installed"] ;;
      console_log [VStr rule].

End Uninstall.

(** ** install-skill.js *)

Module Install.
Import Js Sys Utils.
Local Open Scope sys_scope.

Fixpoint copyDir (fuel : nat) (src dest : string) : M unit :=
  match fuel with
  | O => out_of_fuel
  | S fuel' =>
      mkdirSync dest ;;
      let* entries := readdirSync src in
      forEach entries (fun entry : string * bool =>
        let srcPath := Path.join src (fst entry) in
        let destPath := Path.join dest (fst entry) in
        if snd entry then copyDir fuel' srcPath destPath
        else copyFileSync srcPath destPath)
  end.

Definition updateManifest (e : env) (skillsDir : string) (config : value)
    (targetName : string) : M unit :=
  let manifestPath := Path.join skillsDir manifest_name in
  let fresh := VObj [("skills", VObj [])] in
  let* ex := existsSync manifestPath in
  let* manifest :=
    (if ex then
       try_catch
         (let* text := readFileSync manifestPath in JSON_parse text)
         (fun error =>
            console_warn
              [VStr "Warning: Could not parse existing manifest, creating new one"] ;;
            ret fresh)
     else ret fresh) in
  let* config_name := lift (get config "name") in
  let* skillName := lift (extractSkillName config_name) in
  let* skills := lift (get manifest "skills") in
  let* version := lift (get config "version") in
  let* now := date_now e in
  let* package := lift (get config "package") in
  let* skills' :=
    lift (assign_object skills (key_of config_name)
            [("version", version);
             ("installedAt", VStr now);
             ("package", or_else package config_name);
             ("path", VStr (Path.join skillsDir skillName));
             ("target", VStr targetName)]) in
  writeFileSync manifestPath
    (JSON_stringify (with_field manifest "skills" skills')).

Definition copy_entry (fuel : nat) (e : env) (targetDir : string)
    (entry : string * value) : M unit :=
  let source := fst entry in
  let dest := snd entry in
  let sourcePath := Path.join (dirname__ e) source in
  let* ex := existsSync sourcePath in
  if negb ex then
    console_warn [VStr "Warning: "; VStr source; VStr " not found, skipping"]
  else
    let* destPath := lift (path_join targetDir dest) in
    let* isDirectory := statSync_isDirectory sourcePath in
    if isDirectory then
      copyDir fuel sourcePath destPath ;;
      console_log [VStr "Copied directory: "; VStr source]
    else
      let destDir := Path.dirname destPath in
      let* exd := existsSync destDir in
      (if negb exd then mkdirSync destDir else ret tt) ;;
      copyFileSync sourcePath destPath ;;
      console_log [VStr "Copied file: "; VStr source].

Definition installToTarget (fuel : nat) (e : env) (t : target) (config : value)
  : M string :=
  console_log [VStr "Installing to "; VStr (name t); VStr "..."] ;;
  let* location := detectInstallLocation e (paths t) VUndef in
  let* config_name := lift (get config "name") in
  let* skillName := lift (extractSkillName config_name) in
  let targetDir := Path.join (base location) skillName in
  let* altTargetDir := lift (path_join (base location) config_name) in
  console_log [VStr "  Type: "; VStr (type location)] ;;
  console_log [VStr "  Directory: "; VStr targetDir] ;;
  let* exAlt := existsSync altTargetDir in
  (if exAlt && negb (String.eqb altTargetDir targetDir) then
     console_log [VStr "Cleaning up alternative path format..."] ;;
     rmSync altTargetDir ;;
     console_log [VStr "Removed directory: "; config_name]
   else ret tt) ;;
  let* exTarget := existsSync targetDir in
  (if negb exTarget then mkdirSync targetDir else ret tt) ;;
  let skillMdSource := Path.join (dirname__ e) "SKILL.md" in
  let* exMd := existsSync skillMdSource in
  (if negb exMd then throw (Error "SKILL.md is required but not found")
   else ret tt) ;;
  copyFileSync skillMdSource (Path.join targetDir "SKILL.md") ;;
  console_log [VStr "Copied SKILL.md"] ;;
  let* files := lift (get config "files") in
  (if truthy files then forEach (entries files) (copy_entry fuel e targetDir)
   else ret tt) ;;
  updateManifest e (base location) config (name t) ;;
  let* hooks := lift (get config "hooks") in
  let* postinstall := (if truthy hooks then lift (get hooks "postinstall")
                       else ret hooks) in
  (if truthy hooks && truthy postinstall then
     console_log [VStr "Running postinstall hook..."] ;;
     try_catch
       (match postinstall with
        | VStr cmd =>
            let* m := get_fs in
            let (ok, m') := execSync e cmd targetDir m in
            put_fs m' ;;
            emit (ExecSync cmd targetDir) ;;
            if ok then console_log [VStr "Postinstall hook completed"]
            else throw (Error "Command failed")
        | _ => throw (TypeError "The command argument must be of type string")
        end)
       (fun error => console_warn [VStr "Warning: postinstall hook failed"])
   else ret tt) ;;
  console_log [VStr "Installed to "; VStr (name t)] ;;
  ret targetDir.

Fixpoint install_loop (fuel : nat) (e : env) (config : value)
    (targets : list target) (installedPaths : list (string * string))
  : M (list (string * string)) :=
  match targets with
  | [] => ret installedPaths
  | t :: rest =>
      let* installedPaths :=
        try_catch
          (let* installPath := installToTarget fuel e t config in
           ret ((installedPaths ++ [(name t, installPath)])%list))
          (fun error =>
             console_error [VStr "Failed to install to "; VStr (name t);
                            VStr ":"; VStr (message error)] ;;
             ret installedPaths) in
      install_loop fuel e config rest installedPaths
  end.

Definition installSkill (fuel : nat) (e : env) : M unit :=
  console_log [VStr "Installing AI Coding Skill..."] ;;
  let configPath := Path.join (dirname__ e) ".claude-skill.json" in
  let* ex := existsSync configPath in
  (if negb ex then throw (Error ".claude-skill.json not found") else ret tt) ;;
  let* text := readFileSync configPath in
  let* config := JSON_parse text in
  let* enabledTargets := lift (getEnabledTargets config) in
  if Nat.eqb (length enabledTargets) 0 then
    console_warn [VStr "No targets enabled in configuration"] ;;
    console_warn [VStr "Please enable at least one target in .claude-skill.json"]
  else
    let* config_name := lift (get config "name") in
    console_log [VStr "Installing skill "; config_name; VStr " to ";
                 VNum (Z.of_nat (length enabledTargets)); VStr " target(s):"] ;;
    forEach enabledTargets (fun t => console_log [VStr "  - "; VStr (name t)]) ;;
    let* installedPaths := install_loop fuel e config enabledTargets [] in
    console_log [VStr Uninstall.rule] ;;
    console_log [VStr "Installation Complete!"] ;;
    console_log [VStr Uninstall.rule] ;;
    if (0 <? length installedPaths)%nat then
      console_log [VStr "Installed to:"] ;;
      forEach installedPaths (fun tp : string * string =>
        console_log [VStr "  - "; VStr (fst tp); VStr ": "; VStr (snd tp)]) ;;
      console_log [VStr "Next Steps:"] ;;
      console_log [VStr "  1. Restart your AI coding tool(s)"] ;;
      console_log [VStr "  2. Ask: What skills are available?"] ;;
      console_log [VStr "  3. Start using your skill!"]
    else ret tt.

End Install.

(** ** The two scripts

    Each file ends by calling its entry point inside a [try]; the value
    returned here is the exit status of the process. *)

Module Main.
Import Js Sys Utils.
Local Open Scope sys_scope.

(** [try { installSkill(); } catch (error) { ...; process.exit(1); }] *)
Definition install_script (fuel : nat) (e : env) : M nat :=
  try_catch
    (Install.installSkill fuel e ;; ret 0)
    (fun error =>
       console_error [VStr "Failed to install skill:"; VStr (message error)] ;;
       console_error [VStr "Troubleshooting:"] ;;
       console_error [VStr "- Ensure .claude-skill.json exists and is valid JSON"] ;;
       console_error [VStr "- Ensure SKILL.md exists"] ;;
       console_error [VStr "- Check file permissions for target directories"] ;;
       console_error
         [VStr "- Verify at least one target is enabled in .claude-skill.json"] ;;
       console_error
         [VStr "- Try running with sudo for global installation (if needed)"] ;;
       ret 1).

(** [try { uninstallSkill(); } catch (error) { console.error(...); }] *)
Definition uninstall_script (e : env) : M nat :=
  try_catch
    (Uninstall.uninstallSkill e ;; ret 0)
    (fun error =>
       console_error [VStr "Warning during uninstall:"; VStr (message error)] ;;
       ret 0).

End Main.
(** ** Vocabulary of the statements *)

Module Spec.
Import Js Sys Utils.

(** The project root that the detector settles on. *)
Definition projectRoot (e : env) (m : gmap string node) : string :=
  match walk m (String.length (CWD e) + 2) (CWD e) with
  | Some r => r
  | None => CWD e
  end.


(** Whether a string contains a slash. *)
Fixpoint has_slash (s : string) : bool :=
  match s with
  | EmptyString => false
  | String c s' => Ascii.eqb c Str.slash || has_slash s'
  end.

(** [o.k] when the read cannot fail, [undefined] otherwise. *)
Definition field (k : string) (o : value) : value :=
  match get o k with
  | Ret v => v
  | Raise _ => VUndef
  end.

(** [null] or [undefined]. *)
Definition nullish (v : value) : bool :=
  match v with
  | VUndef | VNull => true
  | _ => false
  end.

(** [v === true] *)
Definition strictly_true (v : value) : bool :=
  match v with
  | VBool true => true
  | _ => false
  end.

(** The resolved form of one entry of [config.targets]. *)
Definition resolve (nt : string * value) : target :=
  {| name := fst nt; paths := field "paths" (snd nt) |}.

(** The Target Resolver as the specification words it: keep the entries
    whose [enabled] is [=== true]. *)
Definition spec_enabled_targets (ts : list (string * value)) : list target :=
  List.map resolve
    (List.filter (fun nt => strictly_true (field "enabled" (snd nt))) ts).

(** The same with the test the code makes: [enabled] is truthy. *)
Definition truthy_enabled_targets (ts : list (string * value)) : list target :=
  List.map resolve
    (List.filter (fun nt => truthy (field "enabled" (snd nt))) ts).

(** The root expected from [/repo/sub/node_modules/pkg]: [/repo/sub] when
    it has a marker of its own, [/repo] otherwise. *)
Definition nested_root (m : gmap string node) : string :=
  if has_entry m "/repo/sub/package.json" || has_entry m "/repo/sub/.git"
  then "/repo/sub" else "/repo".

(** The world after one more event. *)
Definition log (w : world) (ev : event) : world :=
  {| fs := fs w; trace := (trace w ++ [ev])%list; ticks := ticks w |}.

Definition with_fs (w : world) (m : gmap string node) : world :=
  {| fs := m; trace := trace w; ticks := ticks w |}.

(** What [rmSync(p, { recursive, force })] leaves of a file system. *)
Definition remove_tree (m : gmap string node) (p : string) : gmap string node :=
  filter (fun kv : string * node => inside p (fst kv) = false) m.

(** The skill name of a package name: [extractSkillName] on a string. *)
Definition skill_of (packageName : string) : string :=
  match extractSkillName (VStr packageName) with
  | Ret s => s
  | Raise _ => packageName
  end.

(** The location that detection yields for string-valued target paths. *)
Definition location_for (e : env) (m : gmap string node) (isGlobal : bool)
    (g p : string) : location :=
  if isGlobal
  then {| type := "personal"; base := Path.join (homedir e) g |}
  else {| type := "project"; base := Path.join (projectRoot e m) p |}.

(** [process.env.npm_config_global === 'true'] *)
Definition global_toggle (e : env) : bool :=
  match npm_config_global e with
  | Some s => String.eqb s "true"
  | None => false
  end.

(** The property of [target.paths] that the uninstaller reads, and the
    base directory it works in when that property is the string [s]. *)
Definition scope_key (e : env) : string :=
  if global_toggle e then "global" else "project".

Definition uninstall_base (e : env) (m : gmap string node) (s : string) : string :=
  if global_toggle e then Path.join (homedir e) s
  else Path.join (projectRoot e m) s.


(** The last character of a string. *)
Fixpoint last_char (s : string) : option ascii :=
  match s with
  | EmptyString => None
  | String c rest =>
      match last_char rest with
      | None => Some c
      | r => r
      end
  end.

(** A single path segment that [path.join] keeps as it is. *)
Definition plain_name (s : string) : bool :=
  negb (has_slash s) && negb (String.eqb s "") && negb (String.eqb s ".")
  && negb (String.eqb s "..").

(** [quiet mp m]: started where [mp] exists, [m] does not run out of fuel
    and neither creates nor removes a path.  [settled mp m] moreover
    returns normally. *)
Definition quiet (mp : string) {A} (m : M A) : Prop :=
  forall w, has_entry (fs w) mp = true ->
            fst (m w) <> OutOfFuel /\
            forall q, has_entry (fs (snd (m w))) q = has_entry (fs w) q.

Definition settled (mp : string) {A} (m : M A) : Prop :=
  forall w, has_entry (fs w) mp = true ->
            (exists a, fst (m w) = Done a) /\
            forall q, has_entry (fs (snd (m w))) q = has_entry (fs w) q.

Definition is_rm (ev : event) : bool :=
  match ev with
  | RmSync _ => true
  | _ => false
  end.

Definition is_console (ev : event) : bool :=
  match ev with
  | ConsoleLog _ | ConsoleWarn _ | ConsoleError _ => true
  | _ => false
  end.

(** [emits P m]: whatever [m] does and however it ends, it only appends
    events that satisfy [P] to the trace. *)
Definition emits (P : event -> bool) {A} (m : M A) : Prop :=
  forall w, exists evs,
    trace (snd (m w)) = (trace w ++ evs)%list /\ forallb P evs = true.

(** The base directory the installer works in: always the project one. *)
Definition install_base (e : env) (m : gmap string node) (p : string) : string :=
  Path.join (projectRoot e m) p.

Definition fresh_manifest : value := VObj [("skills", VObj [])].

(** The manifest that [updateManifest] starts from: the parsed file, or a
    fresh one when the file is absent or cannot be read and parsed. *)
Definition loaded_manifest (m : gmap string node) (mp : string) : value :=
  match node_at m mp with
  | Some (File (Json d)) => parse d
  | _ => fresh_manifest
  end.

(** The world after the load: a warning when something is there that is
    not a JSON document. *)
Definition after_load (w : world) (mp : string) : world :=
  match node_at (fs w) mp with
  | Some (File (Json _)) | None => w
  | _ => log w (ConsoleWarn
                  [VStr "Warning: Could not parse existing manifest, creating new one"])
  end.

(** The object literal that [updateManifest] assigns. *)
Definition manifest_record (e : env) (now : nat) (skillsDir : string)
    (config : value) (cname targetName : string) : list (string * value) :=
  [("version", field "version" config);
   ("installedAt", VStr (toISOString e now));
   ("package", or_else (field "package" config) (VStr cname));
   ("path", VStr (Path.join skillsDir (skill_of cname)));
   ("target", VStr targetName)].

Definition tick (w : world) : world :=
  {| fs := fs w; trace := trace w; ticks := S (ticks w) |}.

(** [a ?? b] *)
Definition nullish_coalesce (a b : value) : value :=
  if nullish a then b else a.

(** What [JSON.stringify] writes for one property of an object. *)
Definition jsonify_field (kv : string * value) : list (string * value) :=
  let (k, x) := kv in if is_omitted x then [] else [(k, jsonify x)].

(** What [JSON.parse] reads for one member of an object. *)
Definition parse_field (kv : string * value) : string * value :=
  let (k, x) := kv in (k, parse x).


(** Keys that are pairwise different and stand in enumeration order. *)
Fixpoint ordered (ks : list string) : bool :=
  match ks with
  | [] => true
  | k :: rest =>
      forallb (fun k' => negb (String.eqb k k') && negb (precedes k' k)) rest
      && ordered rest
  end.



(** No member of the list comes after one that it precedes in every
    enumeration. *)
Fixpoint enumerated (l : list (string * value)) : bool :=
  match l with
  | [] => true
  | p :: rest =>
      forallb (fun q => negb (precedes (fst q) (fst p))) rest && enumerated rest
  end.

(** A key that is not an array index. *)
Definition is_name (k : string) : bool :=
  match array_index k with
  | Some _ => false
  | None => true
  end.


(** The same environment with another value of [npm_config_global]. *)
Definition with_global (e : env) (g : option string) : env := {|
  INIT_CWD := INIT_CWD e;
  process_cwd := process_cwd e;
  homedir := homedir e;
  npm_config_global := g;
  dirname__ := dirname__ e;
  toISOString := toISOString e;
  execSync := execSync e
|}.

(** The test that ends the upward walk on a candidate: a [package.json]
    or a [.git] in it, and not inside or named [node_modules]. *)
Definition qualifies (m : gmap string node) (p : string) : bool :=
  (has_entry m (Path.join p "package.json") || has_entry m (Path.join p ".git"))
  && negb (isInNodeModules p).

(** No manifest file, or one that is not a JSON document. *)
Definition unusable_manifest (m : gmap string node) (mp : string) : bool :=
  match node_at m mp with
  | None | Some (File (Text _)) => true
  | _ => false
  end.

(** [halts m]: [m] never runs out of fuel.  [no_throw m]: no exception
    escapes [m]. *)
Definition halts {A} (m : M A) : Prop :=
  forall w, fst (m w) <> OutOfFuel.


(** [keeps q m]: [m] leaves whatever is stored under the path [q] as it
    is. *)
Definition keeps (q : string) {A} (m : M A) : Prop :=
  forall w, fs (snd (m w)) !! q = fs w !! q.

(** The world after the uninstaller has removed the directory [dir]. *)
Definition removal (w : world) (dir : string) (label : value) : world :=
  log (log (with_fs w (remove_tree (fs w) dir)) (RmSync dir))
      (ConsoleLog [VStr "Removed skill directory: "; label]).

(** The world after the two removal steps of the uninstaller. *)
Definition after_removals (w : world) (skillDir altDir skillName cname : string)
  : world :=
  let w1 := if has_entry (fs w) skillDir
            then removal w skillDir (VStr skillName) else w in
  if has_entry (fs w1) altDir && negb (String.eqb altDir skillDir)
  then removal w1 altDir (VStr cname) else w1.

(** The flag [removed] after the two removal steps. *)
Definition removed_flag (w : world) (skillDir altDir skillName : string) : bool :=
  let w1 := if has_entry (fs w) skillDir
            then removal w skillDir (VStr skillName) else w in
  if has_entry (fs w1) altDir && negb (String.eqb altDir skillDir)
  then true else has_entry (fs w) skillDir.

(** The manifest step and the closing lines of [uninstallFromTarget], for
    the manifest path [mp], the package name [cname] and the target name
    [tname]. *)
Definition uninstall_tail (mp cname tname : string) (removed : bool) : M bool :=
  bind (existsSync mp) (fun exm =>
  bind (if exm then
          try_catch
            (bind (readFileSync mp) (fun text =>
             bind (JSON_parse text) (fun manifest =>
             bind (lift (get manifest "skills")) (fun skills =>
             bind (if truthy skills then lift (get skills cname) else ret skills)
               (fun entry =>
             if truthy skills && truthy entry then
               bind (lift (delete skills cname)) (fun skills' =>
               bind (writeFileSync mp
                       (JSON_stringify (with_field manifest "skills" skills')))
                 (fun _ => console_log [VStr "Updated manifest"]))
             else ret tt)))))
            (fun error0 =>
               console_warn [VStr "Warning: Could not update manifest:";
                             VStr (message error0)])
        else ret tt) (fun _ =>
  if removed then
    bind (console_log [VStr "Uninstalled from "; VStr tname]) (fun _ => ret true)
  else
    bind (console_log [VStr "Skill was not installed in "; VStr tname])
      (fun _ => ret false))).

(** What [mkdirSync(p, { recursive: true })] leaves of a file system when
    it succeeds. *)
Definition make_dirs (m : gmap string node) (p : string) : gmap string node :=
  foldr (fun q acc => <[q := Dir]> acc) m (ancestors p).

(** Events that put file content somewhere. *)
Definition is_copy_or_write (ev : event) : bool :=
  match ev with
  | CopyFileSync _ _ | WriteFileSync _ _ | ExecSync _ _ => true
  | _ => false
  end.

Definition is_exec (ev : event) : bool :=
  match ev with
  | ExecSync _ _ => true
  | _ => false
  end.

(** [done_or_only P m]: [m] either returns normally or has only added
    events that satisfy [P]. *)
Definition done_or_only (P : event -> bool) {A} (m : M A) : Prop :=
  forall w, exists evs,
    trace (snd (m w)) = (trace w ++ evs)%list /\
    (forallb P evs = true \/ exists a, fst (m w) = Done a).

(** The same environment with another postinstall command runner. *)
Definition with_exec (e : env)
    (exec : string -> string -> gmap string node -> bool * gmap string node)
  : env := {|
  INIT_CWD := INIT_CWD e;
  process_cwd := process_cwd e;
  homedir := homedir e;
  npm_config_global := npm_config_global e;
  dirname__ := dirname__ e;
  toISOString := toISOString e;
  execSync := exec
|}.

Definition is_mkdir_or_copy (ev : event) : bool :=
  match ev with
  | MkdirSync _ | CopyFileSync _ _ => true
  | _ => false
  end.

(** The warning printed for a declared file whose source is missing. *)
Definition missing_source_warning (entry : string * value) : event :=
  ConsoleWarn [VStr "Warning: "; VStr (fst entry); VStr " not found, skipping"].

End Spec.

(** ** Concrete configurations and worlds used as examples *)

Module Fixtures.
Import Js Sys Utils.

Definition two_targets : list (string * value) :=
  [("cursor", VObj [("enabled", VBool false);
                    ("paths", VObj [("global", VStr ".cursor/skills");
                                    ("project", VStr ".cursor/skills")])]);
   ("claude-code", VObj [("enabled", VBool true);
                         ("paths", VObj [("global", VStr ".claude/skills");
                                         ("project", VStr ".claude/skills")])])].

(** Two enabled targets, declared as [b] then [1]. *)
Definition indexed_targets : list (string * value) :=
  [("b", VObj [("enabled", VBool true);
               ("paths", VObj [("global", VStr ".b/skills");
                               ("project", VStr ".b/skills")])]);
   ("1", VObj [("enabled", VBool true);
               ("paths", VObj [("global", VStr ".one/skills");
                               ("project", VStr ".one/skills")])])].

Definition numeric_flag_targets : list (string * value) :=
  [("cursor", VObj [("enabled", VNum 1);
                    ("paths", VObj [("global", VStr ".cursor/skills");
                                    ("project", VStr ".cursor/skills")])])].


(** A process started in [cwd], with [npm_config_global] set as given and
    a postinstall command that succeeds and changes nothing. *)
Definition env_at (cwd : string) (global : option string) : env := {|
  INIT_CWD := None;
  process_cwd := cwd;
  homedir := "/home/u";
  npm_config_global := global;
  dirname__ := "/proj/node_modules/@scope/pkg";
  toISOString := fun _ => "2024-01-01T00:00:00.000Z";
  execSync := fun _ _ m => (true, m)
|}.

Definition world_of (l : list (string * node)) : world :=
  {| fs := list_to_map l; trace := []; ticks := 0 |}.

(** A repository with a package of its own in [/repo/sub]. *)
Definition nested_package_world : world :=
  world_of [("/repo/.git", Dir); ("/repo/sub/package.json", File (Json (VObj [])))].

(** The package [@scope/pkg], version 1.0.0, with nothing else declared. *)
Definition scoped_config : value :=
  VObj [("name", VStr "@scope/pkg"); ("version", VStr "1.0.0")].

(** A project in [/proj] with the package unpacked under its
    [node_modules] and no skill installed yet. *)
Definition clean_project : world :=
  world_of [("/proj", Dir);
            ("/proj/package.json", File (Json (VObj [])));
            ("/proj/node_modules/@scope/pkg/SKILL.md", File (Text "# skill"))].

(** The same project where only the legacy directory, named after the
    full scoped package name, is present. *)
Definition legacy_only_project : world :=
  world_of [("/proj", Dir);
            ("/proj/package.json", File (Json (VObj [])));
            ("/proj/node_modules/@scope/pkg/SKILL.md", File (Text "# skill"));
            ("/proj/.claude", Dir);
            ("/proj/.claude/skills", Dir);
            ("/proj/.claude/skills/@scope", Dir);
            ("/proj/.claude/skills/@scope/pkg", Dir);
            ("/proj/.claude/skills/@scope/pkg/SKILL.md", File (Text "# old"))].

(** A project, with the package unpacked in it, whose manifest is valid
    JSON of the wrong shape. *)
Definition wrong_shape_project : world :=
  world_of [("/proj", Dir);
            ("/proj/package.json", File (Json (VObj [])));
            ("/proj/node_modules/@scope/pkg/SKILL.md", File (Text "# skill"));
            ("/proj/.claude", Dir);
            ("/proj/.claude/skills", Dir);
            ("/proj/.claude/skills/.skills-manifest.json",
             File (Json (VObj [("other", VNum 1)])))].




(** A package named [__proto__]. *)
Definition proto_config : value :=
  VObj [("name", VStr "__proto__"); ("version", VStr "1.0.0")].

(** A base directory with a valid manifest that records another skill. *)
Definition other_skill_record : value :=
  VObj [("version", VStr "0.3.0");
        ("installedAt", VStr "2023-06-01T00:00:00.000Z");
        ("package", VStr "other-skill");
        ("path", VStr "/proj/.claude/skills/other-skill");
        ("target", VStr "claude-code")].


(** The package with an empty [package] string. *)
Definition empty_package_config : value :=
  VObj [("name", VStr "@scope/pkg"); ("version", VStr "1.0.0");
        ("package", VStr "")].

(** A project whose skills directory exists and is empty. *)
Definition empty_skills_project : world :=
  world_of [("/proj", Dir);
            ("/proj/package.json", File (Json (VObj [])));
            ("/proj/.claude", Dir);
            ("/proj/.claude/skills", Dir)].

(** A process started in [/proj] that runs the package unpacked in
    [/proj/node_modules/@scope/pkg]; everything else is left open. *)
Definition env_in_proj (home : string) (global : option string)
    (iso : nat -> string)
    (exec : string -> string -> gmap string node -> bool * gmap string node)
  : env := {|
  INIT_CWD := None;
  process_cwd := "/proj";
  homedir := home;
  npm_config_global := global;
  dirname__ := "/proj/node_modules/@scope/pkg";
  toISOString := iso;
  execSync := exec
|}.

(** [clean_project] with any descriptor text. *)
Definition clean_project_with (skillMd : content) : world :=
  world_of [("/proj", Dir);
            ("/proj/package.json", File (Json (VObj [])));
            ("/proj/node_modules/@scope/pkg/SKILL.md", File skillMd)].

(** The package [@scope/pkg] in any version, with nothing else
    declared. *)
Definition scoped_config_version (version : string) : value :=
  VObj [("name", VStr "@scope/pkg"); ("version", VStr version)].

(** [clean_project] with the package's own configuration file, as a run
    of the installer or uninstaller reads it. *)
Definition packaged_project : world :=
  world_of [("/proj", Dir);
            ("/proj/package.json", File (Json (VObj [])));
            ("/proj/node_modules/@scope/pkg/SKILL.md", File (Text "# skill"));
            ("/proj/node_modules/@scope/pkg/.claude-skill.json",
             File (Json scoped_config))].

(** A target whose specification has no [paths]. *)
Definition pathless_target : target := {| name := "cursor"; paths := VUndef |}.

(** A targets map with a [null] entry after a well-formed one. *)
Definition null_entry_targets : list (string * value) :=
  [("claude-code", VObj [("enabled", VBool true);
                         ("paths", VObj [("global", VStr ".claude/skills");
                                         ("project", VStr ".claude/skills")])]);
   ("cursor", VNull)].

(** A skills directory whose manifest was cut short. *)
Definition truncated_manifest_project : world :=
  world_of [("/proj", Dir);
            ("/proj/package.json", File (Json (VObj [])));
            ("/proj/.claude", Dir);
            ("/proj/.claude/skills", Dir);
            ("/proj/.claude/skills/.skills-manifest.json",
             File (Text "{ skills: "))].



(** A project with the skill installed and recorded beside another one. *)
Definition installed_record : value :=
  VObj [("version", VStr "1.0.0");
        ("installedAt", VStr "2024-01-01T00:00:00.000Z");
        ("package", VStr "@scope/pkg");
        ("path", VStr "/proj/.claude/skills/pkg");
        ("target", VStr "claude-code")].

Definition installed_project : world :=
  world_of [("/proj", Dir);
            ("/proj/package.json", File (Json (VObj [])));
            ("/proj/.claude", Dir);
            ("/proj/.claude/skills", Dir);
            ("/proj/.claude/skills/pkg", Dir);
            ("/proj/.claude/skills/pkg/SKILL.md", File (Text "# skill"));
            ("/proj/.claude/skills/.skills-manifest.json",
             File (Json (VObj [("skills",
                                VObj [("other-skill", other_skill_record);
                                      ("@scope/pkg", installed_record)])])))].

(** A package whose name ends in a slash. *)
Definition slash_config : value :=
  VObj [("name", VStr "pkg/"); ("version", VStr "1.0.0")].

(** A project where the package has been unpacked without its
    descriptor. *)
Definition no_descriptor_project : world :=
  world_of [("/proj", Dir);
            ("/proj/package.json", File (Json (VObj [])))].

(** The package with a postinstall hook. *)
Definition hooked_config : value :=
  VObj [("name", VStr "@scope/pkg"); ("version", VStr "1.0.0");
        ("hooks", VObj [("postinstall", VStr "exit 1")])].

(** An environment whose postinstall command always fails. *)
Definition failing_hook_env : env :=
  Spec.with_exec (env_at "/proj" None) (fun _ _ m => (false, m)).
End Fixtures.

(** * Properties *)

(** ** Paths and the upward walk *)

Section PathFacts.

Lemma substring_length_le (s : string) (n m : nat) :
  String.length (String.substring n m s) <= m.
Proof.
  revert n m. induction s as [|c s IH]; intros [|n] [|m]; simpl; try lia.
  - specialize (IH 0 m). lia.
  - apply (IH n 0).
  - apply (IH n (S m)).
Qed.

Lemma dirname_scan_bound (p : string) (i : nat) (b : bool) (e : nat) :
  Path.dirname_scan p i b = Some e ->
  1 <= e <= i /\ (b = true -> e < i).
Proof.
  revert b. induction i as [|i IH]; intros b H; simpl in H; [discriminate|].
  destruct (Str.is_slash (String.get (S i) p)).
  - destruct b.
    + destruct (IH _ H) as [? ?]. split; [lia|]. intros _. lia.
    + inversion H; subst. split; [lia|]. discriminate.
  - destruct (IH _ H) as [? ?]. split; [lia|]. intros _. lia.
Qed.

(** [dirname] either lands on one of its two fixed points or returns a
    strictly shorter string. *)
Lemma dirname_cases (p : string) :
  Path.dirname p = "/" \/ Path.dirname p = "." \/
  String.length (Path.dirname p) < String.length p.
Proof.
  unfold Path.dirname.
  destruct (Nat.eqb (String.length p) 0) eqn:Hlen; [auto|].
  apply Nat.eqb_neq in Hlen.
  destruct (Path.dirname_scan p (String.length p - 1) true) as [e|] eqn:Hscan.
  - apply dirname_scan_bound in Hscan. destruct Hscan as [He Hlt].
    specialize (Hlt eq_refl).
    destruct (Str.is_slash (String.get 0 p) && Nat.eqb e 1).
    + right; right. simpl. lia.
    + right; right. unfold Str.slice.
      pose proof (substring_length_le p 0 (e - 0)). lia.
  - destruct (Str.is_slash (String.get 0 p)); auto.
Qed.

Lemma dirname_fixed_point (p : string) :
  Path.dirname p = p -> p = "/" \/ p = ".".
Proof.
  intros H. destruct (dirname_cases p) as [H1|[H1|H1]].
  - left. congruence.
  - right. congruence.
  - rewrite H in H1. lia.
Qed.

End PathFacts.

(** ** How a joined path ends *)

Section PathEnds.
Import Js Sys Utils Spec.

Lemma last_char_none (s : string) : last_char s = None -> s = "".
Proof.
  destruct s as [|c s]; [reflexivity|]. simpl.
  destruct (last_char s); discriminate.
Qed.

Lemma last_char_app (a b : string) :
  b <> "" -> last_char (a ++ b) = last_char b.
Proof.
  intros Hb. induction a as [|c a IH]; simpl; [reflexivity|].
  rewrite IH. destruct (last_char b) eqn:E; [reflexivity|].
  apply last_char_none in E. contradiction.
Qed.

Lemma last_char_cons (c : ascii) (s : string) :
  exists c', last_char (String c s) = Some c'.
Proof. simpl. destruct (last_char s); eauto. Qed.

Lemma get_length_cons (c : ascii) (s : string) :
  String.get (String.length s) (String c s) = last_char (String c s).
Proof.
  revert c. induction s as [|c' s IH]; intros c; [reflexivity|].
  change (String.get (String.length (String c' s)) (String c (String c' s)))
    with (String.get (String.length s) (String c' s)).
  rewrite IH. destruct (last_char_cons c' s) as [x Hx].
  change (last_char (String c (String c' s)))
    with (match last_char (String c' s) with None => Some c | r => r end).
  rewrite Hx. reflexivity.
Qed.

Lemma get_last (s : string) :
  String.get (String.length s - 1) s = last_char s.
Proof.
  destruct s as [|c s]; [reflexivity|].
  simpl String.length. rewrite Nat.sub_1_r. simpl Nat.pred.
  apply get_length_cons.
Qed.

Lemma last_char_no_slash (s : string) :
  has_slash s = false -> Str.is_slash (last_char s) = false.
Proof.
  induction s as [|c s IH]; simpl; [reflexivity|].
  intros H. apply orb_false_iff in H. destruct H as [Hc Hs].
  specialize (IH Hs). destruct (last_char s); [exact IH|].
  simpl. exact Hc.
Qed.

Lemma strip_slashes_fixed (s : string) :
  s <> "" -> Str.is_slash (last_char s) = false -> strip_slashes s = s.
Proof.
  induction s as [|c s IH]; intros Hne H; [contradiction|].
  simpl in *. destruct s as [|c' s'].
  - simpl in *. rewrite H. reflexivity.
  - assert (Hs : strip_slashes (String c' s') = String c' s').
    { apply IH; [discriminate|].
      destruct (last_char (String c' s')) eqn:E; [exact H|].
      apply last_char_none in E. discriminate. }
    rewrite Hs. reflexivity.
Qed.

(** A path that does not end in a slash is looked up as it is written. *)
Lemma canonical_fixed (s : string) :
  Str.is_slash (last_char s) = false -> canonical s = s.
Proof.
  intros H. destruct s as [|c s]; [reflexivity|].
  unfold canonical. rewrite strip_slashes_fixed by (discriminate || exact H).
  reflexivity.
Qed.


Lemma split_nonempty (c : ascii) (s : string) : Str.split c s <> [].
Proof.
  destruct s as [|a s]; simpl; [discriminate|].
  destruct (Ascii.eqb a c); [discriminate|].
  destruct (Str.split c s); discriminate.
Qed.

Lemma split_app (c : ascii) (a b : string) :
  Str.split c (a ++ String c b) = (Str.split c a ++ Str.split c b)%list.
Proof.
  induction a as [|x a IH]; simpl.
  - rewrite Ascii.eqb_refl. reflexivity.
  - rewrite IH. destruct (Ascii.eqb x c); [reflexivity|].
    pose proof (split_nonempty c a) as Hne.
    destruct (Str.split c a) as [|seg rest]; [contradiction|]. reflexivity.
Qed.

Lemma split_plain (s : string) :
  has_slash s = false -> Str.split Str.slash s = [s].
Proof.
  induction s as [|c s IH]; simpl; [reflexivity|].
  intros H. apply orb_false_iff in H. destruct H as [Hc Hs].
  rewrite Hc, (IH Hs). reflexivity.
Qed.

Lemma normalize_segments_snoc (allow : bool) (segs acc : list string)
    (name : string) :
  plain_name name = true ->
  Path.normalize_segments allow acc (segs ++ [name])
  = (Path.normalize_segments allow acc segs ++ [name])%list.
Proof.
  intros Hp. unfold plain_name in Hp.
  apply andb_true_iff in Hp. destruct Hp as [Hp H3].
  apply andb_true_iff in Hp. destruct Hp as [Hp H2].
  apply andb_true_iff in Hp. destruct Hp as [_ H1].
  apply negb_true_iff in H1, H2, H3.
  revert acc. induction segs as [|seg segs IH]; intros acc; simpl.
  - rewrite H1, H2, H3. reflexivity.
  - destruct (String.eqb seg "" || String.eqb seg "."); [apply IH|].
    destruct (String.eqb seg ".."); [|apply IH].
    destruct acc as [|top acc']; [apply IH|].
    destruct (String.eqb top ".."); apply IH.
Qed.

Lemma concat_snoc_last (l : list string) (name : string) :
  name <> "" ->
  last_char (String.concat "/" (l ++ [name])) = last_char name.
Proof.
  intros Hne. induction l as [|x l IH]; [reflexivity|].
  simpl app. simpl String.concat.
  destruct (l ++ [name])%list as [|y rest] eqn:E.
  - destruct l; discriminate.
  - rewrite last_char_app; [|].
    + rewrite last_char_app; [exact IH|].
      intros H. rewrite H in IH. simpl in IH. symmetry in IH.
      apply last_char_none in IH. contradiction.
    + discriminate.
Qed.

Lemma last_char_normalize (path name : string) (segs : list string) :
  plain_name name = true ->
  Str.split Str.slash path = (segs ++ [name])%list ->
  last_char path = last_char name ->
  last_char (Path.normalize path) = last_char name.
Proof.
  intros Hp Hsplit Hlast.
  assert (Hplain := Hp). unfold plain_name in Hp.
  apply andb_true_iff in Hp. destruct Hp as [Hp _].
  apply andb_true_iff in Hp. destruct Hp as [Hp _].
  apply andb_true_iff in Hp. destruct Hp as [Hs Hne].
  apply negb_true_iff in Hs, Hne.
  apply String.eqb_neq in Hne.
  unfold Path.normalize.
  destruct (Nat.eqb (String.length path) 0) eqn:Hlen.
  - apply Nat.eqb_eq in Hlen. destruct path; [|discriminate].
    simpl in Hlast. symmetry in Hlast. apply last_char_none in Hlast.
    contradiction.
  - rewrite get_last, Hlast, (last_char_no_slash name Hs).
    unfold Path.normalizeString. rewrite Hsplit.
    rewrite (normalize_segments_snoc _ _ _ _ Hplain).
    set (kept := Path.normalize_segments _ [] segs).
    pose proof (concat_snoc_last kept name Hne) as Hc.
    destruct (Nat.eqb (String.length (String.concat "/" (kept ++ [name]))) 0)
      eqn:Hz.
    + apply Nat.eqb_eq in Hz.
      destruct (String.concat "/" (kept ++ [name])); [|discriminate].
      simpl in Hc. symmetry in Hc. apply last_char_none in Hc. contradiction.
    + destruct (Str.is_slash (String.get 0 path)); [|exact Hc].
      rewrite last_char_app; [exact Hc|].
      intros H. rewrite H in Hz. discriminate.
Qed.

(** Joining a plain name to any path gives a path that ends as the name
    does. *)
Lemma last_char_join (a name : string) :
  plain_name name = true ->
  last_char (Path.join a name) = last_char name.
Proof.
  intros Hp. assert (Hplain := Hp). unfold plain_name in Hp.
  apply andb_true_iff in Hp. destruct Hp as [Hp _].
  apply andb_true_iff in Hp. destruct Hp as [Hp _].
  apply andb_true_iff in Hp. destruct Hp as [Hs Hne].
  apply negb_true_iff in Hs, Hne. apply String.eqb_neq in Hne.
  unfold Path.join.
  destruct (Nat.eqb (String.length name) 0) eqn:Hn.
  { apply Nat.eqb_eq in Hn. destruct name; [contradiction|discriminate]. }
  destruct (Nat.eqb (String.length a) 0).
  - apply (last_char_normalize name name []); [exact Hplain| |reflexivity].
    apply split_plain. exact Hs.
  - apply (last_char_normalize _ name (Str.split Str.slash a)); [exact Hplain| |].
    + change (a ++ "/" ++ name) with (a ++ String Str.slash name).
      rewrite split_app, (split_plain name Hs). reflexivity.
    + rewrite last_char_app by discriminate.
      change ("/" ++ name) with (String Str.slash name). simpl.
      destruct (last_char name) eqn:E; [reflexivity|].
      apply last_char_none in E. contradiction.
Qed.

Lemma join_plain_no_slash (a name : string) :
  plain_name name = true ->
  Str.is_slash (last_char (Path.join a name)) = false.
Proof.
  intros Hp. rewrite (last_char_join a name Hp).
  apply last_char_no_slash. unfold plain_name in Hp.
  apply andb_true_iff in Hp. destruct Hp as [Hp _].
  apply andb_true_iff in Hp. destruct Hp as [Hp _].
  apply andb_true_iff in Hp. destruct Hp as [Hs _].
  apply negb_true_iff in Hs. exact Hs.
Qed.


Lemma canonical_join (a name : string) :
  plain_name name = true ->
  canonical (Path.join a name) = Path.join a name.
Proof. intros Hp. apply canonical_fixed, join_plain_no_slash, Hp. Qed.


End PathEnds.

(** ** Own properties and their order *)

Section KeyFacts.
Import Js Sys Utils Spec.

Lemma precedes_irrefl (k : string) : precedes k k = false.
Proof.
  unfold precedes. destruct (array_index k); [apply N.ltb_irrefl|reflexivity].
Qed.

Lemma precedes_asym (k k' : string) :
  precedes k k' = true -> precedes k' k = false.
Proof.
  unfold precedes. destruct (array_index k), (array_index k'); try discriminate;
    try reflexivity.
  intros H. apply N.ltb_lt in H. apply N.ltb_ge. lia.
Qed.


Lemma assoc_set_same (k : string) (x : value) (fields : list (string * value)) :
  assoc k (assoc_set k x fields) = Some x.
Proof.
  induction fields as [|[k' v] fields IH]; simpl.
  - rewrite String.eqb_refl. reflexivity.
  - destruct (String.eqb k' k) eqn:E; simpl; [rewrite E; reflexivity|].
    destruct (precedes k k'); simpl.
    + rewrite String.eqb_refl. reflexivity.
    + rewrite E. exact IH.
Qed.




Lemma forallb_weaken {A} (P Q : A -> bool) (l : list A) :
  (forall x, P x = true -> Q x = true) ->
  forallb P l = true -> forallb Q l = true.
Proof.
  intros H. induction l as [|x l IH]; simpl; [reflexivity|].
  intros Hl. apply andb_true_iff in Hl. destruct Hl as [H1 H2].
  rewrite (H x H1), (IH H2). reflexivity.
Qed.




(** Keys that are already in enumeration order stay where they are. *)
Lemma enum_order_ordered (fields : list (string * value)) :
  ordered (List.map fst fields) = true -> enum_order fields = fields.
Proof.
  induction fields as [|[k x] fields IH]; simpl; [reflexivity|].
  intros H. apply andb_true_iff in H. destruct H as [H1 H2].
  unfold enum_order in *. simpl. rewrite (IH H2).
  destruct fields as [|[k' x'] fields]; [reflexivity|].
  simpl in *. apply andb_true_iff in H1. destruct H1 as [H1 _].
  apply andb_true_iff in H1. destruct H1 as [_ H1].
  apply negb_true_iff in H1. rewrite H1. reflexivity.
Qed.

Lemma assoc_enum_insert (k : string) (p : string * value)
    (l : list (string * value)) :
  assoc k (enum_insert p l) = assoc k (p :: l).
Proof.
  induction l as [|q l IH]; [reflexivity|].
  destruct p as [kp xp], q as [kq xq]. simpl in *.
  destruct (precedes kq kp) eqn:Hp; simpl; [|reflexivity].
  rewrite IH.
  destruct (String.eqb_spec kq k) as [->|Hq];
    destruct (String.eqb_spec kp k) as [->|Hk]; try reflexivity.
  rewrite precedes_irrefl in Hp. discriminate.
Qed.

(** Enumeration order does not change what a key is bound to. *)
Lemma assoc_enum_order (k : string) (fields : list (string * value)) :
  assoc k (enum_order fields) = assoc k fields.
Proof.
  induction fields as [|[k' x] fields IH]; [reflexivity|].
  unfold enum_order in *. simpl List.fold_right.
  rewrite assoc_enum_insert. simpl. rewrite IH. reflexivity.
Qed.

Lemma Forall_enum_insert (P : string * value -> Prop) (p : string * value)
    (l : list (string * value)) :
  P p -> Forall P l -> Forall P (enum_insert p l).
Proof.
  intros Hp. induction 1 as [|q l Hq Hl IH]; simpl.
  - repeat constructor. exact Hp.
  - destruct (precedes (fst q) (fst p)); repeat constructor; assumption.
Qed.

Lemma Forall_enum_order (P : string * value -> Prop)
    (fields : list (string * value)) :
  Forall P fields -> Forall P (enum_order fields).
Proof.
  induction 1 as [|p l Hp Hl IH]; [constructor|].
  unfold enum_order in *. simpl. apply Forall_enum_insert; assumption.
Qed.

Lemma Exists_enum_insert (P : string * value -> Prop) (p : string * value)
    (l : list (string * value)) :
  Exists P (p :: l) -> Exists P (enum_insert p l).
Proof.
  induction l as [|q l IH]; intros H; [exact H|]. simpl.
  destruct (precedes (fst q) (fst p)); [|exact H].
  inversion H as [? ? Hp|? ? Hrest]; subst.
  - apply Exists_cons_tl, IH. apply Exists_cons_hd. exact Hp.
  - inversion Hrest as [? ? Hq|? ? Hl]; subst.
    + apply Exists_cons_hd. exact Hq.
    + apply Exists_cons_tl, IH. apply Exists_cons_tl. exact Hl.
Qed.

Lemma Exists_enum_order (P : string * value -> Prop)
    (fields : list (string * value)) :
  Exists P fields -> Exists P (enum_order fields).
Proof.
  induction fields as [|p l IH]; intros H; [inversion H|].
  unfold enum_order in *. simpl. apply Exists_enum_insert.
  inversion H as [? ? Hp|? ? Hl]; subst.
  - apply Exists_cons_hd. exact Hp.
  - apply Exists_cons_tl, IH. exact Hl.
Qed.



Lemma keys_jsonify_fields (P : string -> bool) (fields : list (string * value)) :
  forallb P (List.map fst fields) = true ->
  forallb P (List.map fst (List.flat_map jsonify_field fields)) = true.
Proof.
  induction fields as [|[k x] fields IH]; simpl; [reflexivity|].
  intros H. apply andb_true_iff in H. destruct H as [H1 H2].
  destruct (is_omitted x); simpl; [exact (IH H2)|].
  rewrite H1. exact (IH H2).
Qed.

Lemma ordered_jsonify_fields (fields : list (string * value)) :
  ordered (List.map fst fields) = true ->
  ordered (List.map fst (List.flat_map jsonify_field fields)) = true.
Proof.
  induction fields as [|[k x] fields IH]; simpl; [reflexivity|].
  intros H. apply andb_true_iff in H. destruct H as [H1 H2].
  destruct (is_omitted x); simpl; [exact (IH H2)|].
  rewrite (IH H2), andb_true_r. apply keys_jsonify_fields. exact H1.
Qed.

(** Keys without an array index among them are in enumeration order as
    soon as they are distinct. *)
Lemma ordered_names (ks : list string) :
  forallb is_name ks = true -> List.NoDup ks -> ordered ks = true.
Proof.
  induction ks as [|k ks IH]; simpl; [reflexivity|].
  intros H Hnd. apply andb_true_iff in H. destruct H as [H1 H2].
  inversion Hnd as [|? ? Hnotin Hrest]; subst.
  rewrite (IH H2 Hrest), andb_true_r.
  apply forallb_forall. intros k' Hin.
  apply andb_true_iff. split.
  - apply negb_true_iff, String.eqb_neq. intros ->. contradiction.
  - rewrite forallb_forall in H2. specialize (H2 k' Hin).
    unfold is_name in H2. unfold precedes.
    destruct (array_index k'); [discriminate|reflexivity].
Qed.




End KeyFacts.

(** ** Numbers *)

Section NumberFacts.
Import Js Sys Utils Spec.
Local Open Scope Z_scope.

Lemma round_small (a : Z) : Z.log2 a - 52 <= 0 -> round_to_double a = a.
Proof.
  intros H. unfold round_to_double.
  destruct (Z.leb_spec (Z.log2 a - 52) 0); [reflexivity|lia].
Qed.

(** Beyond 53 bits the rounded value is a multiple [q * 2^k] with
    [2^52 <= q <= 2^53], where [2^k] is the weight of the last bit
    kept. *)
Lemma round_large (a : Z) :
  0 < Z.log2 a - 52 ->
  exists q, round_to_double a = q * 2 ^ (Z.log2 a - 52) /\
            2 ^ 52 <= q <= 2 ^ 53.
Proof.
  intros Hk.
  assert (Ha : 0 < a).
  { destruct (Z.le_gt_cases a 0) as [H|H]; [|exact H].
    rewrite (Z.log2_nonpos a H) in Hk. lia. }
  unfold round_to_double.
  destruct (Z.leb_spec (Z.log2 a - 52) 0) as [Hle|_]; [lia|].
  set (k := Z.log2 a - 52) in *.
  pose proof (Z.log2_spec a Ha) as [Hlo Hhi].
  replace (Z.log2 a) with (k + 52) in Hlo by lia.
  replace (Z.succ (Z.log2 a)) with (k + 53) in Hhi by lia.
  rewrite Z.pow_add_r in Hlo, Hhi by lia.
  assert (Hp : 0 < 2 ^ k) by (apply Z.pow_pos_nonneg; lia).
  set (p := 2 ^ k) in *.
  assert (Hq1 : 2 ^ 52 <= a / p).
  { apply Z.div_le_lower_bound; lia. }
  assert (Hq2 : a / p < 2 ^ 53).
  { apply Z.div_lt_upper_bound; lia. }
  destruct ((p <? 2 * (a mod p)) || ((2 * (a mod p) =? p) && Z.odd (a / p))).
  - exists (a / p + 1). split; [reflexivity|lia].
  - exists (a / p). split; [reflexivity|lia].
Qed.

Lemma round_nonneg (a : Z) : 0 <= a -> 0 <= round_to_double a.
Proof.
  intros Ha. destruct (Z.le_gt_cases (Z.log2 a - 52) 0) as [H|H].
  - rewrite (round_small a H). exact Ha.
  - destruct (round_large a H) as [q [-> [Hq _]]].
    apply Z.mul_nonneg_nonneg; [|apply Z.pow_nonneg; lia].
    pose proof (Z.pow_pos_nonneg 2 52). lia.
Qed.






End NumberFacts.

(** ** JSON values *)

Section ValueFacts.
Import Js Sys Utils Spec.


Lemma jsonify_object (fields : list (string * value)) :
  jsonify (VObj fields) = VObj (enum_order (List.flat_map jsonify_field fields)).
Proof. reflexivity. Qed.





Lemma keys_parse_fields (fields : list (string * value)) :
  List.map fst (List.map parse_field fields) = List.map fst fields.
Proof.
  induction fields as [|[k x] fields IH]; simpl; [|rewrite IH]; reflexivity.
Qed.








Lemma assoc_jsonify_fields (k : string) (v : value)
    (fields : list (string * value)) :
  assoc k fields = Some v -> is_omitted v = false ->
  assoc k (List.flat_map jsonify_field fields) = Some (jsonify v).
Proof.
  intros H Hv. induction fields as [|[k' v'] fields IH]; simpl in *; [discriminate|].
  destruct (String.eqb k' k) eqn:E.
  - inversion H; subst v'. rewrite Hv. simpl. rewrite E. reflexivity.
  - destruct (is_omitted v'); simpl; [|rewrite E]; apply IH; exact H.
Qed.

(** What a written object holds under a key that was bound to something
    [JSON.stringify] keeps. *)
Lemma assoc_jsonify (k : string) (v : value) (fields obj : list (string * value)) :
  jsonify (VObj fields) = VObj obj ->
  assoc k fields = Some v -> is_omitted v = false ->
  assoc k obj = Some (jsonify v).
Proof.
  rewrite jsonify_object. intros E H Hv. inversion E; subst obj.
  rewrite assoc_enum_order. apply assoc_jsonify_fields; assumption.
Qed.


Lemma get_ret_not_nullish (v x : value) (k : string) :
  get v k = Ret x -> nullish v = false.
Proof. destruct v; simpl; intros H; try reflexivity; discriminate. Qed.

Lemma inherited_not_object (names : list string) (k : string)
    (sk : list (string * value)) :
  inherited names k <> VObj sk.
Proof. unfold inherited. destruct (existsb _ names); discriminate. Qed.

(** Only an object can have an object under the name [skills], and only
    as an own property. *)
Lemma get_skills_object (v : value) (sk : list (string * value)) :
  get v "skills" = Ret (VObj sk) ->
  exists mf, v = VObj mf /\ assoc "skills" mf = Some (VObj sk).
Proof.
  destruct v; simpl; intros H; try discriminate.
  destruct (assoc "skills" fields) as [x|] eqn:E; [|discriminate].
  inversion H; subst x. eauto.
Qed.




End ValueFacts.


Section WalkFacts.
Import Js Sys Utils Spec.

Lemma walk_enough_fuel (m : gmap string node) (fuel : nat) (p : string) :
  String.length p + 2 <= fuel \/ (Path.dirname p = p /\ 1 <= fuel) ->
  exists r, walk m fuel p = Some r.
Proof.
  revert p. induction fuel as [|fuel IH]; intros p H; [lia|].
  simpl. destruct (String.eqb_spec p (Path.dirname p)) as [Heq|Hne]; [eauto|].
  destruct ((has_entry m (Path.join p "package.json")
             || has_entry m (Path.join p ".git"))
            && negb (isInNodeModules p)); [eauto|].
  apply IH. destruct H as [H|[H _]]; [|congruence].
  destruct (dirname_cases p) as [H1|[H1|H1]].
  - right. rewrite H1. split; [reflexivity|lia].
  - right. rewrite H1. split; [reflexivity|lia].
  - left. lia.
Qed.

(** The loop always ends within the fuel that [detectInstallLocation]
    gives it. *)
Lemma walk_total (m : gmap string node) (p : string) :
  exists r, walk m (String.length p + 2) p = Some r.
Proof. apply walk_enough_fuel. left. lia. Qed.

(** Whatever the loop ends on is outside every [node_modules]. *)
Lemma walk_not_in_node_modules (m : gmap string node) (fuel : nat)
    (p r : string) :
  walk m fuel p = Some r -> isInNodeModules r = false.
Proof.
  revert p. induction fuel as [|fuel IH]; intros p H; simpl in H; [discriminate|].
  destruct (String.eqb_spec p (Path.dirname p)) as [Heq|Hne].
  - inversion H; subst r.
    destruct (dirname_fixed_point p (eq_sym Heq)) as [->| ->]; reflexivity.
  - destruct (isInNodeModules p) eqn:Hin.
    + rewrite andb_false_r in H. eauto.
    + destruct (has_entry m (Path.join p "package.json")
                || has_entry m (Path.join p ".git")); simpl in H.
      * inversion H; subst r. exact Hin.
      * eauto.
Qed.

Lemma projectRoot_walk (e : env) (m : gmap string node) :
  walk m (String.length (CWD e) + 2) (CWD e) = Some (projectRoot e m).
Proof.
  unfold projectRoot. destruct (walk_total m (CWD e)) as [r Hr].
  rewrite Hr. reflexivity.
Qed.

Lemma projectRoot_not_in_node_modules (e : env) (m : gmap string node) :
  isInNodeModules (projectRoot e m) = false.
Proof. eapply walk_not_in_node_modules, projectRoot_walk. Qed.

Lemma detect_project (e : env) (tp isGlobal : value) (p : string) (w : world) :
  truthy isGlobal = false ->
  get tp "project" = Ret (VStr p) ->
  detectInstallLocation e tp isGlobal w =
    (Done {| type := "project";
             base := Path.join (projectRoot e (fs w)) p |}, w).
Proof.
  intros Hg Hp. unfold detectInstallLocation. rewrite Hg.
  unfold bind at 1, get_fs at 1.
  rewrite projectRoot_walk, projectRoot_not_in_node_modules.
  unfold bind, ret, lift. rewrite Hp. reflexivity.
Qed.

Lemma detect_global (e : env) (tp isGlobal : value) (g : string) (w : world) :
  truthy isGlobal = true ->
  get tp "global" = Ret (VStr g) ->
  detectInstallLocation e tp isGlobal w =
    (Done {| type := "personal"; base := Path.join (homedir e) g |}, w).
Proof.
  intros Hg Hp. unfold detectInstallLocation. rewrite Hg.
  unfold bind, ret, lift. rewrite Hp. reflexivity.
Qed.

(** Location detection never changes the world: in particular it never
    prints its warning. *)
Lemma detect_silent (e : env) (tp isGlobal : value) (w : world) :
  snd (detectInstallLocation e tp isGlobal w) = w.
Proof.
  unfold detectInstallLocation. destruct (truthy isGlobal).
  - unfold bind, lift, ret, throw.
    destruct (get tp "global") as [g|err]; [|reflexivity].
    destruct (path_join (homedir e) g); reflexivity.
  - unfold bind at 1, get_fs at 1.
    rewrite projectRoot_walk, projectRoot_not_in_node_modules.
    unfold bind, lift, ret, throw.
    destruct (get tp "project") as [p|err]; [|reflexivity].
    destruct (path_join (projectRoot e (fs w)) p); reflexivity.
Qed.

End WalkFacts.

(** ** Target Resolver *)

Section ResolverFacts.
Import Js Sys Utils Spec Fixtures.

Lemma get_not_nullish (v : value) (k : string) :
  nullish v = false -> get v k = Ret (field k v).
Proof.
  intros H. unfold field. destruct (get v k) eqn:E; [reflexivity|].
  exfalso. destruct v; simpl in *; try discriminate;
    repeat match type of E with
           | context [match ?x with _ => _ end] => destruct x
           end; discriminate.
Qed.

Lemma filterR_total {A} (f : A -> result bool) (g : A -> bool) (l : list A) :
  Forall (fun x => f x = Ret (g x)) l ->
  filterR f l = Ret (List.filter g l).
Proof.
  induction 1 as [|x l Hx _ IH]; simpl; [reflexivity|].
  rewrite Hx, IH. reflexivity.
Qed.

Lemma mapR_total {A B} (f : A -> result B) (g : A -> B) (l : list A) :
  Forall (fun x => f x = Ret (g x)) l ->
  mapR f l = Ret (List.map g l).
Proof.
  induction 1 as [|x l Hx _ IH]; simpl; [reflexivity|].
  rewrite Hx, IH. reflexivity.
Qed.

Lemma Forall_filter_keep {A} (P : A -> Prop) (g : A -> bool) (l : list A) :
  Forall P l -> Forall P (List.filter g l).
Proof.
  induction 1 as [|x l Hx _ IH]; simpl; [constructor|].
  destruct (g x); [constructor|]; assumption.
Qed.

Lemma filter_none {A} (g : A -> bool) (l : list A) :
  Forall (fun x => g x = false) l -> List.filter g l = [].
Proof.
  induction 1 as [|x l Hx _ IH]; simpl; [reflexivity|].
  rewrite Hx. exact IH.
Qed.

(** C9: a configuration without a [targets] field resolves to the single
    default target, named [claude-code], whose global and project paths
    are both [.claude/skills]. *)
Theorem default_target_when_no_targets (fields : list (string * value)) :
  assoc "targets" fields = None ->
  getEnabledTargets (VObj fields) = Ret [default_target] /\
  name default_target = "claude-code" /\
  get (paths default_target) "global" = Ret (VStr ".claude/skills") /\
  get (paths default_target) "project" = Ret (VStr ".claude/skills").
Proof.
  intros H. unfold getEnabledTargets. simpl. rewrite H. simpl.
  repeat split; reflexivity.
Qed.

Lemma default_target_when_no_targets_witness :
  getEnabledTargets (VObj [("name", VStr "my-skill"); ("version", VStr "1.0.0")])
    = Ret [default_target] /\
  name default_target = "claude-code" /\
  get (paths default_target) "global" = Ret (VStr ".claude/skills") /\
  get (paths default_target) "project" = Ret (VStr ".claude/skills").
Proof.
  apply (default_target_when_no_targets
           [("name", VStr "my-skill"); ("version", VStr "1.0.0")]).
  reflexivity.
Defined.

Lemma Permutation_enum_insert (p : string * value) (l : list (string * value)) :
  Permutation (enum_insert p l) (p :: l).
Proof.
  induction l as [|q l IH]; simpl; [reflexivity|].
  destruct (precedes (fst q) (fst p)); [|reflexivity].
  rewrite IH. apply perm_swap.
Qed.

Lemma Permutation_enum_order (l : list (string * value)) :
  Permutation (enum_order l) l.
Proof.
  induction l as [|p l IH]; [reflexivity|].
  unfold enum_order in *. simpl. rewrite Permutation_enum_insert, IH.
  reflexivity.
Qed.

Lemma precedes_cotrans (x q p : string) :
  precedes x p = true -> precedes x q = true \/ precedes q p = true.
Proof.
  unfold precedes.
  destruct (array_index x), (array_index q), (array_index p);
    try discriminate; auto.
  intros H. apply N.ltb_lt in H.
  destruct (N.ltb_spec n n0); [auto|]. right. apply N.ltb_lt. lia.
Qed.

Lemma forallb_enum_insert (P : string * value -> bool) (p : string * value)
    (l : list (string * value)) :
  P p = true -> forallb P l = true -> forallb P (enum_insert p l) = true.
Proof.
  intros Hp. induction l as [|q l IH]; simpl; intros H.
  - rewrite Hp. reflexivity.
  - apply andb_true_iff in H. destruct H as [H1 H2].
    destruct (precedes (fst q) (fst p)); simpl.
    + rewrite H1. exact (IH H2).
    + rewrite Hp, H1. exact H2.
Qed.

Lemma enumerated_enum_insert (p : string * value) (l : list (string * value)) :
  enumerated l = true -> enumerated (enum_insert p l) = true.
Proof.
  induction l as [|q l IH]; simpl; intros H; [reflexivity|].
  apply andb_true_iff in H. destruct H as [H1 H2].
  destruct (precedes (fst q) (fst p)) eqn:Hp; simpl.
  - rewrite (IH H2), andb_true_r. apply forallb_enum_insert; [|exact H1].
    apply negb_true_iff, precedes_asym, Hp.
  - rewrite Hp, H1, H2. simpl. rewrite andb_true_r.
    revert H1. apply forallb_weaken. intros x Hx.
    apply negb_true_iff in Hx. apply negb_true_iff.
    destruct (precedes (fst x) (fst p)) eqn:E; [|reflexivity].
    destruct (precedes_cotrans _ (fst q) _ E) as [H|H]; congruence.
Qed.

Lemma enumerated_enum_order (l : list (string * value)) :
  enumerated (enum_order l) = true.
Proof.
  induction l as [|p l IH]; [reflexivity|].
  unfold enum_order in *. simpl. apply enumerated_enum_insert, IH.
Qed.

Lemma named_enum_insert (p : string * value) (l : list (string * value)) :
  List.filter (fun nt => is_name (fst nt)) (enum_insert p l)
  = List.filter (fun nt => is_name (fst nt)) (p :: l).
Proof.
  induction l as [|q l IH]; [reflexivity|].
  simpl in *. destruct (precedes (fst q) (fst p)) eqn:Hp; [|reflexivity].
  simpl. rewrite IH.
  assert (Hq : is_name (fst q) = false).
  { unfold precedes in Hp. unfold is_name.
    destruct (array_index (fst q)); [reflexivity|discriminate]. }
  rewrite Hq. reflexivity.
Qed.

Lemma named_enum_order (l : list (string * value)) :
  List.filter (fun nt => is_name (fst nt)) (enum_order l)
  = List.filter (fun nt => is_name (fst nt)) l.
Proof.
  induction l as [|p l IH]; [reflexivity|].
  unfold enum_order in *. simpl List.fold_right.
  rewrite named_enum_insert. simpl. rewrite IH. reflexivity.
Qed.

(** C4, as the code has it: when [targets] is a map whose entries are not
    [null], the resolver returns exactly the entries whose [enabled] is
    truthy, each as [{ name, paths }], in the order in which
    [Object.entries] lists them: the names that are array indices first,
    in ascending numeric order, then the other names in declaration
    order.  A map whose names are distinct and none of them an array
    index is thus resolved in declaration order; an empty map and a map
    with no truthy [enabled] give the empty list, without error. *)
Theorem enabled_targets_are_the_truthy_ones
    (fields ts : list (string * value)) :
  assoc "targets" fields = Some (VObj ts) ->
  forallb (fun nt => negb (nullish (snd nt))) ts = true ->
  getEnabledTargets (VObj fields) = Ret (truthy_enabled_targets (enum_order ts)) /\
  (Permutation (enum_order ts) ts /\
   enumerated (enum_order ts) = true /\
   List.filter (fun nt => is_name (fst nt)) (enum_order ts)
   = List.filter (fun nt => is_name (fst nt)) ts) /\
  (forallb is_name (List.map fst ts) = true -> List.NoDup (List.map fst ts) ->
   getEnabledTargets (VObj fields) = Ret (truthy_enabled_targets ts)) /\
  (Forall (fun nt => truthy (field "enabled" (snd nt)) = false) ts ->
   getEnabledTargets (VObj fields) = Ret []).
Proof.
  intros Ht Hobj.
  assert (Hall : Forall (fun nt : string * value => nullish (snd nt) = false)
                        (enum_order ts)).
  { apply Forall_enum_order. apply List.Forall_forall. intros nt Hin.
    rewrite forallb_forall in Hobj. specialize (Hobj nt Hin).
    now apply negb_true_iff in Hobj. }
  assert (Heq : getEnabledTargets (VObj fields)
                = Ret (truthy_enabled_targets (enum_order ts))).
  { unfold getEnabledTargets. simpl get. rewrite Ht. cbn [truthy negb entries].
    rewrite (filterR_total _ (fun nt => truthy (field "enabled" (snd nt)))).
    - apply mapR_total. apply Forall_filter_keep.
      eapply Forall_impl; [exact Hall|]. intros nt Hnt. simpl.
      rewrite (get_not_nullish _ _ Hnt). reflexivity.
    - eapply Forall_impl; [exact Hall|]. intros nt Hnt. simpl.
      rewrite (get_not_nullish _ _ Hnt). reflexivity. }
  split; [exact Heq|].
  split.
  { split; [apply Permutation_enum_order|].
    split; [apply enumerated_enum_order|apply named_enum_order]. }
  split.
  - intros Hnames Hnd. rewrite Heq.
    rewrite (enum_order_ordered ts (ordered_names _ Hnames Hnd)). reflexivity.
  - intros Hoff. rewrite Heq. unfold truthy_enabled_targets.
    rewrite (filter_none _ (enum_order ts)); [reflexivity|].
    apply Forall_enum_order. exact Hoff.
Qed.

Lemma enabled_targets_are_the_truthy_ones_witness :
  getEnabledTargets (VObj [("name", VStr "my-skill"); ("targets", VObj two_targets)])
    = Ret (truthy_enabled_targets (enum_order two_targets)) /\
  (Permutation (enum_order two_targets) two_targets /\
   enumerated (enum_order two_targets) = true /\
   List.filter (fun nt => is_name (fst nt)) (enum_order two_targets)
   = List.filter (fun nt => is_name (fst nt)) two_targets) /\
  (forallb is_name (List.map fst two_targets) = true ->
   List.NoDup (List.map fst two_targets) ->
   getEnabledTargets
     (VObj [("name", VStr "my-skill"); ("targets", VObj two_targets)])
   = Ret (truthy_enabled_targets two_targets)) /\
  (Forall (fun nt => truthy (field "enabled" (snd nt)) = false) two_targets ->
   getEnabledTargets
     (VObj [("name", VStr "my-skill"); ("targets", VObj two_targets)]) = Ret []).
Proof.
  apply (enabled_targets_are_the_truthy_ones
           [("name", VStr "my-skill"); ("targets", VObj two_targets)] two_targets);
    reflexivity.
Defined.

(** An entry with [enabled: 1] is not [=== true], yet the resolver keeps
    it; and two enabled targets declared as [b] then [1] are returned as
    [1] then [b].  Either way the result differs from the one the strict
    reading in declaration order prescribes. *)
Lemma enabled_strict_equality_counterexample :
  (spec_enabled_targets numeric_flag_targets = [] /\
   getEnabledTargets (VObj [("targets", VObj numeric_flag_targets)])
     = Ret [resolve ("cursor", VObj [("enabled", VNum 1);
                                     ("paths", VObj [("global", VStr ".cursor/skills");
                                                     ("project", VStr ".cursor/skills")])])] /\
   getEnabledTargets (VObj [("targets", VObj numeric_flag_targets)])
     <> Ret (spec_enabled_targets numeric_flag_targets)) /\
  (List.map name (spec_enabled_targets indexed_targets) = ["b"; "1"] /\
   List.map name (truthy_enabled_targets (entries (VObj indexed_targets)))
     = ["1"; "b"] /\
   getEnabledTargets (VObj [("targets", VObj indexed_targets)])
     = Ret (truthy_enabled_targets (entries (VObj indexed_targets))) /\
   getEnabledTargets (VObj [("targets", VObj indexed_targets)])
     <> Ret (spec_enabled_targets indexed_targets)).
Proof.
  split.
  - repeat split; try reflexivity. discriminate.
  - repeat split; try reflexivity. discriminate.
Qed.

End ResolverFacts.

(** ** Location Detector *)

Section DetectorFacts.
Import Js Sys Utils Spec Fixtures.

Lemma walk_step (m : gmap string node) (fuel : nat) (p : string) :
  walk m (S fuel) p =
    if String.eqb p (Path.dirname p) then Some p
    else if (has_entry m (Path.join p "package.json")
             || has_entry m (Path.join p ".git"))
            && negb (isInNodeModules p)
    then Some p
    else walk m fuel (Path.dirname p).
Proof. reflexivity. Qed.

(** The root found from [/repo/sub/node_modules/pkg] when [/repo] holds a
    [.git]: the two [node_modules] candidates are passed over, then
    [/repo/sub] is taken if it has a marker of its own, else [/repo]. *)
Lemma projectRoot_nested (e : env) (m : gmap string node) :
  CWD e = "/repo/sub/node_modules/pkg" ->
  has_entry m "/repo/.git" = true ->
  projectRoot e m = nested_root m.
Proof.
  intros Hcwd Hgit. unfold projectRoot, nested_root. rewrite Hcwd.
  change (String.length "/repo/sub/node_modules/pkg" + 2) with 28.
  rewrite walk_step.
  change (Path.dirname "/repo/sub/node_modules/pkg") with "/repo/sub/node_modules".
  change (isInNodeModules "/repo/sub/node_modules/pkg") with true.
  change (String.eqb "/repo/sub/node_modules/pkg" "/repo/sub/node_modules") with false.
  cbv iota. rewrite andb_false_r.
  rewrite walk_step.
  change (Path.dirname "/repo/sub/node_modules") with "/repo/sub".
  change (isInNodeModules "/repo/sub/node_modules") with true.
  change (String.eqb "/repo/sub/node_modules" "/repo/sub") with false.
  cbv iota. rewrite andb_false_r.
  rewrite walk_step.
  change (Path.dirname "/repo/sub") with "/repo".
  change (isInNodeModules "/repo/sub") with false.
  change (String.eqb "/repo/sub" "/repo") with false.
  change (Path.join "/repo/sub" "package.json") with "/repo/sub/package.json".
  change (Path.join "/repo/sub" ".git") with "/repo/sub/.git".
  cbv iota. rewrite andb_true_r.
  destruct (has_entry m "/repo/sub/package.json" || has_entry m "/repo/sub/.git");
    [reflexivity|].
  rewrite walk_step.
  change (Path.dirname "/repo") with "/".
  change (isInNodeModules "/repo") with false.
  change (String.eqb "/repo" "/") with false.
  change (Path.join "/repo" ".git") with "/repo/.git".
  cbv iota. rewrite Hgit, orb_true_r. reflexivity.
Qed.

(** C2, as the code has it: started at [/repo/sub/node_modules/pkg] below
    a [/repo] that holds a [.git], project-scope detection never settles
    inside or on a [node_modules] directory; it returns
    [join(/repo/sub, targetPaths.project)] when [/repo/sub] has a
    [package.json] or [.git] of its own, and
    [join(/repo, targetPaths.project)] otherwise. *)
Theorem detect_from_nested_dependency
    (e : env) (w : world) (tp isGlobal : value) (p : string) :
  CWD e = "/repo/sub/node_modules/pkg" ->
  has_entry (fs w) "/repo/.git" = true ->
  truthy isGlobal = false ->
  get tp "project" = Ret (VStr p) ->
  detectInstallLocation e tp isGlobal w =
    (Done {| type := "project"; base := Path.join (nested_root (fs w)) p |}, w) /\
  projectRoot e (fs w) = nested_root (fs w) /\
  isInNodeModules (nested_root (fs w)) = false.
Proof.
  intros Hcwd Hgit Hg Hp.
  rewrite (detect_project e tp isGlobal p w Hg Hp).
  rewrite (projectRoot_nested e (fs w) Hcwd Hgit).
  repeat split. unfold nested_root.
  destruct (has_entry (fs w) "/repo/sub/package.json"
            || has_entry (fs w) "/repo/sub/.git"); reflexivity.
Qed.

Lemma detect_from_nested_dependency_witness :
  detectInstallLocation (env_at "/repo/sub/node_modules/pkg" None)
      (paths default_target) VUndef (world_of [("/repo/.git", Dir)]) =
    (Done {| type := "project";
             base := Path.join (nested_root (fs (world_of [("/repo/.git", Dir)])))
                               ".claude/skills" |},
     world_of [("/repo/.git", Dir)]) /\
  projectRoot (env_at "/repo/sub/node_modules/pkg" None)
              (fs (world_of [("/repo/.git", Dir)]))
    = nested_root (fs (world_of [("/repo/.git", Dir)])) /\
  isInNodeModules (nested_root (fs (world_of [("/repo/.git", Dir)]))) = false.
Proof.
  apply (detect_from_nested_dependency
           (env_at "/repo/sub/node_modules/pkg" None)
           (world_of [("/repo/.git", Dir)])
           (paths default_target) VUndef ".claude/skills");
    reflexivity.
Defined.

(** With a [package.json] in [/repo/sub] the detector stops there, not at
    [/repo]. *)
Lemma detect_stops_below_repo_counterexample :
  has_entry (fs nested_package_world) "/repo/.git" = true /\
  CWD (env_at "/repo/sub/node_modules/pkg" None) = "/repo/sub/node_modules/pkg" /\
  detectInstallLocation (env_at "/repo/sub/node_modules/pkg" None)
      (paths default_target) VUndef nested_package_world
    = (Done {| type := "project"; base := "/repo/sub/.claude/skills" |},
       nested_package_world) /\
  Path.join "/repo" ".claude/skills" = "/repo/.claude/skills" /\
  fst (detectInstallLocation (env_at "/repo/sub/node_modules/pkg" None)
         (paths default_target) VUndef nested_package_world)
    <> Done {| type := "project"; base := Path.join "/repo" ".claude/skills" |}.
Proof.
  repeat split; try (vm_compute; reflexivity).
  vm_compute. discriminate.
Qed.




(** X19: the fallback to the starting directory cannot be reached.  The
    walk never ends on a path inside or named [node_modules], so the
    detector never prints its warning and never changes the world; from
    [/tmp/x/node_modules/pkg] with no marker anywhere it returns the
    file-system root joined with the project path, not the starting
    directory. *)
Theorem fallback_to_cwd_is_unreachable :
  (forall (e : env) (m : gmap string node),
      isInNodeModules (projectRoot e m) = false) /\
  (forall (e : env) (tp isGlobal : value) (w : world),
      snd (detectInstallLocation e tp isGlobal w) = w) /\
  detectInstallLocation (env_at "/tmp/x/node_modules/pkg" None)
      (paths default_target) VUndef (world_of [])
    = (Done {| type := "project"; base := "/.claude/skills" |}, world_of []) /\
  Path.join (CWD (env_at "/tmp/x/node_modules/pkg" None)) ".claude/skills"
    = "/tmp/x/node_modules/pkg/.claude/skills".
Proof.
  split; [exact projectRoot_not_in_node_modules|].
  split; [exact detect_silent|].
  split; vm_compute; reflexivity.
Qed.

End DetectorFacts.

(** ** Running monadic code *)

Section RunFacts.
Import Js Sys Utils Spec.
Local Open Scope sys_scope.
Context {A B : Type}.

Lemma run_ret (a : A) (k : A -> M B) (w : world) :
  bind (ret a) k w = k a w.
Proof. reflexivity. Qed.

Lemma run_throw (err : error) (k : A -> M B) (w : world) :
  bind (throw err) k w = (Thrown err, w).
Proof. reflexivity. Qed.

Lemma run_lift_ret (a : A) (k : A -> M B) (w : world) :
  bind (lift (Ret a)) k w = k a w.
Proof. reflexivity. Qed.

Lemma run_lift_raise (err : error) (k : A -> M B) (w : world) :
  bind (lift (Raise err)) k w = (Thrown err, w).
Proof. reflexivity. Qed.

Lemma run_if (b : bool) (m1 m2 : M A) (k : A -> M B) (w : world) :
  bind (if b then m1 else m2) k w = if b then bind m1 k w else bind m2 k w.
Proof. destruct b; reflexivity. Qed.

Lemma run_assoc {C : Type} (m : M C) (f : C -> M A) (k : A -> M B) (w : world) :
  bind (bind m f) k w = bind m (fun c => bind (f c) k) w.
Proof.
  unfold bind. destruct (m w) as [[c| |] w']; [|reflexivity|reflexivity].
  reflexivity.
Qed.

End RunFacts.

Section RunUnit.
Import Js Sys Utils Spec.
Local Open Scope sys_scope.
Context {B : Type}.

Lemma run_emit (ev : event) (k : unit -> M B) (w : world) :
  bind (emit ev) k w = k tt (log w ev).
Proof. reflexivity. Qed.

Lemma run_console_log (parts : list value) (k : unit -> M B) (w : world) :
  bind (console_log parts) k w = k tt (log w (ConsoleLog parts)).
Proof. reflexivity. Qed.

Lemma run_console_warn (parts : list value) (k : unit -> M B) (w : world) :
  bind (console_warn parts) k w = k tt (log w (ConsoleWarn parts)).
Proof. reflexivity. Qed.

Lemma run_existsSync (p : string) (k : bool -> M B) (w : world) :
  bind (existsSync p) k w = k (has_entry (fs w) p) w.
Proof. reflexivity. Qed.

Lemma run_rmSync (p : string) (k : unit -> M B) (w : world) :
  has_entry (fs w) p = true ->
  bind (rmSync p) k w
  = k tt (log (with_fs w (remove_tree (fs w) p)) (RmSync p)).
Proof.
  intros H. unfold bind at 1, rmSync, bind at 1, get_fs. unfold has_entry in H.
  destruct (node_at (fs w) p); [reflexivity|discriminate].
Qed.

Lemma run_detect (e : env) (tp : value) (b : bool) (g p : string)
    (k : location -> M B) (w : world) :
  get tp "global" = Ret (VStr g) ->
  get tp "project" = Ret (VStr p) ->
  bind (detectInstallLocation e tp (VBool b)) k w
  = k (location_for e (fs w) b g p) w.
Proof.
  intros Hg Hp. unfold bind at 1. destruct b.
  - rewrite (detect_global e tp (VBool true) g w eq_refl Hg). reflexivity.
  - rewrite (detect_project e tp (VBool false) p w eq_refl Hp). reflexivity.
Qed.

(** Detection as the uninstaller calls it, when the path of the scope
    in force is a string. *)
Lemma run_detect_scope (e : env) (tp : value) (s : string)
    (k : location -> M B) (w : world) :
  get tp (scope_key e) = Ret (VStr s) ->
  exists ty,
    bind (detectInstallLocation e tp (VBool (global_toggle e))) k w
    = k {| type := ty; base := uninstall_base e (fs w) s |} w.
Proof.
  unfold scope_key, uninstall_base. intros Hs. unfold bind at 1.
  destruct (global_toggle e).
  - rewrite (detect_global e tp (VBool true) s w eq_refl Hs). eauto.
  - rewrite (detect_project e tp (VBool false) s w eq_refl Hs). eauto.
Qed.

End RunUnit.

(** ** The file system *)

Section FsFacts.
Import Js Sys Utils Spec.











Lemma inside_self (p : string) : inside p (canonical p) = true.
Proof. unfold inside. rewrite String.eqb_refl. reflexivity. Qed.

Lemma lookup_remove_tree_self (m : gmap string node) (p : string) :
  remove_tree m p !! canonical p = None.
Proof.
  unfold remove_tree.
  destruct (filter _ m !! canonical p) as [x|] eqn:E; [|reflexivity].
  apply map_lookup_filter_Some in E. destruct E as [_ E]. simpl in E.
  rewrite inside_self in E. discriminate.
Qed.

Lemma has_entry_remove_tree_self (m : gmap string node) (p : string) :
  has_entry (remove_tree m p) p = false.
Proof.
  unfold has_entry, node_at. rewrite lookup_remove_tree_self. reflexivity.
Qed.

Lemma lookup_remove_tree (m : gmap string node) (p q : string) :
  remove_tree m p !! q = None \/ remove_tree m p !! q = m !! q.
Proof.
  unfold remove_tree.
  destruct (filter _ m !! q) as [x|] eqn:E; [|auto].
  apply map_lookup_filter_Some in E. destruct E as [E _]. rewrite E. auto.
Qed.

Lemma has_entry_remove_tree_absent (m : gmap string node) (p q : string) :
  has_entry m q = false -> has_entry (remove_tree m p) q = false.
Proof.
  unfold has_entry, node_at. intros H.
  destruct (lookup_remove_tree m p (canonical q)) as [-> | ->];
    [reflexivity|exact H].
Qed.

(** Overwriting a regular file keeps the set of existing paths. *)
Lemma has_entry_overwrite (m : gmap string node) (p q : string) (c0 c : content) :
  m !! p = Some (File c0) ->
  has_entry (<[p := File c]> m) q = has_entry m q.
Proof.
  intros H. unfold has_entry, node_at.
  destruct (decide (p = canonical q)) as [->|Hne].
  - rewrite lookup_insert_eq, H. destruct (String.eqb (canonical q) q); reflexivity.
  - rewrite lookup_insert_ne by exact Hne. reflexivity.
Qed.

(** An existing path that is written as it is looked up and is not a
    directory holds a regular file. *)
Lemma existing_file (m : gmap string node) (p : string) :
  has_entry m p = true -> canonical p = p -> is_dir m p = false ->
  exists c0, m !! p = Some (File c0).
Proof.
  unfold has_entry, is_dir, node_at. intros H Hc Hd. rewrite Hc in *.
  destruct (m !! p) as [[|c0]|]; try discriminate. eauto.
Qed.

Lemma create_error_none (m : gmap string node) (p : string) :
  create_error m p = None ->
  canonical p = p /\ is_dir m p = false /\ is_dir m (Path.dirname p) = true.
Proof.
  unfold create_error, is_dir.
  destruct (String.eqb_spec (canonical p) p) as [Hc|Hc]; [|discriminate].
  simpl. destruct (node_at m p) as [[|c]|]; try discriminate;
    destruct (node_at m (Path.dirname p)) as [[|c']|]; try discriminate; auto.
Qed.

Lemma create_error_ok (m : gmap string node) (p : string) :
  canonical p = p -> is_dir m p = false -> is_dir m (Path.dirname p) = true ->
  create_error m p = None.
Proof.
  unfold create_error, is_dir. intros Hc Hd Hp.
  rewrite Hc, String.eqb_refl. simpl.
  destruct (node_at m p) as [[|c]|]; try discriminate;
    destruct (node_at m (Path.dirname p)) as [[|c']|]; try discriminate;
    reflexivity.
Qed.

End FsFacts.

(** ** Steps that leave the set of existing paths alone *)

Section Quiet.
Import Js Sys Utils Spec.
Local Open Scope sys_scope.
Variable mp : string.

Lemma quiet_ret {A} (a : A) : quiet mp (ret a).
Proof. intros w _. split; [discriminate|reflexivity]. Qed.

Lemma quiet_throw {A} (err : error) : quiet mp (@throw A err).
Proof. intros w _. split; [discriminate|reflexivity]. Qed.

Lemma quiet_lift {A} (r : result A) : quiet mp (lift r).
Proof. destruct r; [apply quiet_ret|apply quiet_throw]. Qed.

Lemma quiet_emit (ev : event) : quiet mp (emit ev).
Proof. intros w _. split; [discriminate|reflexivity]. Qed.

Lemma quiet_bind {A B} (m : M A) (k : A -> M B) :
  quiet mp m -> (forall a, quiet mp (k a)) -> quiet mp (bind m k).
Proof.
  intros Hm Hk w Hw. specialize (Hm w Hw). unfold bind.
  destruct (m w) as [[a| |] w1]; simpl in *.
  - destruct Hm as [_ Hm].
    assert (Hw1 : has_entry (fs w1) mp = true) by (rewrite Hm; exact Hw).
    destruct (Hk a w1 Hw1) as [Hr Hq].
    split; [exact Hr|]. intros q. rewrite Hq. apply Hm.
  - destruct Hm as [_ Hm]. split; [discriminate|exact Hm].
  - destruct Hm as [Hm _]. contradiction.
Qed.

Lemma quiet_if {A} (b : bool) (m1 m2 : M A) :
  quiet mp m1 -> quiet mp m2 -> quiet mp (if b then m1 else m2).
Proof. destruct b; auto. Qed.

Lemma quiet_readFileSync (p : string) : quiet mp (readFileSync p).
Proof.
  intros w _. unfold readFileSync, bind, get_fs.
  destruct (node_at (fs w) p) as [[|c]|]; simpl; split;
    solve [discriminate | reflexivity].
Qed.

Lemma quiet_JSON_parse (c : content) : quiet mp (JSON_parse c).
Proof. destruct c; [apply quiet_throw|apply quiet_ret]. Qed.

(** Overwriting a path that exists keeps the set of existing paths. *)
Lemma quiet_writeFileSync (c : content) : quiet mp (writeFileSync mp c).
Proof.
  intros w Hp. unfold writeFileSync, bind, get_fs.
  destruct (create_error (fs w) mp) as [code|] eqn:E; simpl;
    [split; [discriminate|reflexivity]|].
  split; [discriminate|]. intros q.
  destruct (create_error_none _ _ E) as [Hc [Hd _]].
  destruct (existing_file _ _ Hp Hc Hd) as [c0 Hfile].
  apply (has_entry_overwrite _ _ _ c0). exact Hfile.
Qed.

Lemma settled_emit (ev : event) : settled mp (emit ev).
Proof. intros w _. split; [exists tt; reflexivity|reflexivity]. Qed.

Lemma settled_try_catch {A} (m : M A) (h : error -> M A) :
  quiet mp m -> (forall err, settled mp (h err)) -> settled mp (try_catch m h).
Proof.
  intros Hm Hh w Hw. specialize (Hm w Hw). unfold try_catch.
  destruct (m w) as [[a| |] w1]; simpl in *.
  - destruct Hm as [_ Hm]. split; [eauto|exact Hm].
  - destruct Hm as [_ Hm].
    assert (Hw1 : has_entry (fs w1) mp = true) by (rewrite Hm; exact Hw).
    destruct (Hh e w1 Hw1) as [Hr Hq].
    split; [exact Hr|]. intros q. rewrite Hq. apply Hm.
  - destruct Hm as [Hm _]. contradiction.
Qed.

End Quiet.

Ltac quiet_steps :=
  repeat first
    [ apply quiet_readFileSync | apply quiet_JSON_parse
    | apply quiet_writeFileSync | apply quiet_emit | apply quiet_lift
    | apply quiet_ret | apply quiet_throw
    | apply quiet_if
    | apply quiet_bind; [|intros ?] ].

(** ** Uninstaller *)

Section UninstallFacts.
Import Js Sys Utils Spec Fixtures.
Local Open Scope sys_scope.

Lemma extractSkillName_string (s : string) :
  extractSkillName (VStr s) = Ret (skill_of s).
Proof. reflexivity. Qed.

(** The manifest step of the uninstaller always returns normally and
    leaves the set of existing paths as it was. *)
Lemma uninstall_manifest_step {B} (mp : string) (body : M unit)
    (k : unit -> M B) (w : world) :
  quiet mp body ->
  exists w',
    bind (if has_entry (fs w) mp
          then try_catch body
                 (fun error0 =>
                    console_warn [VStr "Warning: Could not update manifest:";
                                  VStr (message error0)])
          else ret tt) k w = k tt w' /\
    forall q, has_entry (fs w') q = has_entry (fs w) q.
Proof.
  intros Hbody. destruct (has_entry (fs w) mp) eqn:Hex.
  - assert (Hs : settled mp (try_catch body
                 (fun error0 =>
                    console_warn [VStr "Warning: Could not update manifest:";
                                  VStr (message error0)]))).
    { apply settled_try_catch; [exact Hbody|]. intros err. apply settled_emit. }
    destruct (Hs w Hex) as [[[] Hr] Hq]. unfold bind.
    destruct (try_catch body _ w) as [r w1]. simpl in Hr, Hq. subst r.
    exists w1. split; [reflexivity|exact Hq].
  - exists w. split; reflexivity.
Qed.

Ltac manifest_step Hquiet w3 Hq :=
  match goal with
  | |- context [bind (if has_entry (fs ?w0) ?mp then _ else _) ?k ?w0] =>
      let Hrun := fresh "Hrun" in
      destruct (uninstall_manifest_step mp _ k w0 Hquiet) as [w3 [Hrun Hq]];
      rewrite Hrun; clear Hrun; cbn [fs log with_fs] in Hq
  end.

Lemma base_location_for (e : env) (m : gmap string node) (g p : string) :
  base (location_for e m (global_toggle e) g p)
  = uninstall_base e m (if global_toggle e then g else p).
Proof. unfold location_for, uninstall_base. destruct (global_toggle e); reflexivity. Qed.

Lemma scope_path (e : env) (tp : value) (g p : string) :
  get tp "global" = Ret (VStr g) ->
  get tp "project" = Ret (VStr p) ->
  get tp (scope_key e) = Ret (VStr (if global_toggle e then g else p)).
Proof. unfold scope_key. destruct (global_toggle e); auto. Qed.

(** What [uninstallFromTarget] returns and leaves behind, when the
    package name and the path of the scope in force are strings. *)
Lemma uninstallFromTarget_scope (e : env) (t : target) (config : value)
    (w : world) (cname s : string) :
  get config "name" = Ret (VStr cname) ->
  get (paths t) (scope_key e) = Ret (VStr s) ->
  exists w',
    Uninstall.uninstallFromTarget e t config w
    = (Done (has_entry (fs w)
               (Path.join (uninstall_base e (fs w) s) (skill_of cname))
             || has_entry (fs w) (Path.join (uninstall_base e (fs w) s) cname)),
       w') /\
    has_entry (fs w') (Path.join (uninstall_base e (fs w) s) (skill_of cname))
      = false /\
    has_entry (fs w') (Path.join (uninstall_base e (fs w) s) cname) = false.
Proof.
  intros Hname Hs. unfold Uninstall.uninstallFromTarget.
  rewrite run_console_log. fold (global_toggle e).
  match goal with
  | |- context [bind (detectInstallLocation e (paths t) _) ?k ?w0] =>
      destruct (run_detect_scope e (paths t) s k w0 Hs) as [ty Hrun]
  end.
  rewrite Hrun. clear Hrun. cbn [fs log base].
  set (b := uninstall_base e (fs w) s).
  rewrite Hname, run_lift_ret, extractSkillName_string, run_lift_ret.
  cbn [path_join]. rewrite run_lift_ret.
  set (skillDir := Path.join b (skill_of cname)).
  set (altDir := Path.join b cname).
  set (mp := Path.join b manifest_name).
  rewrite run_existsSync. cbn [fs log].
  assert (Hquiet : forall manifestBody : M unit, manifestBody =
     (let* text := readFileSync mp in
      let* manifest := JSON_parse text in
      let* skills := lift (get manifest "skills") in
      let* entry := (if truthy skills
                     then lift (get skills (key_of (VStr cname)))
                     else ret skills) in
      if truthy skills && truthy entry
      then
        let* skills' := lift (delete skills (key_of (VStr cname))) in
        writeFileSync mp (JSON_stringify (with_field manifest "skills" skills'));;
        console_log [VStr "Updated manifest"]
      else ret tt) -> quiet mp manifestBody).
  { intros ? ->. quiet_steps. }
  specialize (Hquiet _ eq_refl).
  destruct (has_entry (fs w) skillDir) eqn:Hex1.
  - (* the skill directory exists and is removed *)
    rewrite run_assoc, run_rmSync by exact Hex1.
    rewrite run_assoc, run_console_log, run_ret.
    rewrite run_existsSync. cbn [fs log with_fs].
    rewrite run_if.
    destruct (has_entry (remove_tree (fs w) skillDir) altDir
              && negb (altDir =? skillDir)) eqn:Hc.
    + assert (Hex2 : has_entry (remove_tree (fs w) skillDir) altDir = true).
      { apply andb_true_iff in Hc. tauto. }
      rewrite run_assoc, run_rmSync by exact Hex2.
      rewrite run_assoc, run_console_log, run_ret.
      rewrite run_existsSync. manifest_step Hquiet w3 Hq.
      rewrite run_console_log, orb_true_l.
      eexists. split; [reflexivity|]. cbn [fs log].
      rewrite !Hq. split.
      * apply has_entry_remove_tree_absent, has_entry_remove_tree_self.
      * apply has_entry_remove_tree_self.
    + rewrite run_ret, run_existsSync. manifest_step Hquiet w3 Hq.
      rewrite run_console_log, orb_true_l.
      eexists. split; [reflexivity|]. cbn [fs log].
      rewrite !Hq. split; [apply has_entry_remove_tree_self|].
      apply andb_false_iff in Hc. destruct Hc as [Hc|Hc]; [exact Hc|].
      apply negb_false_iff, String.eqb_eq in Hc. rewrite Hc.
      apply has_entry_remove_tree_self.
  - (* no skill directory *)
    rewrite run_ret, run_existsSync. cbn [fs log]. rewrite run_if.
    destruct (has_entry (fs w) altDir) eqn:Hex2.
    + destruct (String.eqb_spec altDir skillDir) as [Heq|Hne];
        [rewrite Heq, Hex1 in Hex2; discriminate|].
      cbn [andb negb].
      rewrite run_assoc, run_rmSync by exact Hex2.
      rewrite run_assoc, run_console_log, run_ret.
      rewrite run_existsSync. manifest_step Hquiet w3 Hq.
      rewrite run_console_log.
      eexists. split; [reflexivity|]. cbn [fs log].
      rewrite !Hq. split.
      * apply has_entry_remove_tree_absent. exact Hex1.
      * apply has_entry_remove_tree_self.
    + cbn [andb].
      rewrite run_ret, run_existsSync. manifest_step Hquiet w3 Hq.
      rewrite run_console_log.
      eexists. split; [reflexivity|]. cbn [fs log].
      rewrite !Hq. split; assumption.
Qed.

Lemma uninstallFromTarget_spec (e : env) (t : target) (config : value)
    (w : world) (cname g p : string) :
  get config "name" = Ret (VStr cname) ->
  get (paths t) "global" = Ret (VStr g) ->
  get (paths t) "project" = Ret (VStr p) ->
  exists w',
    Uninstall.uninstallFromTarget e t config w
    = (Done (has_entry (fs w)
               (Path.join (base (location_for e (fs w) (global_toggle e) g p))
                          (skill_of cname))
             || has_entry (fs w)
                  (Path.join (base (location_for e (fs w) (global_toggle e) g p))
                             cname)),
       w') /\
    has_entry (fs w')
      (Path.join (base (location_for e (fs w) (global_toggle e) g p))
                 (skill_of cname)) = false /\
    has_entry (fs w')
      (Path.join (base (location_for e (fs w) (global_toggle e) g p)) cname)
    = false.
Proof.
  intros Hname Hg Hp. rewrite base_location_for.
  apply uninstallFromTarget_scope; [exact Hname|].
  apply scope_path; assumption.
Qed.

(** C7: with a string package name and a string path for the scope in
    force, per-target uninstall never throws; it returns [true] exactly
    when the stripped-name directory or the full-name directory existed,
    [false] when neither did, and afterwards neither of the two exists.
    Existence is what [fs.existsSync] reports. *)
Theorem uninstall_reports_removal (e : env) (t : target) (config : value)
    (w : world) (cname s : string) :
  get config "name" = Ret (VStr cname) ->
  get (paths t) (scope_key e) = Ret (VStr s) ->
  exists (removed : bool) (w' : world),
    Uninstall.uninstallFromTarget e t config w = (Done removed, w') /\
    (removed = true <->
       has_entry (fs w) (Path.join (uninstall_base e (fs w) s) (skill_of cname))
         = true \/
       has_entry (fs w) (Path.join (uninstall_base e (fs w) s) cname) = true) /\
    has_entry (fs w') (Path.join (uninstall_base e (fs w) s) (skill_of cname))
      = false /\
    has_entry (fs w') (Path.join (uninstall_base e (fs w) s) cname) = false.
Proof.
  intros Hname Hs.
  destruct (uninstallFromTarget_scope e t config w cname s Hname Hs)
    as [w' [Hrun [H1 H2]]].
  eexists; exists w'. split; [exact Hrun|]. split; [|split; assumption].
  apply orb_true_iff.
Qed.

Lemma uninstall_reports_removal_witness :
  exists (removed : bool) (w' : world),
    Uninstall.uninstallFromTarget (env_at "/proj" None) default_target
        slash_config installed_project
      = (Done removed, w') /\
    (removed = true <->
       has_entry (fs installed_project)
         (Path.join (uninstall_base (env_at "/proj" None) (fs installed_project)
                       ".claude/skills")
                    (skill_of "pkg/")) = true \/
       has_entry (fs installed_project)
         (Path.join (uninstall_base (env_at "/proj" None) (fs installed_project)
                       ".claude/skills")
                    "pkg/") = true) /\
    has_entry (fs w')
      (Path.join (uninstall_base (env_at "/proj" None) (fs installed_project)
                    ".claude/skills")
                 (skill_of "pkg/")) = false /\
    has_entry (fs w')
      (Path.join (uninstall_base (env_at "/proj" None) (fs installed_project)
                    ".claude/skills")
                 "pkg/") = false.
Proof.
  apply (uninstall_reports_removal (env_at "/proj" None) default_target
           slash_config installed_project "pkg/" ".claude/skills");
    reflexivity.
Defined.

(** A package name that ends in a slash names the same directory: the
    installed skill is found and removed. *)
Example uninstall_resolves_trailing_slash :
  Path.join "/proj/.claude/skills" "pkg/" = "/proj/.claude/skills/pkg/" /\
  fs installed_project !! "/proj/.claude/skills/pkg" = Some Dir /\
  fst (Uninstall.uninstallFromTarget (env_at "/proj" None) default_target
         slash_config installed_project) = Done true /\
  fs (snd (Uninstall.uninstallFromTarget (env_at "/proj" None) default_target
             slash_config installed_project)) !! "/proj/.claude/skills/pkg"
    = None /\
  fs (snd (Uninstall.uninstallFromTarget (env_at "/proj" None) default_target
             slash_config installed_project))
    !! "/proj/.claude/skills/pkg/SKILL.md" = None.
Proof.
  split; [vm_compute; reflexivity|].
  split; [vm_compute; reflexivity|].
  split; [vm_compute; reflexivity|].
  split; vm_compute; reflexivity.
Qed.

End UninstallFacts.

(** ** What a step may add to the trace *)

Section Emits.
Import Js Sys Utils Spec.
Local Open Scope sys_scope.
Variable P : event -> bool.

Lemma emits_same {A} (m : M A) :
  (forall w, trace (snd (m w)) = trace w) -> emits P m.
Proof.
  intros H w. exists []. rewrite H, app_nil_r. split; reflexivity.
Qed.

Lemma emits_ret {A} (a : A) : emits P (ret a).
Proof. apply emits_same. reflexivity. Qed.

Lemma emits_throw {A} (err : error) : emits P (@throw A err).
Proof. apply emits_same. reflexivity. Qed.

Lemma emits_out_of_fuel {A} : emits P (@out_of_fuel A).
Proof. apply emits_same. reflexivity. Qed.

Lemma emits_lift {A} (r : result A) : emits P (lift r).
Proof. destruct r; [apply emits_ret|apply emits_throw]. Qed.

Lemma emits_get_fs : emits P get_fs.
Proof. apply emits_same. reflexivity. Qed.

Lemma emits_put_fs (m : gmap string node) : emits P (put_fs m).
Proof. apply emits_same. reflexivity. Qed.

Lemma emits_date_now (e : env) : emits P (date_now e).
Proof. apply emits_same. reflexivity. Qed.

Lemma emits_emit (ev : event) : P ev = true -> emits P (emit ev).
Proof.
  intros H w. exists [ev]. split; [reflexivity|]. simpl. rewrite H. reflexivity.
Qed.

Lemma emits_bind {A B} (m : M A) (k : A -> M B) :
  emits P m -> (forall a, emits P (k a)) -> emits P (bind m k).
Proof.
  intros Hm Hk w. destruct (Hm w) as [evs [Ht Hp]]. unfold bind.
  destruct (m w) as [[a| |] w1]; simpl in *.
  - destruct (Hk a w1) as [evs' [Ht' Hp']]. exists (evs ++ evs')%list.
    rewrite Ht', Ht, app_assoc, forallb_app, Hp, Hp'. split; reflexivity.
  - exists evs. split; assumption.
  - exists evs. split; assumption.
Qed.

Lemma emits_try_catch {A} (m : M A) (h : error -> M A) :
  emits P m -> (forall err, emits P (h err)) -> emits P (try_catch m h).
Proof.
  intros Hm Hh w. destruct (Hm w) as [evs [Ht Hp]]. unfold try_catch.
  destruct (m w) as [[a| |] w1]; simpl in *.
  - exists evs. split; assumption.
  - destruct (Hh e w1) as [evs' [Ht' Hp']]. exists (evs ++ evs')%list.
    rewrite Ht', Ht, app_assoc, forallb_app, Hp, Hp'. split; reflexivity.
  - exists evs. split; assumption.
Qed.

Lemma emits_if {A} (b : bool) (m1 m2 : M A) :
  emits P m1 -> emits P m2 -> emits P (if b then m1 else m2).
Proof. destruct b; auto. Qed.

Lemma emits_forEach {A} (l : list A) (f : A -> M unit) :
  (forall x, emits P (f x)) -> emits P (forEach l f).
Proof.
  intros Hf. induction l as [|x l IH]; simpl.
  - apply emits_ret.
  - apply emits_bind; [apply Hf|]. intros _. exact IH.
Qed.

Lemma emits_existsSync (p : string) : emits P (existsSync p).
Proof. apply emits_same. reflexivity. Qed.

Lemma emits_readFileSync (p : string) : emits P (readFileSync p).
Proof.
  apply emits_same. intros w. unfold readFileSync, bind, get_fs.
  destruct (node_at (fs w) p) as [[|c]|]; reflexivity.
Qed.

Lemma emits_statSync (p : string) : emits P (statSync_isDirectory p).
Proof.
  apply emits_same. intros w. unfold statSync_isDirectory, bind, get_fs.
  destruct (node_at (fs w) p) as [[|c]|]; reflexivity.
Qed.

Lemma emits_readdirSync (p : string) : emits P (readdirSync p).
Proof.
  apply emits_same. intros w. unfold readdirSync, bind, get_fs.
  destruct (node_at (fs w) p) as [[|c]|]; reflexivity.
Qed.

Lemma emits_JSON_parse (c : content) : emits P (JSON_parse c).
Proof. destruct c; [apply emits_throw|apply emits_ret]. Qed.

Lemma emits_rmSync (p : string) :
  P (RmSync p) = true -> emits P (rmSync p).
Proof.
  intros H. unfold rmSync. apply emits_bind; [apply emits_get_fs|].
  intros m. destruct (node_at m p), (m !! canonical p); try apply emits_throw;
    (apply emits_bind; [apply emits_put_fs|]; intros _; apply emits_emit, H).
Qed.

Lemma emits_mkdirSync (p : string) :
  P (MkdirSync p) = true -> emits P (mkdirSync p).
Proof.
  intros H. unfold mkdirSync. apply emits_bind; [apply emits_get_fs|].
  intros m. destruct (mkdir_error m p); [apply emits_throw|].
  apply emits_bind; [apply emits_put_fs|]. intros _. apply emits_emit, H.
Qed.

Lemma emits_copyFileSync (src dst : string) :
  P (CopyFileSync src dst) = true -> emits P (copyFileSync src dst).
Proof.
  intros H. unfold copyFileSync. apply emits_bind; [apply emits_get_fs|].
  intros m. destruct (node_at m src) as [[|c]|]; try apply emits_throw.
  destruct (create_error m dst); [apply emits_throw|].
  apply emits_bind; [apply emits_put_fs|]. intros _. apply emits_emit, H.
Qed.

Lemma emits_writeFileSync (p : string) (c : content) :
  P (WriteFileSync p c) = true -> emits P (writeFileSync p c).
Proof.
  intros H. unfold writeFileSync. apply emits_bind; [apply emits_get_fs|].
  intros m. destruct (create_error m p); [apply emits_throw|].
  apply emits_bind; [apply emits_put_fs|]. intros _. apply emits_emit, H.
Qed.

End Emits.

Ltac emits_steps :=
  repeat first
    [ apply emits_existsSync | apply emits_readFileSync | apply emits_statSync
    | apply emits_readdirSync | apply emits_JSON_parse
    | apply emits_rmSync; reflexivity
    | apply emits_mkdirSync; reflexivity
    | apply emits_copyFileSync; reflexivity
    | apply emits_writeFileSync; reflexivity
    | apply emits_emit; reflexivity
    | apply emits_get_fs | apply emits_put_fs | apply emits_date_now
    | apply emits_lift | apply emits_ret | apply emits_throw
    | apply emits_out_of_fuel
    | apply emits_if
    | apply emits_try_catch; [|intros ?]
    | apply emits_forEach; intros ?
    | apply emits_bind; [|intros ?] ].

(** ** Installer *)

Section InstallFacts.
Import Js Sys Utils Spec Fixtures.
Local Open Scope sys_scope.

Lemma emits_copyDir (fuel : nat) (src dest : string) :
  emits (fun ev => negb (is_rm ev)) (Install.copyDir fuel src dest).
Proof.
  revert src dest. induction fuel as [|fuel IH]; intros src dest; simpl.
  - apply emits_out_of_fuel.
  - apply emits_bind; [apply emits_mkdirSync; reflexivity|]. intros _.
    apply emits_bind; [apply emits_readdirSync|]. intros entries.
    apply emits_forEach. intros [entry_name isDir]. simpl.
    destruct isDir; [apply IH|apply emits_copyFileSync; reflexivity].
Qed.

Lemma emits_copy_entry (fuel : nat) (e : env) (targetDir : string)
    (entry : string * value) :
  emits (fun ev => negb (is_rm ev)) (Install.copy_entry fuel e targetDir entry).
Proof.
  unfold Install.copy_entry.
  apply emits_bind; [apply emits_existsSync|]. intros ex.
  apply emits_if; [apply emits_emit; reflexivity|].
  apply emits_bind; [apply emits_lift|]. intros destPath.
  apply emits_bind; [apply emits_statSync|]. intros isDirectory.
  apply emits_if.
  - apply emits_bind; [apply emits_copyDir|]. intros _.
    apply emits_emit; reflexivity.
  - emits_steps.
Qed.

Lemma emits_updateManifest (e : env) (skillsDir : string) (config : value)
    (targetName : string) :
  emits (fun ev => negb (is_rm ev))
        (Install.updateManifest e skillsDir config targetName).
Proof. unfold Install.updateManifest. emits_steps. Qed.

Lemma run_detect_project {B} (e : env) (tp isGlobal : value) (p : string)
    (k : location -> M B) (w : world) :
  truthy isGlobal = false ->
  get tp "project" = Ret (VStr p) ->
  bind (detectInstallLocation e tp isGlobal) k w
  = k {| type := "project"; base := Path.join (projectRoot e (fs w)) p |} w.
Proof.
  intros Hg Hp. unfold bind at 1.
  rewrite (detect_project e tp isGlobal p w Hg Hp). reflexivity.
Qed.

Lemma forallb_console_not_rm (evs : list event) :
  forallb is_console evs = true ->
  forallb (fun ev => negb (is_rm ev)) evs = true.
Proof.
  induction evs as [|ev evs IH]; simpl; [reflexivity|].
  intros H. apply andb_true_iff in H. destruct H as [H1 H2].
  rewrite (IH H2), andb_true_r. destruct ev; try reflexivity; discriminate.
Qed.

(** C5, as the code has it: during install the alternate directory
    [base/fullScopedName] is removed exactly when it exists and differs
    from the skill directory [base/strippedName] (whether or not the skill
    directory exists); the removal is the first thing done to the file
    system, before any directory is made or file copied, and nothing else
    is removed. *)
Theorem legacy_directory_cleanup (fuel : nat) (e : env) (t : target)
    (config : value) (w : world) (cname p : string) :
  get config "name" = Ret (VStr cname) ->
  get (paths t) "project" = Ret (VStr p) ->
  exists evs,
    trace (snd (Install.installToTarget fuel e t config w))
      = (trace w ++ evs)%list /\
    if has_entry (fs w) (Path.join (install_base e (fs w) p) cname)
       && negb (Path.join (install_base e (fs w) p) cname
                =? Path.join (install_base e (fs w) p) (skill_of cname))
    then exists pre post,
           evs = (pre ++ RmSync (Path.join (install_base e (fs w) p) cname)
                      :: post)%list /\
           forallb is_console pre = true /\
           forallb (fun ev => negb (is_rm ev)) post = true
    else forallb (fun ev => negb (is_rm ev)) evs = true.
Proof.
  intros Hname Hp. unfold Install.installToTarget.
  rewrite run_console_log.
  rewrite (run_detect_project e (paths t) VUndef p _ _ eq_refl Hp).
  cbn [fs log base type]. fold (install_base e (fs w) p).
  rewrite Hname, run_lift_ret, extractSkillName_string, run_lift_ret.
  cbn [path_join]. rewrite run_lift_ret.
  set (targetDir := Path.join (install_base e (fs w) p) (skill_of cname)).
  set (altDir := Path.join (install_base e (fs w) p) cname).
  rewrite !run_console_log, run_existsSync. cbn [fs log].
  match goal with
  | |- context [bind (if _ then _ else _) ?k _] =>
      assert (Hrest : forall u, emits (fun ev => negb (is_rm ev)) (k u))
  end.
  { intros _. 
    apply emits_bind; [apply emits_existsSync|]. intros exTarget.
    apply emits_bind; [emits_steps|]. intros _.
    apply emits_bind; [apply emits_existsSync|]. intros exMd.
    apply emits_bind; [emits_steps|]. intros _.
    apply emits_bind; [emits_steps|]. intros _.
    apply emits_bind; [emits_steps|]. intros _.
    apply emits_bind; [emits_steps|]. intros files.
    apply emits_bind.
    { apply emits_if; [|apply emits_ret].
      apply emits_forEach. intros entry. apply emits_copy_entry. }
    intros _.
    apply emits_bind; [apply emits_updateManifest|]. intros _.
    apply emits_bind; [emits_steps|]. intros hooks.
    apply emits_bind; [emits_steps|]. intros postinstall.
    apply emits_bind; [|intros _; emits_steps].
    apply emits_if; [|apply emits_ret].
    apply emits_bind; [emits_steps|]. intros _.
    apply emits_try_catch; [|intros err; emits_steps].
    destruct postinstall; try apply emits_throw.
    apply emits_bind; [apply emits_get_fs|]. intros m.
    destruct (execSync e s targetDir m) as [ok m']. emits_steps. }
  specialize (Hrest tt). cbv beta in Hrest. unfold emits in Hrest.
  rewrite run_if.
  destruct (has_entry (fs w) altDir && negb (altDir =? targetDir)) eqn:Hc.
  - assert (Hex : has_entry (fs w) altDir = true).
    { apply andb_true_iff in Hc. tauto. }
    rewrite run_assoc, run_console_log, run_assoc.
    rewrite run_rmSync by exact Hex. rewrite run_console_log.
    match goal with
    | |- context [trace (snd (_ ?w0))] =>
        destruct (Hrest w0) as [post [Ht Hpost]]; rewrite Ht
    end.
    cbn [trace log with_fs]. eexists. split.
    + rewrite <- !app_assoc. reflexivity.
    + simpl.
      exists [ConsoleLog [VStr "Installing to "; VStr (name t); VStr "..."];
              ConsoleLog [VStr "  Type: "; VStr "project"];
              ConsoleLog [VStr "  Directory: "; VStr targetDir];
              ConsoleLog [VStr "Cleaning up alternative path format..."]].
      exists (ConsoleLog [VStr "Removed directory: "; VStr cname] :: post).
      split; [reflexivity|]. split; [reflexivity|]. simpl. exact Hpost.
  - rewrite run_ret.
    match goal with
    | |- context [trace (snd (_ ?w0))] =>
        destruct (Hrest w0) as [post [Ht Hpost]]; rewrite Ht
    end.
    cbn [trace log with_fs]. eexists. split.
    + rewrite <- !app_assoc. reflexivity.
    + simpl. exact Hpost.
Qed.

Lemma legacy_directory_cleanup_witness :
  exists evs,
    trace (snd (Install.installToTarget 1 (env_at "/proj" None) default_target
                  scoped_config legacy_only_project))
      = (trace legacy_only_project ++ evs)%list /\
    if has_entry (fs legacy_only_project)
         (Path.join (install_base (env_at "/proj" None) (fs legacy_only_project)
                       ".claude/skills") "@scope/pkg")
       && negb (Path.join (install_base (env_at "/proj" None)
                             (fs legacy_only_project) ".claude/skills")
                          "@scope/pkg"
                =? Path.join (install_base (env_at "/proj" None)
                                (fs legacy_only_project) ".claude/skills")
                             (skill_of "@scope/pkg"))
    then exists pre post,
           evs = (pre ++ RmSync (Path.join (install_base (env_at "/proj" None)
                                              (fs legacy_only_project)
                                              ".claude/skills") "@scope/pkg")
                      :: post)%list /\
           forallb is_console pre = true /\
           forallb (fun ev => negb (is_rm ev)) post = true
    else forallb (fun ev => negb (is_rm ev)) evs = true.
Proof.
  apply (legacy_directory_cleanup 1 (env_at "/proj" None) default_target
           scoped_config legacy_only_project "@scope/pkg" ".claude/skills");
    reflexivity.
Defined.

(** The skill directory [/proj/.claude/skills/pkg] does not exist, the
    legacy directory does, and the installer removes the legacy one all
    the same. *)
Lemma cleanup_without_skill_directory_counterexample :
  has_entry (fs legacy_only_project) "/proj/.claude/skills/pkg" = false /\
  has_entry (fs legacy_only_project) "/proj/.claude/skills/@scope/pkg" = true /\
  In (RmSync "/proj/.claude/skills/@scope/pkg")
     (trace (snd (Install.installToTarget 1 (env_at "/proj" None)
                    default_target scoped_config legacy_only_project))) /\
  has_entry (fs (snd (Install.installToTarget 1 (env_at "/proj" None)
                        default_target scoped_config legacy_only_project)))
            "/proj/.claude/skills/@scope/pkg" = false.
Proof.
  split; [vm_compute; reflexivity|].
  split; [vm_compute; reflexivity|].
  split; [vm_compute; tauto|].
  vm_compute; reflexivity.
Qed.

(** A package name that ends in a slash names the same legacy directory:
    it is found and removed. *)
Example cleanup_resolves_trailing_slash :
  fs legacy_only_project !! "/proj/.claude/skills/@scope/pkg" = Some Dir /\
  In (RmSync "/proj/.claude/skills/@scope/pkg/")
     (trace (snd (Install.installToTarget 1 (env_at "/proj" None) default_target
                    (VObj [("name", VStr "@scope/pkg/"); ("version", VStr "1.0.0")])
                    legacy_only_project))) /\
  fs (snd (Install.installToTarget 1 (env_at "/proj" None) default_target
             (VObj [("name", VStr "@scope/pkg/"); ("version", VStr "1.0.0")])
             legacy_only_project))
    !! "/proj/.claude/skills/@scope/pkg" = None.
Proof.
  split; [vm_compute; reflexivity|].
  split; [vm_compute; tauto|].
  vm_compute; reflexivity.
Qed.

End InstallFacts.


(** ** Manifest update on install *)

Section ManifestFacts.
Import Js Sys Utils Spec Fixtures.
Local Open Scope sys_scope.

(** The load at the head of [updateManifest]. *)
Lemma run_load_manifest {B} (mp : string) (k : value -> M B) (w : world) :
  bind (existsSync mp)
       (fun ex =>
          bind (if ex then
                  try_catch
                    (let* text := readFileSync mp in JSON_parse text)
                    (fun error0 =>
                       console_warn
                         [VStr "Warning: Could not parse existing manifest, creating new one"] ;;
                       ret fresh_manifest)
                else ret fresh_manifest) k) w
  = k (loaded_manifest (fs w) mp) (after_load w mp).
Proof.
  cbv [bind existsSync try_catch readFileSync get_fs ret throw
       console_warn emit JSON_parse].
  unfold loaded_manifest, after_load.
  destruct (node_at (fs w) mp) as [[|[s|v]]|] eqn:E; cbv beta iota;
    rewrite ?E; reflexivity.
Qed.

Lemma fs_after_load (w : world) (mp : string) : fs (after_load w mp) = fs w.
Proof. unfold after_load. destruct (node_at (fs w) mp) as [[|[s|v]]|]; reflexivity. Qed.

Lemma ticks_after_load (w : world) (mp : string) :
  ticks (after_load w mp) = ticks w.
Proof. unfold after_load. destruct (node_at (fs w) mp) as [[|[s|v]]|]; reflexivity. Qed.

(** [updateManifest], step by step. *)
Lemma updateManifest_run (e : env) (skillsDir : string) (config : value)
    (targetName cname : string) (w : world) :
  get config "name" = Ret (VStr cname) ->
  Install.updateManifest e skillsDir config targetName w
  = match get (loaded_manifest (fs w) (Path.join skillsDir manifest_name))
              "skills" with
    | Raise err => (Thrown err, after_load w (Path.join skillsDir manifest_name))
    | Ret skills =>
        match assign_object skills cname
                (manifest_record e (ticks w) skillsDir config cname targetName)
        with
        | Raise err =>
            (Thrown err, tick (after_load w (Path.join skillsDir manifest_name)))
        | Ret skills' =>
            writeFileSync (Path.join skillsDir manifest_name)
              (JSON_stringify
                 (with_field
                    (loaded_manifest (fs w) (Path.join skillsDir manifest_name))
                    "skills" skills'))
              (tick (after_load w (Path.join skillsDir manifest_name)))
        end
    end.
Proof.
  intros Hname. unfold Install.updateManifest.
  change (VObj [("skills", VObj [])]) with fresh_manifest.
  rewrite (run_load_manifest (Path.join skillsDir manifest_name)).
  rewrite Hname, run_lift_ret, extractSkillName_string, run_lift_ret.
  pose proof (get_ret_not_nullish _ _ _ Hname) as Hcfg.
  destruct (get (loaded_manifest (fs w) (Path.join skillsDir manifest_name))
                "skills") as [skills|err]; [|reflexivity].
  rewrite run_lift_ret.
  rewrite (get_not_nullish config "version" Hcfg), run_lift_ret.
  unfold bind at 1, date_now at 1.
  rewrite (get_not_nullish config "package" Hcfg), run_lift_ret.
  fold (tick (after_load w (Path.join skillsDir manifest_name))).
  rewrite ticks_after_load. cbn [key_of].
  change [("version", field "version" config);
          ("installedAt", VStr (toISOString e (ticks w)));
          ("package", or_else (field "package" config) (VStr cname));
          ("path", VStr (Path.join skillsDir (skill_of cname)));
          ("target", VStr targetName)]
    with (manifest_record e (ticks w) skillsDir config cname targetName).
  destruct (assign_object skills cname
              (manifest_record e (ticks w) skillsDir config cname targetName));
    reflexivity.
Qed.


Lemma manifest_name_plain : plain_name manifest_name = true.
Proof. reflexivity. Qed.


Lemma run_writeFileSync_ok (mp : string) (c : content) (w : world) :
  canonical mp = mp ->
  is_dir (fs w) mp = false ->
  is_dir (fs w) (Path.dirname mp) = true ->
  writeFileSync mp c w
  = (Done tt, log (with_fs w (<[mp := File c]> (fs w))) (WriteFileSync mp c)).
Proof.
  intros H0 H1 H2. unfold writeFileSync, bind, get_fs.
  rewrite (create_error_ok _ _ H0 H1 H2). reflexivity.
Qed.




Lemma field_jsonify (k : string) (v : value) (fields : list (string * value)) :
  assoc k fields = Some v -> is_omitted v = false ->
  field k (jsonify (VObj fields)) = jsonify v.
Proof.
  intros H Hv. rewrite jsonify_object. unfold field. cbn [get].
  rewrite assoc_enum_order, (assoc_jsonify_fields k v fields H Hv). reflexivity.
Qed.







(** C3, as the code has it: for a package name other than [__proto__],
    the manifest update stores, under the full package name
    [config.name], the record with [version: config.version],
    [installedAt: now], [package: config.package || config.name] (any
    falsy [package], the empty string included, falls back to the name),
    [path: join(skillsDir, strippedName)] and [target: targetName]; for
    [@scope/pkg] the stripped name is [pkg], and installing it into a
    clean project makes the directory [.claude/skills/pkg] and records
    the skill under the key [@scope/pkg]. *)
Theorem manifest_upsert (e : env) (skillsDir : string) (config : value)
    (targetName cname : string) (w : world) (sk : list (string * value)) :
  get config "name" = Ret (VStr cname) ->
  cname <> "__proto__" ->
  get (loaded_manifest (fs w) (Path.join skillsDir manifest_name)) "skills"
    = Ret (VObj sk) ->
  is_dir (fs w) (Path.join skillsDir manifest_name) = false ->
  is_dir (fs w) (Path.dirname (Path.join skillsDir manifest_name)) = true ->
  (exists (stored : value) (w' : world),
     Install.updateManifest e skillsDir config targetName w = (Done tt, w') /\
     fs w' !! Path.join skillsDir manifest_name = Some (File (Json stored)) /\
     field cname (field "skills" stored)
       = jsonify (VObj [("version", field "version" config);
                        ("installedAt", VStr (toISOString e (ticks w)));
                        ("package", or_else (field "package" config) (VStr cname));
                        ("path", VStr (Path.join skillsDir (skill_of cname)));
                        ("target", VStr targetName)])) /\
  skill_of "@scope/pkg" = "pkg" /\
  (forall (home : string) (global : option string) (iso : nat -> string)
          (exec : string -> string -> gmap string node -> bool * gmap string node)
          (fuel : nat) (version : string) (skillMd : content),
      exists w',
        Install.installToTarget fuel (env_in_proj home global iso exec)
            default_target (scoped_config_version version)
            (clean_project_with skillMd)
          = (Done "/proj/.claude/skills/pkg", w') /\
        has_entry (fs (clean_project_with skillMd)) "/proj/.claude/skills/pkg"
          = false /\
        fs w' !! "/proj/.claude/skills/pkg" = Some Dir /\
        fs w' !! "/proj/.claude/skills/pkg/SKILL.md" = Some (File skillMd) /\
        has_entry (fs w') "/proj/.claude/skills/@scope/pkg" = false /\
        fs w' !! "/proj/.claude/skills/.skills-manifest.json"
          = Some (File (Json (VObj [("skills",
               VObj [("@scope/pkg",
                      VObj [("version", VStr version);
                            ("installedAt", VStr (iso 0));
                            ("package", VStr "@scope/pkg");
                            ("path", VStr "/proj/.claude/skills/pkg");
                            ("target", VStr "claude-code")])])])))).
Proof.
  intros Hname Hproto Hshape Hnd Hpd. split; [|split; [reflexivity|]].
  - destruct (get_skills_object _ _ Hshape) as [mf [HM Hsk]].
    rewrite (updateManifest_run e skillsDir config targetName cname w Hname).
    rewrite Hshape, HM. cbn [assign_object].
    apply String.eqb_neq in Hproto. rewrite Hproto. cbn [andb with_field].
    rewrite run_writeFileSync_ok;
      [|apply canonical_join, manifest_name_plain
       |cbn [tick fs]; rewrite fs_after_load; assumption
       |cbn [tick fs]; rewrite fs_after_load; assumption].
    do 2 eexists. split; [reflexivity|]. split.
    + cbn [fs log with_fs]. apply lookup_insert_eq.
    + unfold JSON_stringify.
      rewrite (field_jsonify "skills" (VObj _) _ (assoc_set_same _ _ _) eq_refl).
      rewrite (field_jsonify cname (VObj _) _ (assoc_set_same _ _ _) eq_refl).
      reflexivity.
  - intros home global iso exec fuel version skillMd.
    eexists. split; [vm_compute; reflexivity|].
    split; [vm_compute; reflexivity|].
    split; [vm_compute; reflexivity|].
    split; [vm_compute; reflexivity|].
    split; vm_compute; reflexivity.
Qed.

Lemma manifest_upsert_witness :
  (exists (stored : value) (w' : world),
     Install.updateManifest (env_at "/proj" None) "/proj/.claude/skills"
         scoped_config "claude-code" empty_skills_project = (Done tt, w') /\
     fs w' !! Path.join "/proj/.claude/skills" manifest_name
       = Some (File (Json stored)) /\
     field "@scope/pkg" (field "skills" stored)
       = jsonify (VObj [("version", field "version" scoped_config);
                        ("installedAt",
                         VStr (toISOString (env_at "/proj" None)
                                 (ticks empty_skills_project)));
                        ("package",
                         or_else (field "package" scoped_config)
                                 (VStr "@scope/pkg"));
                        ("path",
                         VStr (Path.join "/proj/.claude/skills"
                                 (skill_of "@scope/pkg")));
                        ("target", VStr "claude-code")])) /\
  skill_of "@scope/pkg" = "pkg" /\
  (forall (home : string) (global : option string) (iso : nat -> string)
          (exec : string -> string -> gmap string node -> bool * gmap string node)
          (fuel : nat) (version : string) (skillMd : content),
      exists w',
        Install.installToTarget fuel (env_in_proj home global iso exec)
            default_target (scoped_config_version version)
            (clean_project_with skillMd)
          = (Done "/proj/.claude/skills/pkg", w') /\
        has_entry (fs (clean_project_with skillMd)) "/proj/.claude/skills/pkg"
          = false /\
        fs w' !! "/proj/.claude/skills/pkg" = Some Dir /\
        fs w' !! "/proj/.claude/skills/pkg/SKILL.md" = Some (File skillMd) /\
        has_entry (fs w') "/proj/.claude/skills/@scope/pkg" = false /\
        fs w' !! "/proj/.claude/skills/.skills-manifest.json"
          = Some (File (Json (VObj [("skills",
               VObj [("@scope/pkg",
                      VObj [("version", VStr version);
                            ("installedAt", VStr (iso 0));
                            ("package", VStr "@scope/pkg");
                            ("path", VStr "/proj/.claude/skills/pkg");
                            ("target", VStr "claude-code")])])])))).
Proof.
  apply (manifest_upsert (env_at "/proj" None) "/proj/.claude/skills"
           scoped_config "claude-code" "@scope/pkg" empty_skills_project []);
    solve [reflexivity | discriminate | vm_compute; reflexivity].
Defined.

(** With [package: ""] the stored record names the package
    [@scope/pkg], where [config.package ?? config.name] is the empty
    string; and for a package named [__proto__] the assignment reaches
    the setter inherited from [Object.prototype], so that nothing is
    recorded. *)
Lemma empty_package_counterexample :
  (get empty_package_config "package" = Ret (VStr "") /\
   nullish_coalesce (VStr "") (VStr "@scope/pkg") = VStr "" /\
   (exists stored,
      fs (snd (Install.updateManifest (env_at "/proj" None) "/proj/.claude/skills"
                 empty_package_config "claude-code" empty_skills_project))
        !! "/proj/.claude/skills/.skills-manifest.json"
        = Some (File (Json stored)) /\
      field "package" (field "@scope/pkg" (field "skills" stored))
        = VStr "@scope/pkg" /\
      field "package" (field "@scope/pkg" (field "skills" stored))
        <> nullish_coalesce (field "package" empty_package_config)
                            (field "name" empty_package_config))) /\
  (get proto_config "name" = Ret (VStr "__proto__") /\
   fst (Install.updateManifest (env_at "/proj" None) "/proj/.claude/skills"
          proto_config "claude-code" empty_skills_project) = Done tt /\
   fs (snd (Install.updateManifest (env_at "/proj" None) "/proj/.claude/skills"
              proto_config "claude-code" empty_skills_project))
     !! "/proj/.claude/skills/.skills-manifest.json"
     = Some (File (Json (VObj [("skills", VObj [])])))).
Proof.
  split.
  - split; [reflexivity|]. split; [reflexivity|].
    eexists. split; [vm_compute; reflexivity|].
    split; [vm_compute; reflexivity|]. vm_compute. discriminate.
  - split; [reflexivity|].
    split; [vm_compute; reflexivity|]. vm_compute. reflexivity.
Qed.

End ManifestFacts.

(** ** Scope of a run *)

Section ScopeFacts.
Import Js Sys Utils Spec Fixtures.
Local Open Scope sys_scope.

(** C1: the installer does not consult the global-install toggle.  Its
    result is the same whatever [npm_config_global] holds; with the
    toggle set to [true] a run installs under the project root
    [/proj], not under the home directory, and the uninstaller, which does
    read the toggle, then looks under the home directory, finds nothing
    and leaves the installed skill in place. *)
Theorem installer_ignores_global_toggle :
  (forall (fuel : nat) (e : env) (t : target) (config : value) (w : world)
          (g : option string),
      Install.installToTarget fuel (with_global e g) t config w
        = Install.installToTarget fuel e t config w) /\
  global_toggle (env_at "/proj" (Some "true")) = true /\
  fst (detectInstallLocation (env_at "/proj" (Some "true"))
         (paths default_target) (VBool true) clean_project)
    = Done {| type := "personal"; base := "/home/u/.claude/skills" |} /\
  fst (Install.installToTarget 1 (env_at "/proj" (Some "true")) default_target
         scoped_config clean_project)
    = Done "/proj/.claude/skills/pkg" /\
  has_entry (fs (snd (Install.installSkill 1 (env_at "/proj" (Some "true"))
                        packaged_project)))
            "/proj/.claude/skills/pkg" = true /\
  has_entry (fs (snd (Install.installSkill 1 (env_at "/proj" (Some "true"))
                        packaged_project)))
            "/home/u/.claude/skills/pkg" = false /\
  fst (Uninstall.uninstallFromTarget (env_at "/proj" (Some "true"))
         default_target scoped_config
         (snd (Install.installToTarget 1 (env_at "/proj" (Some "true"))
                 default_target scoped_config clean_project)))
    = Done false /\
  has_entry (fs (snd (Uninstall.uninstallSkill (env_at "/proj" (Some "true"))
                        (snd (Install.installSkill 1
                                (env_at "/proj" (Some "true"))
                                packaged_project)))))
            "/proj/.claude/skills/pkg" = true.
Proof.
  split.
  { intros fuel e t config w g. destruct e. reflexivity. }
  repeat split; vm_compute; reflexivity.
Qed.

End ScopeFacts.

(** ** Scope stripping *)

Section SkillNameFacts.
Import Js Sys Utils Spec.

Lemma split_segments_no_slash (s : string) :
  Forall (fun seg => has_slash seg = false) (Str.split Str.slash s).
Proof.
  induction s as [|c s IH]; simpl.
  - repeat constructor.
  - destruct (Ascii.eqb c Str.slash) eqn:E.
    + constructor; [reflexivity|exact IH].
    + destruct (Str.split Str.slash s) as [|seg rest].
      * repeat constructor. simpl. rewrite E. reflexivity.
      * inversion IH as [|? ? Hseg Hrest]; subst.
        constructor; [|exact Hrest]. simpl. rewrite E. exact Hseg.
Qed.

Lemma split_without_slash (s : string) :
  has_slash s = false -> Str.split Str.slash s = [s].
Proof.
  induction s as [|c s IH]; simpl; [reflexivity|].
  intros H. apply orb_false_iff in H. destruct H as [Hc Hs].
  rewrite Hc, (IH Hs). reflexivity.
Qed.

Lemma nth_error_Forall {A} (P : A -> Prop) (l : list A) (n : nat) (x : A) :
  Forall P l -> nth_error l n = Some x -> P x.
Proof.
  intros H. revert n. induction H as [|y l Hy _ IH]; intros [|n] E;
    simpl in E; try discriminate.
  - inversion E; subst. exact Hy.
  - eauto.
Qed.

(** X1: Stripping the scope of a package name gives either the name itself or
    a non-empty segment without a slash, and stripping again changes
    nothing. *)
Theorem skill_name_is_stable (packageName : string) :
  extractSkillName (VStr (skill_of packageName)) = Ret (skill_of packageName) /\
  (skill_of packageName = packageName \/
   (has_slash (skill_of packageName) = false /\ skill_of packageName <> "")).
Proof.
  unfold skill_of, extractSkillName.
  destruct (Str.startsWith packageName "@") eqn:Hat.
  - destruct (nth_error (Str.split Str.slash packageName) 1) as [seg|] eqn:Hnth.
    + destruct (String.eqb_spec seg "") as [->|Hne].
      * split; [|left; reflexivity]. rewrite Hat, Hnth. reflexivity.
      * assert (Hseg : has_slash seg = false).
        { exact (nth_error_Forall _ _ _ _ (split_segments_no_slash packageName) Hnth). }
        split; [|right; split; assumption].
        rewrite (split_without_slash seg Hseg).
        destruct (Str.startsWith seg "@"); reflexivity.
    + split; [|left; reflexivity]. rewrite Hat, Hnth. reflexivity.
  - split; [|left; reflexivity]. rewrite Hat. reflexivity.
Qed.

End SkillNameFacts.

(** ** More on location detection *)

Section DetectorMore.
Import Js Sys Utils Spec Fixtures.
Local Open Scope sys_scope.

(** The detector, run: one equation for all its outcomes. *)
Lemma detect_run (e : env) (tp isGlobal : value) (w : world) :
  detectInstallLocation e tp isGlobal w =
    match get tp (if truthy isGlobal then "global" else "project") with
    | Ret (VStr s) =>
        (Done (if truthy isGlobal
               then {| type := "personal"; base := Path.join (homedir e) s |}
               else {| type := "project";
                       base := Path.join (projectRoot e (fs w)) s |}), w)
    | Ret _ =>
        (Thrown (TypeError "The path argument must be of type string"), w)
    | Raise err => (Thrown err, w)
    end.
Proof.
  unfold detectInstallLocation. destruct (truthy isGlobal).
  - unfold bind, lift, ret, throw.
    destruct (get tp "global") as [g|err]; [|reflexivity].
    destruct g; reflexivity.
  - unfold bind at 1, get_fs at 1.
    rewrite projectRoot_walk, projectRoot_not_in_node_modules.
    unfold bind, lift, ret, throw.
    destruct (get tp "project") as [p|err]; [|reflexivity].
    destruct p; reflexivity.
Qed.

(** X2: Detection always returns, and without touching the world: with the
    path of the chosen scope a string it yields the personal location
    under the home directory (whatever the working directory and the file
    system) or the project location under the detected root; with
    anything else it throws a [TypeError]. *)
Theorem detect_outcome (e : env) (tp isGlobal : value) (w : world) :
  detectInstallLocation e tp isGlobal w =
    match get tp (if truthy isGlobal then "global" else "project") with
    | Ret (VStr s) =>
        (Done (if truthy isGlobal
               then {| type := "personal"; base := Path.join (homedir e) s |}
               else {| type := "project";
                       base := Path.join (projectRoot e (fs w)) s |}), w)
    | Ret _ =>
        (Thrown (TypeError "The path argument must be of type string"), w)
    | Raise err => (Thrown err, w)
    end.
Proof. apply detect_run. Qed.

Lemma walk_nearest (m : gmap string node) (fuel : nat) (p r : string) :
  walk m fuel p = Some r ->
  exists n,
    r = Nat.iter n Path.dirname p /\
    (forall i, i < n ->
       qualifies m (Nat.iter i Path.dirname p) = false /\
       Path.dirname (Nat.iter i Path.dirname p) <> Nat.iter i Path.dirname p) /\
    (qualifies m r = true \/ Path.dirname r = r).
Proof.
  revert p. induction fuel as [|fuel IH]; intros p H; [discriminate|].
  rewrite walk_step in H.
  destruct (String.eqb_spec p (Path.dirname p)) as [Heq|Hne].
  - inversion H; subst r. exists 0. split; [reflexivity|]. split; [lia|].
    right. symmetry. exact Heq.
  - fold (qualifies m p) in H. destruct (qualifies m p) eqn:Hq.
    + inversion H; subst r. exists 0. split; [reflexivity|]. split; [lia|].
      left. exact Hq.
    + destruct (IH _ H) as [n [Hr [Hbelow Hend]]].
      exists (S n). split; [rewrite Nat.iter_succ_r; exact Hr|].
      split; [|exact Hend].
      intros [|i] Hi.
      * simpl. split; [exact Hq|congruence].
      * rewrite Nat.iter_succ_r. apply Hbelow. lia.
Qed.

(** X3: The project root is the nearest directory, going up from the starting
    directory, that holds a [package.json] or a [.git] and is not inside
    or named [node_modules]; when no directory on the way qualifies it is
    the top of the path, where [dirname] no longer moves. *)
Theorem project_root_is_nearest_match (e : env) (m : gmap string node) :
  exists n,
    projectRoot e m = Nat.iter n Path.dirname (CWD e) /\
    (forall i, i < n ->
       qualifies m (Nat.iter i Path.dirname (CWD e)) = false /\
       Path.dirname (Nat.iter i Path.dirname (CWD e))
         <> Nat.iter i Path.dirname (CWD e)) /\
    (qualifies m (projectRoot e m) = true \/
     Path.dirname (projectRoot e m) = projectRoot e m).
Proof. eapply walk_nearest, projectRoot_walk. Qed.

(** X4: A target that comes without [paths] fails with a [TypeError] as soon
    as its location is asked for, on install and on uninstall alike; only
    the opening console line has been printed and the file system is as
    it was. *)
Theorem target_without_paths_fails (fuel : nat) (e : env) (t : target)
    (config : value) (w : world) :
  nullish (paths t) = true ->
  (exists msg,
     Install.installToTarget fuel e t config w
     = (Thrown (TypeError msg),
        log w (ConsoleLog [VStr "Installing to "; VStr (name t); VStr "..."]))) /\
  (exists msg,
     Uninstall.uninstallFromTarget e t config w
     = (Thrown (TypeError msg),
        log w (ConsoleLog [VStr "Uninstalling from "; VStr (name t); VStr "..."]))).
Proof.
  intros Hnull. split.
  - unfold Install.installToTarget. rewrite run_console_log.
    unfold bind at 1. rewrite detect_run.
    destruct (paths t); try discriminate; simpl; eauto.
  - unfold Uninstall.uninstallFromTarget. rewrite run_console_log.
    unfold bind at 1. rewrite detect_run.
    destruct (paths t); try discriminate;
      destruct (npm_config_global e) as [s|]; simpl;
      try destruct (String.eqb s "true"); simpl; eauto.
Qed.

Lemma target_without_paths_fails_witness :
  (exists msg,
     Install.installToTarget 1 (env_at "/proj" None) pathless_target
         scoped_config clean_project
     = (Thrown (TypeError msg),
        log clean_project
          (ConsoleLog [VStr "Installing to "; VStr (name pathless_target);
                       VStr "..."]))) /\
  (exists msg,
     Uninstall.uninstallFromTarget (env_at "/proj" None) pathless_target
         scoped_config clean_project
     = (Thrown (TypeError msg),
        log clean_project
          (ConsoleLog [VStr "Uninstalling from "; VStr (name pathless_target);
                       VStr "..."]))).
Proof.
  apply (target_without_paths_fails 1 (env_at "/proj" None) pathless_target
           scoped_config clean_project).
  reflexivity.
Defined.

End DetectorMore.

(** ** More on the Target Resolver *)

Section ResolverMore.
Import Js Sys Utils Spec Fixtures.

Lemma filterR_sublist {A} (f : A -> result bool) (l l' : list A) :
  filterR f l = Ret l' -> sublist l' l.
Proof.
  revert l'. induction l as [|x l IH]; intros l' H; simpl in H.
  - inversion H. constructor.
  - destruct (f x) as [b|]; [|discriminate].
    destruct (filterR f l) as [rest|]; [|discriminate].
    inversion H; subst l'. destruct b.
    + apply sublist_skip. apply IH. reflexivity.
    + apply sublist_cons. apply IH. reflexivity.
Qed.

Lemma mapR_names (l : list (string * value)) (l' : list target) :
  mapR (fun nt : string * value =>
          match get (snd nt) "paths" with
          | Raise err => Raise err
          | Ret p => Ret {| name := fst nt; paths := p |}
          end) l = Ret l' ->
  List.map name l' = List.map fst l.
Proof.
  revert l'. induction l as [|x l IH]; intros l' H; simpl in H.
  - inversion H. reflexivity.
  - destruct (get (snd x) "paths") as [p|]; [|discriminate].
    destruct (mapR _ l) as [rest|]; [|discriminate].
    inversion H; subst l'. simpl. rewrite (IH rest eq_refl). reflexivity.
Qed.

(** X5: Whenever the resolver returns for a truthy [targets], the names it
    returns are a subsequence of the names of [Object.entries(targets)]:
    no target is invented, repeated or moved. *)
Theorem resolved_names_are_a_subsequence (config targets : value)
    (resolved : list target) :
  get config "targets" = Ret targets ->
  truthy targets = true ->
  getEnabledTargets config = Ret resolved ->
  sublist (List.map name resolved) (List.map fst (entries targets)).
Proof.
  intros Ht Htruthy H. unfold getEnabledTargets in H.
  rewrite Ht, Htruthy in H. simpl in H.
  destruct (filterR _ (entries targets)) as [kept|] eqn:Hf; [|discriminate].
  rewrite (mapR_names _ _ H).
  apply (fmap_sublist fst). eapply filterR_sublist. exact Hf.
Qed.

Lemma resolved_names_are_a_subsequence_witness :
  sublist (List.map name (truthy_enabled_targets two_targets))
          (List.map fst (entries (VObj two_targets))).
Proof.
  apply (resolved_names_are_a_subsequence
           (VObj [("name", VStr "my-skill"); ("targets", VObj two_targets)])
           (VObj two_targets) (truthy_enabled_targets two_targets));
    reflexivity.
Defined.

Lemma filterR_enabled_type_error (ts : list (string * value)) :
  Exists (fun nt => nullish (snd nt) = true) ts ->
  exists msg,
    filterR (fun nt : string * value =>
               match get (snd nt) "enabled" with
               | Raise err => Raise err
               | Ret enabled => Ret (truthy enabled)
               end) ts = Raise (TypeError msg).
Proof.
  induction ts as [|[n v] ts IH]; intros H; [inversion H|].
  simpl. destruct (nullish v) eqn:Hv.
  - destruct v; try discriminate; simpl; eauto.
  - rewrite (get_not_nullish v "enabled" Hv).
    inversion H as [? ? Hhead|? ? Htail]; subst.
    + simpl in Hhead. congruence.
    + destruct (IH Htail) as [msg Hmsg]. rewrite Hmsg. eauto.
Qed.

(** X6: One [null] entry in the targets map makes the resolver throw a
    [TypeError], whatever the other entries are: no target is resolved. *)
Theorem null_target_entry_throws (fields ts : list (string * value)) :
  assoc "targets" fields = Some (VObj ts) ->
  existsb (fun nt => nullish (snd nt)) ts = true ->
  exists msg, getEnabledTargets (VObj fields) = Raise (TypeError msg).
Proof.
  intros Ht Hnull. unfold getEnabledTargets. simpl get. rewrite Ht.
  cbn [truthy negb entries].
  destruct (filterR_enabled_type_error (enum_order ts)) as [msg Hmsg].
  - apply Exists_enum_order.
    apply List.Exists_exists. apply existsb_exists in Hnull.
    destruct Hnull as [nt [Hin Hnt]]. exists nt. split; assumption.
  - rewrite Hmsg. eauto.
Qed.

Lemma null_target_entry_throws_witness :
  exists msg,
    getEnabledTargets (VObj [("name", VStr "my-skill");
                             ("targets", VObj null_entry_targets)])
    = Raise (TypeError msg).
Proof.
  apply (null_target_entry_throws
           [("name", VStr "my-skill"); ("targets", VObj null_entry_targets)]
           null_entry_targets); reflexivity.
Defined.

End ResolverMore.

(** ** More on the manifest update *)

Section ManifestMore.
Import Js Sys Utils Spec Fixtures.
Local Open Scope sys_scope.

Lemma jsonify_singleton (k : string) (x : value) :
  is_omitted x = false -> jsonify (VObj [(k, x)]) = VObj [(k, jsonify x)].
Proof.
  intros H. rewrite jsonify_object. simpl List.flat_map. rewrite H. reflexivity.
Qed.

(** X7: When there is no manifest, or the file is not valid JSON, the update
    starts from an empty manifest: afterwards the file records exactly
    one skill, the one being installed, and a warning has been printed
    exactly when a file was discarded.  The package is not named
    [__proto__]. *)
Theorem unusable_manifest_is_replaced (e : env) (skillsDir : string)
    (config : value) (targetName cname : string) (w : world) :
  get config "name" = Ret (VStr cname) ->
  cname <> "__proto__" ->
  unusable_manifest (fs w) (Path.join skillsDir manifest_name) = true ->
  is_dir (fs w) (Path.dirname (Path.join skillsDir manifest_name)) = true ->
  exists w',
    Install.updateManifest e skillsDir config targetName w = (Done tt, w') /\
    fs w' !! Path.join skillsDir manifest_name
      = Some (File (Json (VObj [("skills",
           VObj [(cname,
                  jsonify (VObj (manifest_record e (ticks w) skillsDir config
                                   cname targetName)))])]))) /\
    trace w'
      = (trace w
         ++ (if has_entry (fs w) (Path.join skillsDir manifest_name)
             then [ConsoleWarn
                     [VStr "Warning: Could not parse existing manifest, creating new one"]]
             else [])
         ++ [WriteFileSync (Path.join skillsDir manifest_name)
               (Json (VObj [("skills",
                  VObj [(cname,
                         jsonify (VObj (manifest_record e (ticks w) skillsDir
                                          config cname targetName)))])]))])%list.
Proof.
  intros Hname Hproto Hun Hdir.
  apply String.eqb_neq in Hproto.
  rewrite (updateManifest_run e skillsDir config targetName cname w Hname).
  assert (Hcontent :
            JSON_stringify
              (with_field fresh_manifest "skills"
                 (VObj (assoc_set cname
                          (VObj (manifest_record e (ticks w) skillsDir config
                                   cname targetName)) [])))
            = Json (VObj [("skills",
                 VObj [(cname,
                        jsonify (VObj (manifest_record e (ticks w) skillsDir
                                         config cname targetName)))])])).
  { unfold JSON_stringify, fresh_manifest. cbn [with_field assoc_set].
    change (String.eqb "skills" "skills") with true. cbv iota.
    rewrite (jsonify_singleton "skills" (VObj _) eq_refl).
    rewrite (jsonify_singleton cname (VObj _) eq_refl). reflexivity. }
  unfold unusable_manifest in Hun. unfold loaded_manifest, after_load, has_entry.
  destruct (node_at (fs w) (Path.join skillsDir manifest_name))
    as [[|[s|v]]|] eqn:Hfile; try discriminate.
  - change (get fresh_manifest "skills") with (Ret (VObj [])).
    cbn [assign_object assoc]. rewrite Hproto. cbn [andb].
    rewrite Hcontent.
    rewrite run_writeFileSync_ok;
      [|apply canonical_join, manifest_name_plain
       |unfold is_dir; cbn [tick log fs]; rewrite Hfile; reflexivity
       |cbn [tick log fs]; exact Hdir].
    eexists. split; [reflexivity|]. cbn [fs log with_fs tick trace].
    split; [apply lookup_insert_eq|]. rewrite <- app_assoc. reflexivity.
  - change (get fresh_manifest "skills") with (Ret (VObj [])).
    cbn [assign_object assoc]. rewrite Hproto. cbn [andb].
    rewrite Hcontent.
    rewrite run_writeFileSync_ok;
      [|apply canonical_join, manifest_name_plain
       |unfold is_dir; cbn [tick log fs]; rewrite Hfile; reflexivity
       |cbn [tick log fs]; exact Hdir].
    eexists. split; [reflexivity|]. cbn [fs log with_fs tick trace].
    split; [apply lookup_insert_eq|]. reflexivity.
Qed.

Lemma unusable_manifest_is_replaced_witness :
  exists w',
    Install.updateManifest (env_at "/proj" None) "/proj/.claude/skills"
        scoped_config "claude-code" truncated_manifest_project = (Done tt, w') /\
    fs w' !! Path.join "/proj/.claude/skills" manifest_name
      = Some (File (Json (VObj [("skills",
           VObj [("@scope/pkg",
                  jsonify (VObj (manifest_record (env_at "/proj" None)
                                   (ticks truncated_manifest_project)
                                   "/proj/.claude/skills" scoped_config
                                   "@scope/pkg" "claude-code")))])]))) /\
    trace w'
      = (trace truncated_manifest_project
         ++ (if has_entry (fs truncated_manifest_project)
                  (Path.join "/proj/.claude/skills" manifest_name)
             then [ConsoleWarn
                     [VStr "Warning: Could not parse existing manifest, creating new one"]]
             else [])
         ++ [WriteFileSync (Path.join "/proj/.claude/skills" manifest_name)
               (Json (VObj [("skills",
                  VObj [("@scope/pkg",
                         jsonify (VObj (manifest_record (env_at "/proj" None)
                                          (ticks truncated_manifest_project)
                                          "/proj/.claude/skills" scoped_config
                                          "@scope/pkg" "claude-code")))])]))])%list.
Proof.
  apply (unusable_manifest_is_replaced (env_at "/proj" None)
           "/proj/.claude/skills" scoped_config "claude-code" "@scope/pkg"
           truncated_manifest_project);
    solve [reflexivity | discriminate | vm_compute; reflexivity].
Defined.

End ManifestMore.

(** ** Steps that need no fuel *)

Section Halts.
Import Js Sys Utils Spec.
Local Open Scope sys_scope.

Lemma halts_ret {A} (a : A) : halts (ret a).
Proof. intros w. discriminate. Qed.

Lemma halts_throw {A} (err : error) : halts (@throw A err).
Proof. intros w. discriminate. Qed.

Lemma halts_lift {A} (r : result A) : halts (lift r).
Proof. destruct r; [apply halts_ret|apply halts_throw]. Qed.

Lemma halts_emit (ev : event) : halts (emit ev).
Proof. intros w. discriminate. Qed.

Lemma halts_get_fs : halts get_fs.
Proof. intros w. discriminate. Qed.

Lemma halts_put_fs (m : gmap string node) : halts (put_fs m).
Proof. intros w. discriminate. Qed.

Lemma halts_bind {A B} (m : M A) (k : A -> M B) :
  halts m -> (forall a, halts (k a)) -> halts (bind m k).
Proof.
  intros Hm Hk w. specialize (Hm w). unfold bind.
  destruct (m w) as [[a| |] w1]; simpl in *;
    [apply Hk|discriminate|contradiction].
Qed.

Lemma halts_try_catch {A} (m : M A) (h : error -> M A) :
  halts m -> (forall err, halts (h err)) -> halts (try_catch m h).
Proof.
  intros Hm Hh w. specialize (Hm w). unfold try_catch.
  destruct (m w) as [[a| |] w1]; simpl in *;
    [discriminate|apply Hh|contradiction].
Qed.

Lemma halts_if {A} (b : bool) (m1 m2 : M A) :
  halts m1 -> halts m2 -> halts (if b then m1 else m2).
Proof. destruct b; auto. Qed.

Lemma halts_forEach {A} (l : list A) (f : A -> M unit) :
  (forall x, halts (f x)) -> halts (forEach l f).
Proof.
  intros Hf. induction l as [|x l IH]; simpl.
  - apply halts_ret.
  - apply halts_bind; [apply Hf|]. intros _. exact IH.
Qed.

Lemma halts_existsSync (p : string) : halts (existsSync p).
Proof. intros w. discriminate. Qed.

Lemma halts_rmSync (p : string) : halts (rmSync p).
Proof.
  intros w. unfold rmSync, bind, get_fs.
  destruct (node_at (fs w) p), (fs w !! canonical p); discriminate.
Qed.

Lemma halts_readFileSync (p : string) : halts (readFileSync p).
Proof.
  intros w. unfold readFileSync, bind, get_fs.
  destruct (node_at (fs w) p) as [[|c]|]; discriminate.
Qed.

Lemma halts_JSON_parse (c : content) : halts (JSON_parse c).
Proof. destruct c; [apply halts_throw|apply halts_ret]. Qed.

Lemma halts_writeFileSync (p : string) (c : content) : halts (writeFileSync p c).
Proof.
  intros w. unfold writeFileSync, bind, get_fs.
  destruct (create_error (fs w) p); discriminate.
Qed.

Lemma halts_detect (e : env) (tp isGlobal : value) :
  halts (detectInstallLocation e tp isGlobal).
Proof.
  intros w. rewrite detect_run.
  destruct (get tp _) as [[]|]; discriminate.
Qed.

End Halts.

Ltac halts_steps :=
  repeat first
    [ apply halts_existsSync | apply halts_rmSync | apply halts_readFileSync
    | apply halts_JSON_parse | apply halts_writeFileSync | apply halts_detect
    | apply halts_emit | apply halts_get_fs | apply halts_put_fs
    | apply halts_lift | apply halts_ret | apply halts_throw
    | apply halts_if
    | apply halts_try_catch; [|intros ?]
    | apply halts_forEach; intros ?
    | apply halts_bind; [|intros ?] ].

(** ** The uninstaller as a whole *)

Section UninstallRun.
Import Js Sys Utils Spec Fixtures.
Local Open Scope sys_scope.

Lemma halts_uninstallFromTarget (e : env) (t : target) (config : value) :
  halts (Uninstall.uninstallFromTarget e t config).
Proof. unfold Uninstall.uninstallFromTarget. halts_steps. Qed.

(** The loop of the uninstaller, run. *)
Lemma uninstall_loop_run (e : env) (config : value)
    (targets : list target) (uninstalledFrom : list string) (w : world) :
  exists (names : list string) (w' : world),
    Uninstall.uninstall_loop e config targets uninstalledFrom w
      = (Done (uninstalledFrom ++ names)%list, w') /\
    sublist names (List.map name targets).
Proof.
  revert uninstalledFrom w.
  induction targets as [|t targets IH]; intros acc w; simpl.
  - exists [], w. rewrite app_nil_r. split; [reflexivity|constructor].
  - unfold bind at 1, try_catch, bind at 1.
    pose proof (halts_uninstallFromTarget e t config w) as Hh.
    destruct (Uninstall.uninstallFromTarget e t config w) as [[b|err|] w1];
      simpl in Hh; [| |contradiction].
    + cbn [ret]. destruct b.
      * destruct (IH (acc ++ [name t])%list w1) as [names [w' [Hrun Hsub]]].
        exists (name t :: names), w'. rewrite Hrun, <- app_assoc.
        split; [reflexivity|]. simpl. apply sublist_skip. exact Hsub.
      * destruct (IH acc w1) as [names [w' [Hrun Hsub]]].
        exists names, w'. rewrite Hrun.
        split; [reflexivity|]. simpl. apply sublist_cons. exact Hsub.
    + cbn [console_error emit bind ret].
      match goal with
      | |- context [Uninstall.uninstall_loop e config targets acc ?w2] =>
          destruct (IH acc w2) as [names [w' [Hrun Hsub]]]
      end.
      exists names, w'. rewrite Hrun.
      split; [reflexivity|]. simpl. apply sublist_cons. exact Hsub.
Qed.

(** X8: The per-target loop of the uninstaller always runs to its end, for
    any targets and any configuration: a target that throws is reported
    and skipped.  The names collected are appended to those already
    there and form a subsequence of the targets' names. *)
Theorem uninstall_loop_completes (e : env) (config : value)
    (targets : list target) (uninstalledFrom : list string) (w : world) :
  exists (names : list string) (w' : world),
    Uninstall.uninstall_loop e config targets uninstalledFrom w
      = (Done (uninstalledFrom ++ names)%list, w') /\
    sublist names (List.map name targets).
Proof. apply uninstall_loop_run. Qed.

Lemma halts_uninstall_loop (e : env) (config : value) (targets : list target)
    (acc : list string) :
  halts (Uninstall.uninstall_loop e config targets acc).
Proof.
  intros w. destruct (uninstall_loop_run e config targets acc w)
    as [names [w' [Hrun _]]].
  rewrite Hrun. discriminate.
Qed.

Lemma halts_uninstallSkill (e : env) : halts (Uninstall.uninstallSkill e).
Proof.
  unfold Uninstall.uninstallSkill.
  apply halts_bind; [halts_steps|]. intros _.
  apply halts_bind; [halts_steps|]. intros ex.
  apply halts_if; [halts_steps|].
  apply halts_bind; [halts_steps|]. intros text.
  apply halts_bind; [halts_steps|]. intros config.
  apply halts_bind; [halts_steps|]. intros targets.
  apply halts_bind; [halts_steps|]. intros config_name.
  apply halts_bind; [halts_steps|]. intros _.
  apply halts_bind; [halts_steps|]. intros _.
  apply halts_bind; [apply halts_uninstall_loop|]. intros uninstalledFrom.
  halts_steps.
Qed.

(** X9: The uninstall script never fails: whatever the environment and the
    file system hold (no configuration, a configuration that is not JSON
    or has the wrong shape, targets that throw), it ends with exit
    status 0. *)
Theorem uninstall_script_exits_zero (e : env) (w : world) :
  exists w', Main.uninstall_script e w = (Done 0, w').
Proof.
  unfold Main.uninstall_script, try_catch, bind at 1.
  pose proof (halts_uninstallSkill e w) as Hh.
  destruct (Uninstall.uninstallSkill e w) as [[[]|err|] w1]; simpl in Hh;
    [| |contradiction].
  - eexists. reflexivity.
  - eexists. reflexivity.
Qed.

End UninstallRun.

(** ** The installer as a whole *)

Section NoThrow.
Import Js Sys Utils Spec.
Local Open Scope sys_scope.







End NoThrow.


Section InstallRun.
Import Js Sys Utils Spec Fixtures.
Local Open Scope sys_scope.






(** X11: Without a configuration file the two scripts part ways: the install
    script prints its troubleshooting lines and exits with status 1, the
    uninstall script warns and exits with status 0; neither changes the
    file system. *)
Theorem missing_configuration (fuel : nat) (e : env) (w : world) :
  has_entry (fs w) (Path.join (dirname__ e) ".claude-skill.json") = false ->
  (exists w1, Main.install_script fuel e w = (Done 1, w1) /\ fs w1 = fs w /\
              Install.installSkill fuel e w
                = (Thrown (Error ".claude-skill.json not found"),
                   log w (ConsoleLog [VStr "Installing AI Coding Skill..."]))) /\
  (exists w2, Main.uninstall_script e w = (Done 0, w2) /\ fs w2 = fs w /\
              Uninstall.uninstallSkill e w
                = (Done tt,
                   log (log w (ConsoleLog [VStr "Uninstalling AI Coding Skill..."]))
                       (ConsoleWarn
                          [VStr "Warning: .claude-skill.json not found, skipping cleanup"]))).
Proof.
  intros Hex.
  assert (Hi : Install.installSkill fuel e w
               = (Thrown (Error ".claude-skill.json not found"),
                  log w (ConsoleLog [VStr "Installing AI Coding Skill..."]))).
  { unfold Install.installSkill.
    rewrite run_console_log, run_existsSync. cbn [fs log]. rewrite Hex.
    reflexivity. }
  assert (Hu : Uninstall.uninstallSkill e w
               = (Done tt,
                  log (log w (ConsoleLog [VStr "Uninstalling AI Coding Skill..."]))
                      (ConsoleWarn
                         [VStr "Warning: .claude-skill.json not found, skipping cleanup"]))).
  { unfold Uninstall.uninstallSkill.
    rewrite run_console_log, run_existsSync. cbn [fs log]. rewrite Hex.
    reflexivity. }
  split.
  - unfold Main.install_script, try_catch, bind at 1. rewrite Hi.
    eexists. split; [reflexivity|]. split; reflexivity.
  - unfold Main.uninstall_script, try_catch, bind at 1. rewrite Hu.
    eexists. split; [reflexivity|]. split; reflexivity.
Qed.

Lemma missing_configuration_witness :
  (exists w1,
     Main.install_script 1 (env_at "/proj" None) clean_project = (Done 1, w1) /\
     fs w1 = fs clean_project /\
     Install.installSkill 1 (env_at "/proj" None) clean_project
       = (Thrown (Error ".claude-skill.json not found"),
          log clean_project (ConsoleLog [VStr "Installing AI Coding Skill..."]))) /\
  (exists w2,
     Main.uninstall_script (env_at "/proj" None) clean_project = (Done 0, w2) /\
     fs w2 = fs clean_project /\
     Uninstall.uninstallSkill (env_at "/proj" None) clean_project
       = (Done tt,
          log (log clean_project
                 (ConsoleLog [VStr "Uninstalling AI Coding Skill..."]))
              (ConsoleWarn
                 [VStr "Warning: .claude-skill.json not found, skipping cleanup"]))).
Proof.
  apply (missing_configuration 1 (env_at "/proj" None) clean_project).
  reflexivity.
Defined.

End InstallRun.

(** ** What the uninstaller leaves alone *)

Section Keeps.
Import Js Sys Utils Spec.
Local Open Scope sys_scope.
Variable q : string.

Lemma keeps_same {A} (m : M A) :
  (forall w, fs (snd (m w)) = fs w) -> keeps q m.
Proof. intros H w. rewrite H. reflexivity. Qed.

Lemma keeps_ret {A} (a : A) : keeps q (ret a).
Proof. apply keeps_same. reflexivity. Qed.

Lemma keeps_throw {A} (err : error) : keeps q (@throw A err).
Proof. apply keeps_same. reflexivity. Qed.

Lemma keeps_lift {A} (r : result A) : keeps q (lift r).
Proof. destruct r; [apply keeps_ret|apply keeps_throw]. Qed.

Lemma keeps_emit (ev : event) : keeps q (emit ev).
Proof. apply keeps_same. reflexivity. Qed.

Lemma keeps_existsSync (p : string) : keeps q (existsSync p).
Proof. apply keeps_same. reflexivity. Qed.

Lemma keeps_readFileSync (p : string) : keeps q (readFileSync p).
Proof.
  apply keeps_same. intros w. unfold readFileSync, bind, get_fs.
  destruct (node_at (fs w) p) as [[|c]|]; reflexivity.
Qed.

Lemma keeps_JSON_parse (c : content) : keeps q (JSON_parse c).
Proof. destruct c; [apply keeps_throw|apply keeps_ret]. Qed.

Lemma keeps_bind {A B} (m : M A) (k : A -> M B) :
  keeps q m -> (forall a, keeps q (k a)) -> keeps q (bind m k).
Proof.
  intros Hm Hk w. specialize (Hm w). unfold bind.
  destruct (m w) as [[a| |] w1]; simpl in *; [|exact Hm|exact Hm].
  rewrite (Hk a w1). exact Hm.
Qed.

Lemma keeps_try_catch {A} (m : M A) (h : error -> M A) :
  keeps q m -> (forall err, keeps q (h err)) -> keeps q (try_catch m h).
Proof.
  intros Hm Hh w. specialize (Hm w). unfold try_catch.
  destruct (m w) as [[a| |] w1]; simpl in *; [exact Hm| |exact Hm].
  rewrite (Hh e w1). exact Hm.
Qed.

Lemma keeps_if {A} (b : bool) (m1 m2 : M A) :
  keeps q m1 -> keeps q m2 -> keeps q (if b then m1 else m2).
Proof. destruct b; auto. Qed.

Lemma keeps_writeFileSync (p : string) (c : content) :
  p <> q -> keeps q (writeFileSync p c).
Proof.
  intros Hne w. unfold writeFileSync, bind, get_fs.
  destruct (create_error (fs w) p); [reflexivity|].
  simpl. apply lookup_insert_ne. exact Hne.
Qed.

Lemma lookup_remove_tree_outside (m : gmap string node) (p : string) :
  inside p q = false -> remove_tree m p !! q = m !! q.
Proof.
  intros Hout. unfold remove_tree. rewrite map_lookup_filter.
  destruct (m !! q) as [x|]; simpl; [|reflexivity].
  rewrite option_guard_True by exact Hout. reflexivity.
Qed.

End Keeps.

Ltac keeps_steps :=
  repeat first
    [ apply keeps_existsSync | apply keeps_readFileSync | apply keeps_JSON_parse
    | apply keeps_emit | apply keeps_lift | apply keeps_ret | apply keeps_throw
    | apply keeps_writeFileSync; assumption
    | apply keeps_if
    | apply keeps_try_catch; [|intros ?]
    | apply keeps_bind; [|intros ?] ].

Section UninstallFrame.
Import Js Sys Utils Spec Fixtures.
Local Open Scope sys_scope.

(** [uninstallFromTarget] as its removal steps followed by its tail. *)
Lemma uninstallFromTarget_run (e : env) (t : target) (config : value)
    (w : world) (cname s : string) :
  get config "name" = Ret (VStr cname) ->
  get (paths t) (scope_key e) = Ret (VStr s) ->
  Uninstall.uninstallFromTarget e t config w
  = uninstall_tail
      (Path.join (uninstall_base e (fs w) s) manifest_name)
      cname (name t)
      (removed_flag w
         (Path.join (uninstall_base e (fs w) s) (skill_of cname))
         (Path.join (uninstall_base e (fs w) s) cname)
         (skill_of cname))
      (after_removals
         (log w (ConsoleLog [VStr "Uninstalling from "; VStr (name t); VStr "..."]))
         (Path.join (uninstall_base e (fs w) s) (skill_of cname))
         (Path.join (uninstall_base e (fs w) s) cname)
         (skill_of cname) cname).
Proof.
  intros Hname Hs. unfold Uninstall.uninstallFromTarget.
  rewrite run_console_log. fold (global_toggle e).
  match goal with
  | |- context [bind (detectInstallLocation e (paths t) _) ?k ?w0] =>
      destruct (run_detect_scope e (paths t) s k w0 Hs) as [ty Hrun]
  end.
  rewrite Hrun. clear Hrun. cbn [fs log base].
  set (b := uninstall_base e (fs w) s).
  rewrite Hname, run_lift_ret, extractSkillName_string, run_lift_ret.
  cbn [path_join key_of]. rewrite run_lift_ret.
  set (skillDir := Path.join b (skill_of cname)).
  set (altDir := Path.join b cname).
  set (mp := Path.join b manifest_name).
  unfold after_removals, removed_flag. cbn [fs log].
  rewrite run_existsSync. cbn [fs log].
  destruct (has_entry (fs w) skillDir) eqn:Hex1.
  - rewrite run_assoc, run_rmSync by exact Hex1.
    rewrite run_assoc, run_console_log, run_ret.
    rewrite run_existsSync. unfold removal at 1 2. cbn [fs log with_fs].
    rewrite run_if.
    destruct (has_entry (remove_tree (fs w) skillDir) altDir
              && negb (altDir =? skillDir)) eqn:Hc.
    + assert (Hex2 : has_entry (remove_tree (fs w) skillDir) altDir = true).
      { apply andb_true_iff in Hc. tauto. }
      rewrite run_assoc, run_rmSync by exact Hex2.
      rewrite run_assoc, run_console_log, run_ret.
      reflexivity.
    + rewrite run_ret. reflexivity.
  - rewrite run_ret, run_existsSync. cbn [fs log]. rewrite run_if.
    destruct (has_entry (fs w) altDir && negb (altDir =? skillDir)) eqn:Hc.
    + assert (Hex2 : has_entry (fs w) altDir = true).
      { apply andb_true_iff in Hc. tauto. }
      rewrite run_assoc, run_rmSync by exact Hex2.
      rewrite run_assoc, run_console_log, run_ret.
      reflexivity.
    + rewrite run_ret. reflexivity.
Qed.

Lemma after_removals_outside (w : world)
    (skillDir altDir skillName cname q : string) :
  inside skillDir q = false -> inside altDir q = false ->
  fs (after_removals w skillDir altDir skillName cname) !! q = fs w !! q.
Proof.
  intros H1 H2. unfold after_removals, removal.
  destruct (has_entry (fs w) skillDir); cbn [fs log with_fs];
    match goal with
    | |- context [if ?c then _ else _] => destruct c
    end; cbn [fs log with_fs];
    rewrite ?(lookup_remove_tree_outside q _ altDir H2),
            ?(lookup_remove_tree_outside q _ skillDir H1); reflexivity.
Qed.

Lemma keeps_uninstall_tail (q mp cname tname : string) (removed : bool) :
  mp <> q -> keeps q (uninstall_tail mp cname tname removed).
Proof. intros Hne. unfold uninstall_tail, console_log, console_warn. keeps_steps. Qed.

(** X12: Uninstalling from a target changes nothing outside the two skill
    directories and the manifest: every other path holds afterwards what
    it held before.  A path is outside a directory when it is neither the
    directory, however its name is written, nor below it. *)
Theorem uninstall_touches_nothing_else (e : env) (t : target) (config : value)
    (w : world) (cname s q : string) :
  get config "name" = Ret (VStr cname) ->
  get (paths t) (scope_key e) = Ret (VStr s) ->
  inside (Path.join (uninstall_base e (fs w) s) (skill_of cname)) q = false ->
  inside (Path.join (uninstall_base e (fs w) s) cname) q = false ->
  q <> Path.join (uninstall_base e (fs w) s) manifest_name ->
  fs (snd (Uninstall.uninstallFromTarget e t config w)) !! q = fs w !! q.
Proof.
  intros Hname Hs Hq1 Hq2 Hq3.
  rewrite (uninstallFromTarget_run e t config w cname s Hname Hs).
  rewrite (keeps_uninstall_tail q _ cname (name t) _ (not_eq_sym Hq3)).
  rewrite (after_removals_outside _ _ _ _ _ q Hq1 Hq2). reflexivity.
Qed.

Lemma uninstall_touches_nothing_else_witness :
  fs (snd (Uninstall.uninstallFromTarget (env_at "/proj" None) default_target
             slash_config installed_project)) !! "/proj/package.json"
  = fs installed_project !! "/proj/package.json".
Proof.
  apply (uninstall_touches_nothing_else (env_at "/proj" None) default_target
           slash_config installed_project "pkg/" ".claude/skills"
           "/proj/package.json");
    try reflexivity; vm_compute; solve [reflexivity | discriminate].
Defined.



End UninstallFrame.

(** ** Failures inside one install *)

Section InstallFailures.
Import Js Sys Utils Spec Fixtures.
Local Open Scope sys_scope.

Lemma run_mkdirSync {B} (p : string) (k : unit -> M B) (w : world) :
  bind (mkdirSync p) k w
  = match mkdir_error (fs w) p with
    | Some code => (Thrown (SystemError code p), w)
    | None => k tt (log (with_fs w (make_dirs (fs w) p)) (MkdirSync p))
    end.
Proof.
  unfold bind at 1, mkdirSync, bind at 1, get_fs.
  destruct (mkdir_error (fs w) p); reflexivity.
Qed.

Lemma run_copyFileSync {B} (src dst : string) (k : unit -> M B) (w : world) :
  bind (copyFileSync src dst) k w
  = match node_at (fs w) src with
    | None => (Thrown (SystemError "ENOENT" src), w)
    | Some Dir => (Thrown (SystemError "EISDIR" src), w)
    | Some (File c) =>
        match create_error (fs w) dst with
        | Some code => (Thrown (SystemError code dst), w)
        | None =>
            k tt (log (with_fs w (<[dst := File c]> (fs w))) (CopyFileSync src dst))
        end
    end.
Proof.
  unfold bind at 1, copyFileSync, bind at 1, get_fs.
  destruct (node_at (fs w) src) as [[|c]|]; try reflexivity.
  destruct (create_error (fs w) dst); reflexivity.
Qed.

Lemma lookup_make_dirs (m : gmap string node) (p q : string) (x : node) :
  make_dirs m p !! q = Some x -> x = Dir \/ m !! q = Some x.
Proof.
  unfold make_dirs. induction (ancestors p) as [|a l IH]; simpl; [auto|].
  destruct (decide (a = q)) as [->|Hne].
  - rewrite lookup_insert_eq. intros H. inversion H. auto.
  - rewrite lookup_insert_ne by exact Hne. exact IH.
Qed.

Lemma node_at_make_dirs (m : gmap string node) (p q : string) (x : node) :
  node_at (make_dirs m p) q = Some x -> x = Dir \/ node_at m q = Some x.
Proof.
  unfold node_at.
  destruct (make_dirs m p !! canonical q) as [y|] eqn:Hy; [|discriminate].
  destruct (lookup_make_dirs _ _ _ _ Hy) as [->|Hold].
  - intros H. inversion H. auto.
  - rewrite Hold. auto.
Qed.

(** After the console lines, the optional cleanup and the creation of
    the skill directory, an install without [SKILL.md] ends in an
    exception. *)
Lemma missing_descriptor_rest (e : env) (targetDir : string) (w0 w : world)
    (evs : list event) (k : unit -> M string) :
  has_entry (fs w) (Path.join (dirname__ e) "SKILL.md") = false ->
  trace w = (trace w0 ++ evs)%list ->
  forallb (fun ev => negb (is_copy_or_write ev)) evs = true ->
  exists err w' evs',
    bind (existsSync targetDir) (fun exTarget =>
      bind (if negb exTarget then mkdirSync targetDir else ret tt) (fun _ =>
      bind (existsSync (Path.join (dirname__ e) "SKILL.md")) (fun exMd =>
      bind (if negb exMd then throw (Error "SKILL.md is required but not found")
            else ret tt) (fun _ =>
      bind (copyFileSync (Path.join (dirname__ e) "SKILL.md")
              (Path.join targetDir "SKILL.md")) k)))) w
    = (Thrown err, w') /\
    trace w' = (trace w0 ++ evs')%list /\
    forallb (fun ev => negb (is_copy_or_write ev)) evs' = true.
Proof.
  intros Habs Htrace Hevs. rewrite run_existsSync, run_if.
  destruct (has_entry (fs w) targetDir); cbn [negb].
  - rewrite run_ret, run_existsSync, Habs. cbn [negb].
    rewrite run_throw. eauto 10.
  - rewrite run_mkdirSync.
    destruct (mkdir_error (fs w) targetDir); [eauto 10|].
    rewrite run_existsSync. cbn [fs log with_fs].
    destruct (has_entry (make_dirs (fs w) targetDir)
                (Path.join (dirname__ e) "SKILL.md")) eqn:Hsrc; cbn [negb].
    + rewrite run_ret, run_copyFileSync.
      cbn [fs log with_fs]. unfold has_entry in Hsrc, Habs.
      destruct (node_at (make_dirs (fs w) targetDir)
                  (Path.join (dirname__ e) "SKILL.md"))
        as [x|] eqn:Hx; [|discriminate].
      destruct (node_at_make_dirs _ _ _ _ Hx) as [->|Hold].
      * do 3 eexists. split; [reflexivity|]. cbn [trace log with_fs].
        rewrite Htrace, <- app_assoc. split; [reflexivity|].
        rewrite forallb_app, Hevs. reflexivity.
      * rewrite Hold in Habs. discriminate.
    + rewrite run_throw.
      do 3 eexists. split; [reflexivity|]. cbn [trace log with_fs].
      rewrite Htrace, <- app_assoc. split; [reflexivity|].
      rewrite forallb_app, Hevs. reflexivity.
Qed.

(** X14: Without [SKILL.md] beside the installer, installing to a target
    always ends in an exception; nothing has been copied, no hook has run
    and the manifest has not been written (the cleanup of the legacy
    directory and the creation of the skill directory may have happened
    and are not undone). *)
Theorem missing_descriptor_fails_the_target (fuel : nat) (e : env) (t : target)
    (config : value) (w : world) (cname p : string) :
  get config "name" = Ret (VStr cname) ->
  get (paths t) "project" = Ret (VStr p) ->
  has_entry (fs w) (Path.join (dirname__ e) "SKILL.md") = false ->
  exists err w' evs,
    Install.installToTarget fuel e t config w = (Thrown err, w') /\
    trace w' = (trace w ++ evs)%list /\
    forallb (fun ev => negb (is_copy_or_write ev)) evs = true.
Proof.
  intros Hname Hp Habs. unfold Install.installToTarget.
  rewrite run_console_log.
  rewrite (run_detect_project e (paths t) VUndef p _ _ eq_refl Hp).
  cbn [fs log base type]. fold (install_base e (fs w) p).
  rewrite Hname, run_lift_ret, extractSkillName_string, run_lift_ret.
  cbn [path_join]. rewrite run_lift_ret.
  set (targetDir := Path.join (install_base e (fs w) p) (skill_of cname)).
  set (altDir := Path.join (install_base e (fs w) p) cname).
  rewrite !run_console_log, run_existsSync. cbn [fs log].
  rewrite run_if.
  destruct (has_entry (fs w) altDir && negb (altDir =? targetDir)) eqn:Hc.
  - assert (Hex : has_entry (fs w) altDir = true).
    { apply andb_true_iff in Hc. tauto. }
    rewrite run_assoc, run_console_log, run_assoc.
    rewrite run_rmSync by exact Hex.
    rewrite run_console_log.
    eapply missing_descriptor_rest.
    + cbn [fs log with_fs]. apply has_entry_remove_tree_absent. exact Habs.
    + cbn [trace log with_fs]. rewrite <- !app_assoc. reflexivity.
    + reflexivity.
  - rewrite run_ret.
    eapply missing_descriptor_rest.
    + cbn [fs log with_fs]. exact Habs.
    + cbn [trace log with_fs]. rewrite <- !app_assoc. reflexivity.
    + reflexivity.
Qed.

Lemma missing_descriptor_fails_the_target_witness :
  exists err w' evs,
    Install.installToTarget 1 (env_at "/proj" None) default_target scoped_config
        no_descriptor_project = (Thrown err, w') /\
    trace w' = (trace no_descriptor_project ++ evs)%list /\
    forallb (fun ev => negb (is_copy_or_write ev)) evs = true.
Proof.
  apply (missing_descriptor_fails_the_target 1 (env_at "/proj" None)
           default_target scoped_config no_descriptor_project
           "@scope/pkg" ".claude/skills"); reflexivity.
Defined.

End InstallFailures.

Section WrongShape.
Import Js Sys Utils Spec Fixtures.
Local Open Scope sys_scope.







(** On that project the install of the target ends in the [TypeError] of
    the manifest update, after [SKILL.md] has been copied. *)
Example wrong_shape_install_fails :
  exists msg w',
    Install.installToTarget 1 (env_at "/proj" None) default_target
        scoped_config wrong_shape_project = (Thrown (TypeError msg), w') /\
    is_file (fs w') "/proj/.claude/skills/pkg/SKILL.md" = true.
Proof. do 2 eexists. split; vm_compute; reflexivity. Qed.

End WrongShape.

(** ** The postinstall hook *)

Section HookFacts.
Import Js Sys Utils Spec Fixtures.
Local Open Scope sys_scope.

Lemma no_exec_copyDir (fuel : nat) (src dest : string) :
  emits (fun ev => negb (is_exec ev)) (Install.copyDir fuel src dest).
Proof.
  revert src dest. induction fuel as [|fuel IH]; intros src dest; simpl.
  - apply emits_out_of_fuel.
  - apply emits_bind; [apply emits_mkdirSync; reflexivity|]. intros _.
    apply emits_bind; [apply emits_readdirSync|]. intros entries.
    apply emits_forEach. intros [entry_name isDir]. simpl.
    destruct isDir; [apply IH|apply emits_copyFileSync; reflexivity].
Qed.

Lemma no_exec_copy_entry (fuel : nat) (e : env) (targetDir : string)
    (entry : string * value) :
  emits (fun ev => negb (is_exec ev)) (Install.copy_entry fuel e targetDir entry).
Proof.
  unfold Install.copy_entry.
  apply emits_bind; [apply emits_existsSync|]. intros ex.
  apply emits_if; [apply emits_emit; reflexivity|].
  apply emits_bind; [apply emits_lift|]. intros destPath.
  apply emits_bind; [apply emits_statSync|]. intros isDirectory.
  apply emits_if.
  - apply emits_bind; [apply no_exec_copyDir|]. intros _.
    apply emits_emit; reflexivity.
  - emits_steps.
Qed.

Lemma no_exec_updateManifest (e : env) (skillsDir : string) (config : value)
    (targetName : string) :
  emits (fun ev => negb (is_exec ev))
        (Install.updateManifest e skillsDir config targetName).
Proof. unfold Install.updateManifest. emits_steps. Qed.

Lemma done_or_only_bind {A B} (P : event -> bool) (m : M A) (k : A -> M B) :
  emits P m -> (forall a, done_or_only P (k a)) -> done_or_only P (bind m k).
Proof.
  intros Hm Hk w. destruct (Hm w) as [evs [Ht Hp]]. unfold bind.
  destruct (m w) as [[a| |] w1]; simpl in *.
  - destruct (Hk a w1) as [evs' [Ht' Hor]]. exists (evs ++ evs')%list.
    rewrite Ht', Ht, app_assoc. split; [reflexivity|].
    destruct Hor as [Hp'|Hdone]; [left|right; exact Hdone].
    rewrite forallb_app, Hp, Hp'. reflexivity.
  - exists evs. split; [exact Ht|left; exact Hp].
  - exists evs. split; [exact Ht|left; exact Hp].
Qed.

Lemma done_or_only_done {A} (P : event -> bool) (m : M A) :
  (forall w, exists a w' evs,
      m w = (Done a, w') /\ trace w' = (trace w ++ evs)%list) ->
  done_or_only P m.
Proof.
  intros H w. destruct (H w) as [a [w' [evs [Hrun Ht]]]].
  exists evs. rewrite Hrun. simpl. split; [exact Ht|right; eauto].
Qed.

(** From the hook on, [installToTarget] cannot fail. *)
Lemma hook_and_after (e : env) (t : target) (targetDir : string)
    (hooks postinstall : value) (w : world) :
  exists a w' evs,
    bind (if truthy hooks && truthy postinstall then
            bind (console_log [VStr "Running postinstall hook..."]) (fun _ =>
            try_catch
              (match postinstall with
               | VStr cmd =>
                   bind get_fs (fun m =>
                   let (ok, m') := execSync e cmd targetDir m in
                   bind (put_fs m') (fun _ =>
                   bind (emit (ExecSync cmd targetDir)) (fun _ =>
                   if ok then console_log [VStr "Postinstall hook completed"]
                   else throw (Error "Command failed"))))
               | _ => throw (TypeError "The command argument must be of type string")
               end)
              (fun error0 => console_warn [VStr "Warning: postinstall hook failed"]))
          else ret tt)
         (fun _ =>
            bind (console_log [VStr "Installed to "; VStr (name t)])
                 (fun _ => ret targetDir)) w
    = (Done a, w') /\ trace w' = (trace w ++ evs)%list.
Proof.
  destruct (truthy hooks && truthy postinstall).
  - rewrite run_assoc, run_console_log.
    destruct postinstall as [| |b|n|cmd|items|fields|neg|nm];
      try (cbn [bind try_catch throw console_warn console_log emit ret
                fst snd trace log];
           do 3 eexists; split; [reflexivity|];
           rewrite <- !app_assoc; reflexivity).
    unfold bind at 1, try_catch, bind at 1, get_fs. cbn [fs log].
    destruct (execSync e cmd targetDir (fs w)) as [[|] m'];
      cbn [bind try_catch throw console_warn console_log emit ret put_fs
           fst snd trace log fs];
      do 3 eexists; (split; [reflexivity|]);
      rewrite <- !app_assoc; reflexivity.
  - rewrite run_ret, run_console_log.
    do 3 eexists. split; [reflexivity|]. cbn [trace log]. reflexivity.
Qed.

Lemma installToTarget_done_or_no_exec (fuel : nat) (e : env) (t : target)
    (config : value) :
  done_or_only (fun ev => negb (is_exec ev))
               (Install.installToTarget fuel e t config).
Proof.
  unfold Install.installToTarget.
  apply done_or_only_bind; [emits_steps|]. intros _.
  apply done_or_only_bind.
  { intros w. exists []. rewrite detect_silent, app_nil_r. split; reflexivity. }
  intros location.
  apply done_or_only_bind; [emits_steps|]. intros config_name.
  apply done_or_only_bind; [emits_steps|]. intros skillName.
  apply done_or_only_bind; [emits_steps|]. intros altTargetDir.
  apply done_or_only_bind; [emits_steps|]. intros _.
  apply done_or_only_bind; [emits_steps|]. intros _.
  apply done_or_only_bind; [emits_steps|]. intros exAlt.
  apply done_or_only_bind; [emits_steps|]. intros _.
  apply done_or_only_bind; [emits_steps|]. intros exTarget.
  apply done_or_only_bind; [emits_steps|]. intros _.
  apply done_or_only_bind; [emits_steps|]. intros exMd.
  apply done_or_only_bind; [emits_steps|]. intros _.
  apply done_or_only_bind; [emits_steps|]. intros _.
  apply done_or_only_bind; [emits_steps|]. intros _.
  apply done_or_only_bind; [emits_steps|]. intros files.
  apply done_or_only_bind.
  { apply emits_if; [|apply emits_ret].
    apply emits_forEach. intros entry. apply no_exec_copy_entry. }
  intros _.
  apply done_or_only_bind; [apply no_exec_updateManifest|]. intros _.
  apply done_or_only_bind; [emits_steps|]. intros hooks.
  apply done_or_only_bind; [emits_steps|]. intros postinstall.
  apply done_or_only_done. intros w. apply hook_and_after.
Qed.

(** X15: Once the postinstall command has been run, the install of that
    target returns normally, whether the command succeeded or failed: a
    failing hook never fails the install. *)
Theorem hook_failure_is_contained (fuel : nat) (e : env) (t : target)
    (config : value) (w : world) :
  existsb is_exec
    (skipn (length (trace w))
           (trace (snd (Install.installToTarget fuel e t config w)))) = true ->
  exists targetDir,
    fst (Install.installToTarget fuel e t config w) = Done targetDir.
Proof.
  intros Hexec.
  destruct (installToTarget_done_or_no_exec fuel e t config w)
    as [evs [Ht [Hall|Hdone]]]; [|exact Hdone].
  rewrite Ht in Hexec.
  rewrite List.skipn_app, List.skipn_all, Nat.sub_diag in Hexec.
  simpl in Hexec. exfalso. clear Ht. revert Hexec Hall.
  induction evs as [|ev evs IH]; simpl; [discriminate|].
  intros Hexec Hall.
  apply andb_true_iff in Hall. destruct Hall as [H1 H2].
  destruct (is_exec ev); [discriminate|]. simpl in Hexec. exact (IH Hexec H2).
Qed.

Lemma hook_failure_is_contained_witness :
  exists targetDir,
    fst (Install.installToTarget 1 failing_hook_env default_target hooked_config
           clean_project) = Done targetDir.
Proof.
  apply (hook_failure_is_contained 1 failing_hook_env default_target
           hooked_config clean_project).
  vm_compute. reflexivity.
Defined.

End HookFacts.

(** ** Copying declared files *)

Section CopyFacts.
Import Js Sys Utils Spec Fixtures.
Local Open Scope sys_scope.

(** X16: Whatever the file system holds and however the copy ends, [copyDir]
    only makes directories and copies files: it removes nothing, writes
    no manifest, prints nothing and runs no command. *)
Theorem copyDir_only_makes_and_copies (fuel : nat) (src dest : string)
    (w : world) :
  exists evs,
    trace (snd (Install.copyDir fuel src dest w)) = (trace w ++ evs)%list /\
    forallb is_mkdir_or_copy evs = true.
Proof.
  revert src dest w. induction fuel as [|fuel IH]; intros src dest.
  - apply (emits_out_of_fuel is_mkdir_or_copy).
  - simpl. apply (emits_bind is_mkdir_or_copy);
      [apply emits_mkdirSync; reflexivity|]. intros _.
    apply emits_bind; [apply emits_readdirSync|]. intros entries.
    apply emits_forEach. intros [entry_name isDir]. simpl.
    destruct isDir; [exact (IH _ _)|apply emits_copyFileSync; reflexivity].
Qed.

Lemma missing_entries_are_skipped (fuel : nat) (e : env) (targetDir : string)
    (l : list (string * value)) (w : world) :
  forallb (fun entry : string * value =>
             negb (has_entry (fs w) (Path.join (dirname__ e) (fst entry))))
          l = true ->
  exists w',
    forEach l (Install.copy_entry fuel e targetDir) w = (Done tt, w') /\
    fs w' = fs w /\
    trace w' = (trace w ++ List.map missing_source_warning l)%list.
Proof.
  revert w. induction l as [|entry l IH]; intros w Hall; simpl.
  - exists w. rewrite app_nil_r. repeat split.
  - simpl in Hall. apply andb_true_iff in Hall. destruct Hall as [H1 H2].
    apply negb_true_iff in H1.
    unfold Install.copy_entry at 1.
    rewrite run_assoc, run_existsSync, H1. cbn [negb].
    rewrite run_console_warn.
    destruct (IH (log w (missing_source_warning entry)) H2) as [w' [Hrun [Hfs Ht]]].
    exists w'. split; [exact Hrun|]. split; [exact Hfs|].
    rewrite Ht. cbn [trace log]. rewrite <- app_assoc. reflexivity.
Qed.

(** X17: Declared files whose sources are all missing are skipped one by
    one: the loop over [Object.entries(config.files)] returns normally,
    leaves the file system as it was and prints one warning per entry, in
    the order of [Object.entries]: integer-like keys first, ascending,
    then the other keys as declared. *)
Theorem missing_sources_are_skipped (fuel : nat) (e : env) (targetDir : string)
    (files : value) (w : world) :
  forallb (fun entry : string * value =>
             negb (has_entry (fs w) (Path.join (dirname__ e) (fst entry))))
          (entries files) = true ->
  exists w',
    forEach (entries files) (Install.copy_entry fuel e targetDir) w
      = (Done tt, w') /\
    fs w' = fs w /\
    trace w' = (trace w ++ List.map missing_source_warning (entries files))%list.
Proof. apply missing_entries_are_skipped. Qed.

Lemma missing_sources_are_skipped_witness :
  exists w',
    forEach (entries (VObj [("docs", VStr "docs"); ("README.md", VStr "README.md");
                            ("1", VStr "one")]))
      (Install.copy_entry 1 (env_at "/proj" None) "/proj/.claude/skills/pkg")
      clean_project = (Done tt, w') /\
    fs w' = fs clean_project /\
    trace w' = (trace clean_project
                ++ [missing_source_warning ("1", VStr "one");
                    missing_source_warning ("docs", VStr "docs");
                    missing_source_warning ("README.md", VStr "README.md")])%list.
Proof.
  apply (missing_sources_are_skipped 1 (env_at "/proj" None)
           "/proj/.claude/skills/pkg"
           (VObj [("docs", VStr "docs"); ("README.md", VStr "README.md");
                  ("1", VStr "one")])
           clean_project).
  vm_compute. reflexivity.
Defined.

End CopyFacts.

(** ** Uninstalling twice *)

Section UninstallTwice.
Import Js Sys Utils Spec Fixtures.
Local Open Scope sys_scope.

(** X18: A second uninstall from the same base directory finds nothing: it
    returns [false], without throwing. *)
Theorem second_uninstall_finds_nothing (e : env) (t : target) (config : value)
    (w : world) (cname g p : string) :
  get config "name" = Ret (VStr cname) ->
  get (paths t) "global" = Ret (VStr g) ->
  get (paths t) "project" = Ret (VStr p) ->
  base (location_for e (fs (snd (Uninstall.uninstallFromTarget e t config w)))
          (global_toggle e) g p)
    = base (location_for e (fs w) (global_toggle e) g p) ->
  exists w'',
    Uninstall.uninstallFromTarget e t config
      (snd (Uninstall.uninstallFromTarget e t config w))
    = (Done false, w'').
Proof.
  intros Hname Hg Hp Hbase.
  destruct (uninstallFromTarget_spec e t config w cname g p Hname Hg Hp)
    as [w1 [Hrun1 [Hgone1 Hgone2]]].
  rewrite Hrun1 in *. cbn [snd] in *.
  destruct (uninstallFromTarget_spec e t config w1 cname g p Hname Hg Hp)
    as [w2 [Hrun2 _]].
  rewrite Hbase, Hgone1, Hgone2 in Hrun2. eauto.
Qed.

Lemma second_uninstall_finds_nothing_witness :
  exists w'',
    Uninstall.uninstallFromTarget (env_at "/proj" None) default_target
      scoped_config
      (snd (Uninstall.uninstallFromTarget (env_at "/proj" None) default_target
              scoped_config installed_project))
    = (Done false, w'').
Proof.
  apply (second_uninstall_finds_nothing (env_at "/proj" None) default_target
           scoped_config installed_project "@scope/pkg"
           ".claude/skills" ".claude/skills");
    try reflexivity; vm_compute; reflexivity.
Defined.

End UninstallTwice.
